(** * QuantDeck: storage, routes and results dashboard

  A shallow embedding of the TypeScript server ([server/storage.ts],
  [server/routes.ts] as bundled in [dist/index.js], [shared/schema.ts]) and
  of the results dashboard component, followed by the properties
  established about them.  The Python backtest service is not part of the
  TypeScript sources; the engine it is specified to implement is modelled
  in [Module Engine] from the design document. *)

From Stdlib Require Import List String Ascii Bool ZArith QArith Qround Lia Lqa.
Import ListNotations.

Set Warnings "-register-all".

Local Open Scope list_scope.
Local Open Scope string_scope.

(** ** JavaScript values and strings *)

Module Js.

(** A [Date] is represented by its time value (milliseconds since the
    epoch); JavaScript compares dates with [>=] and [<=] through it. *)
Definition Date := Z.

(** Numbers are the finite ones; the code only compares them with zero,
    copies them and prints them. *)
Definition number := Q.

Inductive JsVal : Type :=
| JUndefined
| JNull
| JBool (b : bool)
| JNum (n : number)
| JStr (s : string)
| JDate (d : Date)
| JArr (items : list JsVal)
| JObj (fields : list (string * JsVal)).

(** [a > b] and [a < b] on numbers. *)
Definition num_gt (a b : number) : bool := negb (Qle_bool a b).
Definition num_lt (a b : number) : bool := negb (Qle_bool b a).

(** Truthiness, as used by [if (x)], [!x] and [x && y]. *)
Definition truthy (v : JsVal) : bool :=
  match v with
  | JUndefined | JNull => false
  | JBool b => b
  | JNum n => negb (Qeq_bool n 0)
  | JStr s => negb (s =? EmptyString)
  | JDate _ | JArr _ | JObj _ => true
  end.

(** Property read [o.k]; [None] stands for the [TypeError] thrown when
    [o] is [null] or [undefined]. *)
Fixpoint assoc (k : string) (fields : list (string * JsVal)) : JsVal :=
  match fields with
  | [] => JUndefined
  | (k', v) :: rest => if k' =? k then v else assoc k rest
  end.

Definition get_prop (o : JsVal) (k : string) : option JsVal :=
  match o with
  | JUndefined | JNull => None
  | JObj fields => Some (assoc k fields)
  | _ => Some JUndefined
  end.

(** The type tests a schema makes on a value: they look at the kind of
    value only. *)
Definition is_str (v : JsVal) : bool :=
  match v with JStr _ => true | _ => false end.
Definition is_date (v : JsVal) : bool :=
  match v with JDate _ => true | _ => false end.
Definition is_num (v : JsVal) : bool :=
  match v with JNum _ => true | _ => false end.
Definition is_num_or_nullish (v : JsVal) : bool :=
  match v with JNum _ | JNull | JUndefined => true | _ => false end.
Definition is_json (v : JsVal) : bool :=
  match v with JUndefined | JDate _ => false | _ => true end.

(** The range a schema derived from a [real(...)] column allows, ends
    included. *)
Definition in_real_range (n : number) : bool :=
  Qle_bool (-8388608) n && Qle_bool n 8388607.

Definition is_real (v : JsVal) : bool :=
  match v with JNum n => in_real_range n | _ => false end.
Definition is_real_or_nullish (v : JsVal) : bool :=
  match v with
  | JNum n => in_real_range n
  | JNull | JUndefined => true
  | _ => false
  end.


(** [hay.includes(needle)]. *)
Fixpoint includes (needle hay : string) : bool :=
  prefix needle hay ||
  match hay with
  | EmptyString => false
  | String _ hay' => includes needle hay'
  end.

(** [s.toLowerCase()] on the ASCII letters. *)
Definition lower_char (c : ascii) : ascii :=
  let n := nat_of_ascii c in
  if (65 <=? n)%nat && (n <=? 90)%nat then ascii_of_nat (n + 32) else c.

Fixpoint toLowerCase (s : string) : string :=
  match s with
  | EmptyString => EmptyString
  | String c s' => String (lower_char c) (toLowerCase s')
  end.

(** [parts.join(sep)] on an array of strings. *)
Fixpoint join (sep : string) (parts : list string) : string :=
  match parts with
  | [] => EmptyString
  | [p] => p
  | p :: rest => p ++ sep ++ join sep rest
  end.

(** [s.split(sep)[0]] for a one-character separator. *)
Fixpoint split_head (sep : ascii) (s : string) : string :=
  match s with
  | EmptyString => EmptyString
  | String c s' => if Ascii.eqb c sep then EmptyString
                   else String c (split_head sep s')
  end.

(** [s.replace(/c/g, by)] for a one-character pattern. *)
Fixpoint replace_all (c : ascii) (by_ : string) (s : string) : string :=
  match s with
  | EmptyString => EmptyString
  | String c' s' => (if Ascii.eqb c' c then by_ else String c' EmptyString)
                    ++ replace_all c by_ s'
  end.

(** The double-quote and backslash characters and the line feed. *)
Definition dq : string := String (ascii_of_nat 34) EmptyString.
Definition bslash : string := String (ascii_of_nat 92) EmptyString.
Definition nl : string := String (ascii_of_nat 10) EmptyString.

(** A [Map<string, V>]: keys are unique and iteration follows insertion
    order; [set] on a present key keeps its position. *)
Module Map.
Definition t (V : Type) := list (string * V).

Definition empty {V} : t V := [].

Fixpoint get {V} (k : string) (m : t V) : option V :=
  match m with
  | [] => None
  | (k', v) :: rest => if k' =? k then Some v else get k rest
  end.

Fixpoint set {V} (k : string) (v : V) (m : t V) : t V :=
  match m with
  | [] => [(k, v)]
  | (k', v') :: rest =>
      if k' =? k then (k, v) :: rest else (k', v') :: set k v rest
  end.

Fixpoint delete {V} (k : string) (m : t V) : bool * t V :=
  match m with
  | [] => (false, [])
  | (k', v') :: rest =>
      if k' =? k then (true, rest)
      else let '(found, rest') := delete k rest in (found, (k', v') :: rest')
  end.

Definition values {V} (m : t V) : list V := map snd m.
Definition keys {V} (m : t V) : list string := map fst m.
End Map.

End Js.

Import Js.

(** ** shared/schema.ts: the row types *)

Module Schema.

(** [typeof strategies.$inferSelect]. *)
Record Strategy := mkStrategy {
  s_id : string;
  s_name : string;
  s_type : string;
  s_description : option string;
  s_parameters : JsVal;
  s_isActive : option bool;          (* boolean | null *)
  s_createdAt : option Date
}.

(** [z.infer<typeof insertStrategySchema>]; an [isActive] that is left
    out or [null] is [None]. *)
Record InsertStrategy := mkInsertStrategy {
  is_name : string;
  is_type : string;
  is_description : option string;
  is_parameters : JsVal;
  is_isActive : option bool
}.

(** A property that may be absent ([undefined]), [null] or present. *)
Inductive nullable (A : Type) : Type :=
| Absent
| IsNull
| Present (a : A).
Arguments Absent {A}.
Arguments IsNull {A}.
Arguments Present {A} a.

(** [typeof backtests.$inferSelect]; [userId] is absent on the records
    the storage creates. *)
Record Backtest := mkBacktest {
  b_id : string;
  b_userId : option string;
  b_ticker : string;
  b_startDate : Date;
  b_endDate : Date;
  b_initialCapital : number;
  b_commission : nullable number;
  b_strategyConfig : JsVal;
  b_results : JsVal;
  b_status : option string;
  b_createdAt : option Date
}.

(** [z.infer<typeof insertBacktestSchema>]: the six picked columns. *)
Record InsertBacktest := mkInsertBacktest {
  ib_ticker : string;
  ib_startDate : Date;
  ib_endDate : Date;
  ib_initialCapital : number;
  ib_commission : nullable number;
  ib_strategyConfig : JsVal
}.

(** [Partial<Backtest>]: [None] is an absent property. *)
Record PartialBacktest := mkPartialBacktest {
  p_id : option string;
  p_userId : option (option string);
  p_ticker : option string;
  p_startDate : option Date;
  p_endDate : option Date;
  p_initialCapital : option number;
  p_commission : option (nullable number);
  p_strategyConfig : option JsVal;
  p_results : option JsVal;
  p_status : option (option string);
  p_createdAt : option (option Date)
}.

Definition no_patch : PartialBacktest :=
  mkPartialBacktest None None None None None None None None None None None.

(** [{ status: s }] and [{ status: s, results }]. *)
Definition patch_status (s : string) : PartialBacktest :=
  mkPartialBacktest None None None None None None None None None
                    (Some (Some s)) None.

Definition patch_status_results (s : string) (r : JsVal) : PartialBacktest :=
  mkPartialBacktest None None None None None None None None (Some r)
                    (Some (Some s)) None.

Definition over {A} (patch : option A) (old : A) : A :=
  match patch with Some v => v | None => old end.

(** [{ ...existing, ...backtest }]. *)
Definition spread (existing : Backtest) (p : PartialBacktest) : Backtest :=
  mkBacktest
    (over (p_id p) (b_id existing))
    (over (p_userId p) (b_userId existing))
    (over (p_ticker p) (b_ticker existing))
    (over (p_startDate p) (b_startDate existing))
    (over (p_endDate p) (b_endDate existing))
    (over (p_initialCapital p) (b_initialCapital existing))
    (over (p_commission p) (b_commission existing))
    (over (p_strategyConfig p) (b_strategyConfig existing))
    (over (p_results p) (b_results existing))
    (over (p_status p) (b_status existing))
    (over (p_createdAt p) (b_createdAt existing)).

(** [typeof marketData.$inferSelect]. *)
Record MarketData := mkMarketData {
  md_id : string;
  md_ticker : string;
  md_date : Date;
  md_open : number;
  md_high : number;
  md_low : number;
  md_close : number;
  md_volume : Z;
  md_adjClose : number
}.

End Schema.

Import Schema.

(** ** server/storage.ts: MemStorage *)

Module Storage.

Record MemStorage := mkStorage {
  strategies : Map.t Strategy;
  backtests : Map.t Backtest;
  marketData : Map.t MarketData
}.

Definition with_backtests (st : MemStorage) (m : Map.t Backtest) : MemStorage :=
  mkStorage (strategies st) m (marketData st).

(** The arrow function [s => s.isActive] used as a filter predicate. *)
Definition isActive_truthy (s : Strategy) : bool :=
  match s_isActive s with
  | Some b => b
  | None => false
  end.

Definition getStrategies (st : MemStorage) : list Strategy :=
  filter isActive_truthy (Map.values (strategies st)).

Definition getStrategy (st : MemStorage) (id : string) : option Strategy :=
  Map.get id (strategies st).

(** [createStrategy]; the identifier drawn by [randomUUID()] and the clock
    reading of [new Date()] are arguments. *)
Definition createStrategy (id : string) (now : Date) (strategy : InsertStrategy)
           (st : MemStorage) : Strategy * MemStorage :=
  let newStrategy :=
    mkStrategy id (is_name strategy) (is_type strategy)
               (is_description strategy) (is_parameters strategy)
               (is_isActive strategy) (Some now) in
  (newStrategy,
   mkStorage (Map.set id newStrategy (strategies st)) (backtests st)
             (marketData st)).

Definition getBacktest (st : MemStorage) (id : string) : option Backtest :=
  Map.get id (backtests st).

(** [createBacktest]; the identifier drawn by [randomUUID()] and the
    clock reading of [new Date()] are arguments. *)
Definition createBacktest (id : string) (now : Date) (backtest : InsertBacktest)
           (st : MemStorage) : Backtest * MemStorage :=
  let newBacktest :=
    mkBacktest id None
               (ib_ticker backtest) (ib_startDate backtest)
               (ib_endDate backtest) (ib_initialCapital backtest)
               (ib_commission backtest) (ib_strategyConfig backtest)
               JNull (Some "pending") (Some now) in
  (newBacktest, with_backtests st (Map.set id newBacktest (backtests st))).

Definition updateBacktest (id : string) (backtest : PartialBacktest)
           (st : MemStorage) : option Backtest * MemStorage :=
  match Map.get id (backtests st) with
  | None => (None, st)
  | Some existing =>
      let updated := spread existing backtest in
      (Some updated, with_backtests st (Map.set id updated (backtests st)))
  end.

(** [d => d.date >= startDate && d.date <= endDate]. *)
Definition in_range (startDate endDate : Date) (d : MarketData) : bool :=
  (startDate <=? md_date d)%Z && (md_date d <=? endDate)%Z.

(** [getMarketData]; an optional argument left out is [None], and a
    [Date] object is always truthy. *)
Definition getMarketData (st : MemStorage) (ticker : string)
           (startDate endDate : option Date) : list MarketData :=
  let data := filter (fun d => md_ticker d =? ticker)
                     (Map.values (marketData st)) in
  match startDate, endDate with
  | Some s, Some e => filter (in_range s e) data
  | _, _ => data
  end.

End Storage.

Import Storage.

(** ** server/routes.ts: the request handlers *)

Module Routes.

Record Response := mkResponse {
  statusCode : Z;
  payload : JsVal
}.

(** [spawn(command, args)] from [child_process]. *)
Inductive Effect : Type :=
| Spawn (command : string) (args : list string).

Inductive Exn : Type :=
| ReferenceError (name : string)
| TypeError
| SyntaxError
| ZodError.

(** What a handler can see and change: the storage singleton, the child
    processes started so far, the responses written to [res], and the event
    listeners registered on a child process, by event name. *)
Record World := mkWorld {
  store : MemStorage;
  spawned : list Effect;
  sent : list Response;
  listeners : list string
}.

Definition initial_world (st : MemStorage) : World := mkWorld st [] [] [].

(** What a child process reports when it closes: its exit code ([None]
    for the [null] passed when a signal ended it), what [JSON.parse] makes
    of the text collected from its standard output ([None] when it throws),
    and the text collected from its standard error. *)
Record ChildExit := mkChildExit {
  exit_code : option Z;
  stdout_json : option JsVal;
  stderr : string
}.

(** *** A state and exception monad for handler bodies *)

Inductive Result (A : Type) : Type :=
| Ok (a : A)
| Throw (e : Exn).
Arguments Ok {A} a.
Arguments Throw {A} e.

Definition M (A : Type) : Type := World -> Result A * World.

Definition ret {A} (a : A) : M A := fun w => (Ok a, w).

Definition bind {A B} (m : M A) (k : A -> M B) : M B :=
  fun w => match m w with
           | (Ok a, w') => k a w'
           | (Throw e, w') => (Throw e, w')
           end.

Definition throw {A} (e : Exn) : M A := fun w => (Throw e, w).

(** [try { body } catch (error) { handler }]. *)
Definition try_catch {A} (body : M A) (handler : Exn -> M A) : M A :=
  fun w => match body w with
           | (Ok a, w') => (Ok a, w')
           | (Throw e, w') => handler e w'
           end.

Notation "x <- m ;; k" := (bind m (fun x => k))
  (at level 61, m at next level, right associativity).
Notation "m ;;; k" := (bind m (fun _ => k))
  (at level 61, right associativity).

Definition getBacktestM (id : string) : M (option Backtest) :=
  fun w => (Ok (getBacktest (store w) id), w).

Definition updateBacktestM (id : string) (p : PartialBacktest) : M unit :=
  fun w => let '(_, st') := updateBacktest id p (store w) in
           (Ok tt, mkWorld st' (spawned w) (sent w) (listeners w)).

Definition createBacktestM (id : string) (now : Date) (b : InsertBacktest)
  : M Backtest :=
  fun w => let '(created, st') := createBacktest id now b (store w) in
           (Ok created, mkWorld st' (spawned w) (sent w) (listeners w)).

Definition spawnM (command : string) (args : list string) : M unit :=
  fun w => (Ok tt, mkWorld (store w) (spawned w ++ [Spawn command args])%list
                           (sent w) (listeners w)).

(** [res.status(code).json(body)]. *)
Definition send (code : Z) (body : JsVal) : M unit :=
  fun w => (Ok tt, mkWorld (store w) (spawned w)
                           (sent w ++ [mkResponse code body])%list (listeners w)).

Definition error_body (message : string) : JsVal :=
  JObj [("error", JStr message)].

(** Evaluating the identifier [x]: a [ReferenceError] when no binding of
    that name is in scope. *)
Definition resolve (scope : list string) (x : string) : M unit :=
  if existsb (String.eqb x) scope then ret tt else throw (ReferenceError x).

(** [child.on(event, callback)] and [child.stdout.on("data", ...)]. *)
Definition on (event : string) : M unit :=
  fun w => (Ok tt, mkWorld (store w) (spawned w) (sent w)
                           (listeners w ++ [event])%list).

(** The bindings of the bundled module [dist/index.js] and the globals of
    the runtime the handlers use. *)
Definition module_scope : list string :=
  [ "express2"; "createServer"; "randomUUID"; "MemStorage"; "storage";
    "spawn"; "path"; "sql"; "pgTable"; "text"; "varchar"; "timestamp";
    "jsonb"; "real"; "integer"; "boolean"; "createInsertSchema"; "users";
    "strategies"; "backtests"; "trades"; "marketData"; "insertUserSchema";
    "insertStrategySchema"; "insertBacktestSchema"; "insertTradeSchema";
    "insertMarketDataSchema"; "registerRoutes"; "express"; "fs"; "path3";
    "createViteServer"; "createLogger"; "defineConfig"; "react"; "path2";
    "loadReplitPlugins"; "vite_config_default"; "nanoid"; "viteLogger";
    "log"; "setupVite"; "serveStatic"; "app";
    "process"; "JSON"; "console"; "Date"; "Map"; "Array"; "parseInt";
    "Error" ].

(** [path.join(process.cwd(), "server/services")], for a working directory
    that is an absolute path without a trailing separator. *)
Definition services_dir (cwd : string) : string := cwd ++ "/server/services".

(** A template-literal hole filled with a query parameter: a parameter
    that was not given prints as [undefined]. *)
Definition show_query (q : option string) : string :=
  match q with
  | Some s => s
  | None => "undefined"
  end.

(** *** GET /api/market-data/:ticker *)

Definition market_data_script (cwd ticker : string)
           (start_date end_date : option string) : string :=
  join nl
    [ EmptyString;
      "import sys";
      "import os";
      "sys.path.append('" ++ services_dir cwd ++ "')";
      "os.chdir('" ++ services_dir cwd ++ "')";
      "from data_service import DataService";
      "import json";
      EmptyString;
      "try:";
      "    data = DataService.fetch_stock_data('" ++ ticker ++ "', '"
        ++ show_query start_date ++ "', '" ++ show_query end_date ++ "')";
      "    print(json.dumps(data))";
      "except Exception as e:";
      "    import traceback";
      "    print(json.dumps({" ++ dq ++ "error" ++ dq ++ ": str(e), " ++ dq
        ++ "traceback" ++ dq ++ ": traceback.format_exc()}))";
      "      " ].

Definition market_data_scope : list string :=
  ([ "req"; "res"; "ticker"; "start_date"; "end_date"; "pythonScript";
    "python2"; "output"; "error"; "app2" ] ++ module_scope)%list.

(** The handler body up to the registration of the listeners. *)
Definition market_data_route (cwd ticker : string)
           (start_date end_date : option string) : M unit :=
  try_catch
    (spawnM "python3" ["-c"; market_data_script cwd ticker start_date end_date] ;;;
     resolve market_data_scope "python2" ;;;
     on "stdout.data" ;;;
     resolve market_data_scope "python2" ;;;
     on "stderr.data" ;;;
     resolve market_data_scope "python2" ;;;
     on "close")
    (fun _ => send 500 (error_body "Failed to fetch market data")).

(** [code !== 0]. *)
Definition code_is_not_zero (code : option Z) : bool :=
  match code with
  | Some c => negb (c =? 0)%Z
  | None => true
  end.

(** [error || fallback] on strings. *)
Definition or_default (s fallback : string) : string :=
  if s =? EmptyString then fallback else s.

(** The [close] listener of the market-data child. *)
Definition market_data_on_close (child : ChildExit) : M unit :=
  if code_is_not_zero (exit_code child) then
    send 500 (error_body (or_default (stderr child) "Python script failed"))
  else
    try_catch
      (match stdout_json child with
       | None => throw SyntaxError
       | Some result =>
           match get_prop result "error" with
           | None => throw TypeError
           | Some err =>
               if truthy err then send 400 (JObj [("error", err)])
               else send 200 result
           end
       end)
      (fun _ => send 500 (error_body "Failed to parse response")).

(** A request from arrival to the point where the child has closed: the
    [close] listener runs only if the handler registered it. *)
Definition handle_market_data (cwd ticker : string)
           (start_date end_date : option string) (child : ChildExit) : M unit :=
  fun w =>
    match market_data_route cwd ticker start_date end_date w with
    | (r, w') =>
        if existsb (String.eqb "close") (listeners w')
        then market_data_on_close child w'
        else (r, w')
    end.

(** *** POST /api/backtests *)

(** [insertBacktestSchema.parse(req.body)].  The schema is derived by
    [createInsertSchema] from the column declarations of the [backtests]
    table and then restricted by [pick]: [text(...).notNull()] asks for a
    string, [timestamp(...).notNull()] for a date, [real(...).notNull()]
    for a number, [real(...).default(0.001)] for a number that may be left
    out or be [null], and [jsonb(...).notNull()] for a JSON value.  A
    number of a [real] column must lie in the range the schema derives for
    such a column.  Keys outside the six picked ones are dropped.  [None]
    is the thrown validation error. *)
Definition parse_commission (v : JsVal) : option (nullable number) :=
  match v with
  | JUndefined => Some Absent
  | JNull => Some IsNull
  | JNum n => if in_real_range n then Some (Present n) else None
  | _ => None
  end.

Definition parse_json_column (v : JsVal) : option JsVal :=
  match v with
  | JUndefined | JDate _ => None
  | _ => Some v
  end.

Definition insertBacktestSchema_parse (body : JsVal) : option InsertBacktest :=
  match body with
  | JObj fields =>
      match assoc "ticker" fields, assoc "startDate" fields,
            assoc "endDate" fields, assoc "initialCapital" fields,
            parse_commission (assoc "commission" fields),
            parse_json_column (assoc "strategyConfig" fields) with
      | JStr ticker, JDate startDate, JDate endDate, JNum initialCapital,
        Some commission, Some strategyConfig =>
          if in_real_range initialCapital then
            Some (mkInsertBacktest ticker startDate endDate initialCapital
                                   commission strategyConfig)
          else None
      | _, _, _, _, _, _ => None
      end
  | _ => None
  end.

(** The shape a body must have to pass the schema, field by field. *)
Definition has_insert_shape (body : JsVal) : bool :=
  match body with
  | JObj fields =>
      is_str (assoc "ticker" fields)
      && is_date (assoc "startDate" fields)
      && is_date (assoc "endDate" fields)
      && is_real (assoc "initialCapital" fields)
      && is_real_or_nullish (assoc "commission" fields)
      && is_json (assoc "strategyConfig" fields)
  | _ => false
  end.

Definition nullable_json (c : nullable number) : list (string * JsVal) :=
  match c with
  | Absent => []
  | IsNull => [("commission", JNull)]
  | Present n => [("commission", JNum n)]
  end.

Definition option_json {A} (f : A -> JsVal) (o : option A) : JsVal :=
  match o with
  | Some a => f a
  | None => JNull
  end.

(** The record as the object handed to [res.json]. *)
Definition backtest_json (b : Backtest) : JsVal :=
  JObj ([ ("ticker", JStr (b_ticker b));
          ("startDate", JDate (b_startDate b));
          ("endDate", JDate (b_endDate b));
          ("initialCapital", JNum (b_initialCapital b)) ]
        ++ nullable_json (b_commission b)
        ++ [ ("strategyConfig", b_strategyConfig b);
             ("id", JStr (b_id b));
             ("results", b_results b);
             ("status", option_json JStr (b_status b));
             ("createdAt", option_json JDate (b_createdAt b)) ])%list.

Definition post_backtests (body : JsVal) (id : string) (now : Date) : M unit :=
  try_catch
    (match insertBacktestSchema_parse body with
     | None => throw ZodError
     | Some validatedData =>
         backtest <- createBacktestM id now validatedData ;;
         send 200 (backtest_json backtest)
     end)
    (fun _ => send 400 (error_body "Invalid backtest configuration")).

(** *** POST /api/backtests/:id/run *)

Section RunRoute.

(** Conversions to text done by the runtime: [String(n)] on a number,
    [JSON.stringify] and [Date.prototype.toISOString]. *)
Variable Number_toString : number -> string.
Variable JSON_stringify : JsVal -> string.
Variable Date_toISOString : Date -> string.

Definition show_commission (c : nullable number) : string :=
  match c with
  | Absent => "undefined"
  | IsNull => "null"
  | Present n => Number_toString n
  end.

(** [d.toISOString().split("T")[0]]. *)
Definition iso_day (d : Date) : string :=
  split_head "T"%char (Date_toISOString d).

(** [JSON.stringify(v).replace(/"/g, '\\"')]: a backslash before every
    double quote. *)
Definition escaped_json (v : JsVal) : string :=
  replace_all (ascii_of_nat 34) (bslash ++ dq) (JSON_stringify v).

Definition run_script (cwd : string) (backtest : Backtest) : string :=
  join nl
    [ EmptyString;
      "import sys";
      "sys.path.append('" ++ services_dir cwd ++ "')";
      "from backtest_service import BacktestService";
      "import json";
      EmptyString;
      "config = {";
      "    " ++ dq ++ "ticker" ++ dq ++ ": " ++ dq ++ b_ticker backtest
        ++ dq ++ ",";
      "    " ++ dq ++ "start_date" ++ dq ++ ": " ++ dq
        ++ iso_day (b_startDate backtest) ++ dq ++ ",";
      "    " ++ dq ++ "end_date" ++ dq ++ ": " ++ dq
        ++ iso_day (b_endDate backtest) ++ dq ++ ",";
      "    " ++ dq ++ "initial_capital" ++ dq ++ ": "
        ++ Number_toString (b_initialCapital backtest) ++ ",";
      "    " ++ dq ++ "commission" ++ dq ++ ": "
        ++ show_commission (b_commission backtest) ++ ",";
      "    " ++ dq ++ "strategy_config" ++ dq ++ ": "
        ++ escaped_json (b_strategyConfig backtest);
      "}";
      EmptyString;
      "try:";
      "    service = BacktestService()";
      "    results = service.run_backtest(config)";
      "    print(json.dumps(results))";
      "except Exception as e:";
      "    print(json.dumps({" ++ dq ++ "error" ++ dq ++ ": str(e)}))";
      "      " ].

(** The names bound where the handler attaches its listeners: the child
    process is bound to [pythonScript]. *)
Definition run_scope : list string :=
  ([ "req"; "res"; "id"; "backtest"; "pythonScript"; "output"; "error";
     "app2" ] ++ module_scope)%list.

(** The handler body up to the registration of the listeners; the
    listeners are attached through the identifier [python]. *)
Definition run_route (cwd id : string) : M unit :=
  try_catch
    (backtest <- getBacktestM id ;;
     match backtest with
     | None => send 404 (error_body "Backtest not found")
     | Some backtest =>
         updateBacktestM id (patch_status "running") ;;;
         spawnM "python3" ["-c"; run_script cwd backtest] ;;;
         resolve run_scope "python" ;;;
         on "stdout.data" ;;;
         resolve run_scope "python" ;;;
         on "stderr.data" ;;;
         resolve run_scope "python" ;;;
         on "close"
     end)
    (fun _ => send 500 (error_body "Failed to run backtest")).

End RunRoute.

(** The [close] listener the run handler defines. *)
Definition run_on_close (id : string) (child : ChildExit) : M unit :=
  try_catch
    (if code_is_not_zero (exit_code child) then
       updateBacktestM id (patch_status "failed") ;;;
       send 500 (error_body (or_default (stderr child) "Backtest failed"))
     else
       match stdout_json child with
       | None => throw SyntaxError
       | Some results =>
           match get_prop results "error" with
           | None => throw TypeError
           | Some err =>
               if truthy err then
                 updateBacktestM id (patch_status "failed") ;;;
                 send 400 (JObj [("error", err)])
               else
                 updateBacktestM id (patch_status_results "completed" results) ;;;
                 send 200 results
           end
       end)
    (fun _ =>
       updateBacktestM id (patch_status "failed") ;;;
       send 500 (error_body "Failed to parse backtest results")).

(** A run request from arrival to the point where the child has closed:
    the [close] listener runs only if the handler registered it. *)
Definition handle_run (Number_toString : number -> string)
           (JSON_stringify : JsVal -> string)
           (Date_toISOString : Date -> string)
           (cwd id : string) (child : ChildExit) : M unit :=
  fun w =>
    match run_route Number_toString JSON_stringify Date_toISOString cwd id w with
    | (r, w') =>
        if existsb (String.eqb "close") (listeners w')
        then run_on_close id child w'
        else (r, w')
    end.

End Routes.

(** ** client: types/trading.ts and the results dashboard *)

Module Dashboard.

Inductive Side : Type := LONG | SHORT.

(** The string a [side] value is. *)
Definition side_text (s : Side) : string :=
  match s with
  | LONG => "LONG"
  | SHORT => "SHORT"
  end.

(** [interface Trade]. *)
Record Trade := mkTrade {
  entry_date : string;
  exit_date : string;
  side : Side;
  entry_price : number;
  exit_price : number;
  quantity : number;
  pnl : number;
  return_pct : number
}.

(** [interface BacktestMetrics]: computed by the backtest service and
    shown as received. *)
Record BacktestMetrics := mkMetrics {
  total_return : number;
  sharpe_ratio : number;
  max_drawdown : number;
  win_rate : number;
  total_trades : number;
  winning_trades : number;
  losing_trades : number;
  avg_win : number;
  avg_loss : number;
  profit_factor : number;
  final_value : number
}.

(** The two conditions of the trade filter, on the state [tradeFilter]
    and [tradeType] of the component. *)
Definition matchesFilter (tradeFilter : string) (trade : Trade) : bool :=
  (tradeFilter =? EmptyString)
  || includes tradeFilter (entry_date trade)
  || includes (toLowerCase tradeFilter) (toLowerCase (side_text (side trade))).

Definition matchesType (tradeType : string) (trade : Trade) : bool :=
  (tradeType =? "all")
  || ((tradeType =? "winners") && num_gt (pnl trade) 0)
  || ((tradeType =? "losers") && num_lt (pnl trade) 0).

Definition filteredTrades (tradeFilter tradeType : string)
           (trades : list Trade) : list Trade :=
  filter (fun trade => matchesFilter tradeFilter trade
                       && matchesType tradeType trade) trades.

(** The class of the PnL cell of a table row:
    [trade.pnl > 0 ? 'text-success' : 'text-danger']. *)
Definition pnl_class (trade : Trade) : string :=
  if num_gt (pnl trade) 0 then "text-success" else "text-danger".




Section CsvText.

(** [String(n)] on a number, as [Array.prototype.join] applies it. *)
Variable Number_toString : number -> string.





End CsvText.


End Dashboard.

(** ** The backtest engine of the design document

    The engine runs in the Python service ([backtest_service.py]), which the
    TypeScript sources only call.  Its definitions here follow the design
    document: sections 3 (data model), 4.2 (strategy), 4.3 (execution
    simulator), 4.4 (metrics), 4.5 (orchestrator) and 7 (errors). *)

Module Engine.

Local Open Scope Q_scope.

(** Modelled from the spec: the PriceBar record of section 3; the service
    that loads bars is missing. *)
Record PriceBar := mkBar {
  date : Z;
  open : Q;
  high : Q;
  low : Q;
  close : Q;
  volume : Z
}.

(** Modelled from the spec: the signal alphabet of a SignalSeries
    (section 3); the strategies that emit it are missing. *)
Inductive Signal : Type := LONG_ENTRY | SHORT_ENTRY | EXIT | HOLD.

(** Modelled from the spec: the sides of a Position (section 3); the
    simulator that owns positions is missing. *)
Inductive Side : Type := LONG | SHORT | FLAT.

(** Modelled from the spec: the Position record of section 3. *)
Record Position := mkPosition {
  pos_side : Side;
  pos_quantity : Z;
  pos_entry_price : Q;
  pos_entry_date : Z
}.

(** Modelled from the spec: the initial and terminal state FLAT of section
    4.3, no position held. *)
Definition flat : Position := mkPosition FLAT 0 0 0.

(** Modelled from the spec: the Trade record of section 3, created when a
    position is closed. *)
Record Trade := mkTrade {
  entry_date : Z;
  exit_date : Z;
  side : Side;
  entry_price : Q;
  exit_price : Q;
  quantity : Z;
  pnl : Q;
  return_pct : Q
}.

(** Modelled from the spec: the EquityPoint record of section 3. *)
Record EquityPoint := mkEquity {
  eq_date : Z;
  portfolio_value : Q
}.

(** Modelled from the spec: what the simulator did with the signal of one
    bar, for the per-bar log section 4.3 asks for; the simulator is
    missing. *)
Inductive Action : Type :=
| Opened (s : Side)
| Closed
| Skipped
| NoTransition.

(** Modelled from the spec: one line of the per-bar log of section 4.3:
    the bar whose signal was handled, the signal, what was done and the
    fill price used, if any. *)
Record LogEntry := mkLog {
  log_bar : nat;
  log_signal : Signal;
  log_action : Action;
  log_fill : option Q
}.

(** Modelled from the spec: the state of one simulator run (section 4.3):
    cash, the open position, and the ledger, equity series and log
    produced so far. *)
Record SimState := mkSim {
  cash : Q;
  position : Position;
  trades : list Trade;
  equity : list EquityPoint;
  log : list LogEntry
}.

(** Modelled from the spec: the direction sign in the pnl formula of
    section 4.3. *)
Definition direction_sign (s : Side) : Q :=
  match s with
  | LONG => 1
  | SHORT => -1
  | FLAT => 0
  end.

(** Modelled from the spec: commission = commission_rate * fill_price *
    quantity (section 4.3). *)
Definition commission_of (rate fill : Q) (qty : Z) : Q :=
  rate * fill * inject_Z qty.

(** Modelled from the spec: opening a position from FLAT at the fill price
    (section 4.3): quantity = floor(available_capital / fill_price), the
    commission is deducted from cash, and an entry that cannot buy one
    unit is skipped and logged. *)
Definition open_position (rate : Q) (i : nat) (s : Signal) (sd : Side)
           (fill : Q) (fill_date : Z) (st : SimState) : SimState :=
  let qty := Qfloor (cash st / fill) in
  if (qty <? 1)%Z then
    mkSim (cash st) (position st) (trades st) (equity st)
          (log st ++ [mkLog i s Skipped (Some fill)])
  else
    mkSim (cash st - direction_sign sd * fill * inject_Z qty
           - commission_of rate fill qty)
          (mkPosition sd qty fill fill_date)
          (trades st) (equity st)
          (log st ++ [mkLog i s (Opened sd) (Some fill)]).

(** Modelled from the spec: the Trade emitted when a position is closed
    (section 4.3): pnl = (exit_price - entry_price) * quantity *
    direction_sign - commissions(entry) - commissions(exit), return_pct =
    pnl / (entry_price * quantity). *)
Definition make_trade (rate : Q) (p : Position) (exit_price : Q)
           (exit_date : Z) : Trade :=
  let q := inject_Z (pos_quantity p) in
  let pnl := (exit_price - pos_entry_price p) * q * direction_sign (pos_side p)
             - commission_of rate (pos_entry_price p) (pos_quantity p)
             - commission_of rate exit_price (pos_quantity p) in
  mkTrade (pos_entry_date p) exit_date (pos_side p) (pos_entry_price p)
          exit_price (pos_quantity p) pnl (pnl / (pos_entry_price p * q)).

(** Modelled from the spec: cash after closing the open position at a
    price, the exit commission deducted (section 4.3). *)
Definition cash_after_close (rate : Q) (p : Position) (price : Q) (c : Q) : Q :=
  c + direction_sign (pos_side p) * price * inject_Z (pos_quantity p)
  - commission_of rate price (pos_quantity p).

(** Modelled from the spec: closing the open position at the fill price
    and emitting its Trade (section 4.3). *)
Definition close_position (rate : Q) (i : nat) (s : Signal) (fill : Q)
           (fill_date : Z) (st : SimState) : SimState :=
  mkSim (cash_after_close rate (position st) fill (cash st))
        flat
        (trades st ++ [make_trade rate (position st) fill fill_date])
        (equity st)
        (log st ++ [mkLog i s Closed (Some fill)]).

(** Modelled from the spec: a bar on which nothing is executed, logged
    without a fill price. *)
Definition no_transition (i : nat) (s : Signal) (st : SimState) : SimState :=
  mkSim (cash st) (position st) (trades st) (equity st)
        (log st ++ [mkLog i s NoTransition None]).

(** Modelled from the spec: the transition rule of section 4.3 for bar i,
    given its signal and bar i+1, whose open is the fill price. *)
Definition step (rate : Q) (i : nat) (s : Signal) (next : PriceBar)
           (st : SimState) : SimState :=
  let fill := open next in
  match pos_side (position st), s with
  | FLAT, LONG_ENTRY => open_position rate i s LONG fill (date next) st
  | FLAT, SHORT_ENTRY => open_position rate i s SHORT fill (date next) st
  | LONG, EXIT | LONG, SHORT_ENTRY => close_position rate i s fill (date next) st
  | SHORT, EXIT | SHORT, LONG_ENTRY => close_position rate i s fill (date next) st
  | _, _ => no_transition i s st
  end.

(** Modelled from the spec: portfolio value at a bar = cash + open
    position quantity * the bar's close, signed by side (section 4.3). *)
Definition record_equity (b : PriceBar) (st : SimState) : SimState :=
  let p := position st in
  mkSim (cash st) p (trades st)
        (equity st ++ [mkEquity (date b)
           (cash st + direction_sign (pos_side p) * inject_Z (pos_quantity p)
                      * close b)])
        (log st).

(** Modelled from the spec: the terminal rule of section 4.3: a position
    still open at the last bar is closed at that bar's close. *)
Definition force_close (rate : Q) (last : PriceBar) (st : SimState) : SimState :=
  match pos_side (position st) with
  | FLAT => st
  | _ => mkSim (cash_after_close rate (position st) (close last) (cash st))
               flat
               (trades st ++ [make_trade rate (position st) (close last)
                                         (date last)])
               (equity st) (log st)
  end.

(** Modelled from the spec: the bar-by-bar replay of section 4.3, bars in
    order, the signal of bar i executed at bar i+1. *)
Fixpoint run_bars (rate : Q) (i : nat) (bars : list PriceBar)
         (signals : list Signal) (st : SimState) : SimState :=
  match bars with
  | [] => st
  | b :: rest =>
      match rest with
      | [] => record_equity b (force_close rate b st)
      | next :: _ =>
          run_bars rate (S i) rest (tl signals)
                   (step rate i (hd HOLD signals) next (record_equity b st))
      end
  end.

(** Modelled from the spec: one run of the Execution Simulator, from FLAT
    with the initial capital as cash. *)
Definition simulate (bars : list PriceBar) (signals : list Signal)
           (initial_capital rate : Q) : SimState :=
  run_bars rate 0 bars signals (mkSim initial_capital flat [] [] []).

(** An entry price that is the open of a bar after the first of the
    series. *)
Definition entered_at_open (series : list PriceBar) (price : Q) : Prop :=
  exists i next, nth_error series (S i) = Some next /\ price = open next.

(** The position held and the trades made so far were all entered at the
    open of a bar of the series. *)
Definition entries_at_open (series : list PriceBar) (st : SimState) : Prop :=
  (pos_side (position st) <> FLAT ->
   entered_at_open series (pos_entry_price (position st)))
  /\ (forall t, In t (trades st) -> entered_at_open series (entry_price t)).

(** The sum of the pnl of the trades of a ledger. *)
Definition sum_pnl (ledger : list Trade) : Q :=
  fold_left (fun acc t => acc + pnl t) ledger 0.

(** The side a signal asks to enter, if it is an entry signal. *)
Definition entry_side (s : Signal) : option Side :=
  match s with
  | LONG_ENTRY => Some LONG
  | SHORT_ENTRY => Some SHORT
  | _ => None
  end.

(** The signals that exit a position held on a side: EXIT, or the entry
    signal of the other side. *)
Definition closes (sd : Side) (s : Signal) : bool :=
  match sd, s with
  | LONG, EXIT | LONG, SHORT_ENTRY => true
  | SHORT, EXIT | SHORT, LONG_ENTRY => true
  | _, _ => false
  end.

Section Ledger.

Variable bars : list PriceBar.
Variable signals : list Signal.
Variable rate : Q.
Variable initial_capital : Q.

(** The signal of bar i; a bar past the end of the signal series holds. *)
Definition signal_of (i : nat) : Signal := nth i signals HOLD.

(** The bar at whose open the signal of bar i is executed: bar i+1. *)
Definition fill_bar (i : nat) : option PriceBar := nth_error bars (S i).

(** Cash held while flat, once the trades of a ledger are closed. *)
Definition cash_after (ledger : list Trade) : Q :=
  initial_capital + sum_pnl ledger.

(** With the given cash and no position, the signal of bar i opens a
    position on the side [sd]: it is the entry signal of that side, bar
    i+1 is [b], and the cash buys at least one unit at the open of [b]. *)
Definition opens_at (available : Q) (i : nat) (sd : Side) (b : PriceBar)
  : Prop :=
  fill_bar i = Some b
  /\ entry_side (signal_of i) = Some sd
  /\ (1 <= Qfloor (available / open b))%Z.

(** With the given cash and no position, nothing is opened on the signal
    of bar i. *)
Definition idle_at (available : Q) (i : nat) : Prop :=
  forall sd b, ~ opens_at available i sd b.

(** A trade was entered on the signal of bar i with the given cash: at
    the open and on the date of bar i+1, for floor(cash / open) units. *)
Definition entered (available : Q) (i : nat) (t : Trade) : Prop :=
  exists b,
    opens_at available i (side t) b
    /\ entry_price t = open b
    /\ entry_date t = date b
    /\ quantity t = Qfloor (available / open b).

(** A trade entered on the signal of bar i was exited at bar j: no signal
    between the two exits the position, and either the signal of bar j
    does and the trade is closed at the open and on the date of bar j+1,
    or j is the last bar and the trade is closed at its close. *)
Definition exited (i j : nat) (t : Trade) : Prop :=
  (i < j)%nat
  /\ (forall m, (i < m < j)%nat -> closes (side t) (signal_of m) = false)
  /\ ((exists b, fill_bar j = Some b
                 /\ closes (side t) (signal_of j) = true
                 /\ exit_price t = open b
                 /\ exit_date t = date b)
      \/ (exists b, nth_error bars j = Some b
                    /\ S j = List.length bars
                    /\ exit_price t = close b
                    /\ exit_date t = date b)).

(** The pnl and the return of a trade follow from the prices it was
    executed at, its quantity and the commission rate (section 4.3). *)
Definition accounted (t : Trade) : Prop :=
  pnl t == (exit_price t - entry_price t) * inject_Z (quantity t)
           * direction_sign (side t)
           - rate * entry_price t * inject_Z (quantity t)
           - rate * exit_price t * inject_Z (quantity t)
  /\ return_pct t == pnl t / (entry_price t * inject_Z (quantity t)).

(** [ledger_until ledger free]: the ledger is the one the signals
    prescribe up to bar [free], trade after trade.  Each trade is entered
    on the first signal, from the bar after the exit of the trade before
    it, that opens a position with the cash held then, and is exited as
    [exited] says; [free] is the bar after the last exit. *)
Inductive ledger_until : list Trade -> nat -> Prop :=
| ledger_empty : ledger_until [] 0
| ledger_trade (pre : list Trade) (free i j : nat) (t : Trade) :
    ledger_until pre free ->
    (free <= i)%nat ->
    (forall m, (free <= m < i)%nat -> idle_at (cash_after pre) m) ->
    entered (cash_after pre) i t ->
    exited i j t ->
    accounted t ->
    ledger_until (pre ++ [t]) (S j).

(** The outcome of a run is the one the signals prescribe: the ledger up
    to some bar, nothing to open from that bar on, no position left, and
    the cash that the initial capital and the ledger account for. *)
Definition run_as_prescribed (final : SimState) : Prop :=
  exists free,
    ledger_until (trades final) free
    /\ (forall m, (free <= m)%nat -> idle_at (cash_after (trades final)) m)
    /\ pos_side (position final) = FLAT
    /\ cash final == cash_after (trades final).

(** The state before the signal of bar i is handled is the one the
    signals prescribe: the ledger so far, and either no position and
    nothing to open since the last exit, or the position opened on the
    signal of an earlier bar k and no signal exiting it since. *)
Definition prescribed_before (i : nat) (st : SimState) : Prop :=
  exists free,
    ledger_until (trades st) free
    /\ ((pos_side (position st) = FLAT
         /\ (free <= i)%nat
         /\ (forall m, (free <= m < i)%nat ->
                       idle_at (cash_after (trades st)) m)
         /\ cash st == cash_after (trades st))
        \/ (exists k b,
              (free <= k < i)%nat
              /\ (forall m, (free <= m < k)%nat ->
                            idle_at (cash_after (trades st)) m)
              /\ opens_at (cash_after (trades st)) k
                          (pos_side (position st)) b
              /\ pos_entry_price (position st) = open b
              /\ pos_entry_date (position st) = date b
              /\ pos_quantity (position st)
                 = Qfloor (cash_after (trades st) / open b)
              /\ (forall m, (k < m < i)%nat ->
                            closes (pos_side (position st)) (signal_of m)
                            = false)
              /\ cash st == cash_after (trades st)
                            - direction_sign (pos_side (position st))
                              * open b
                              * inject_Z (pos_quantity (position st))
                            - commission_of rate (open b)
                                            (pos_quantity (position st)))).

End Ledger.

(** Modelled from the spec: the error taxonomy of section 7. *)
Inductive ErrorKind : Type :=
| ConfigurationError
| DataError
| StrategyRuntimeError
| Cancelled
| TimedOut.

(** Modelled from the spec: a failure surfaces a stable error kind plus a
    human-readable reason string (section 7). *)
Record Failure := mkFailure {
  kind : ErrorKind;
  reason : string
}.

(** Modelled from the spec: the strategy variants of section 4.2.  A
    technical strategy is a rule on the bars up to and including the
    current one; a model-driven strategy feeds the trailing lookback
    window to a trained predictor, which may fail, and maps the forecast
    to a signal through a threshold.  The strategy implementations are
    missing. *)
Inductive StrategyConfig : Type :=
| Technical (name : string) (rule : list PriceBar -> Signal)
| ModelDriven (name : string) (lookback : nat) (threshold : Q)
              (predict : list PriceBar -> option Q).

(** Modelled from the spec: the name [describe()] reports (section 4.2),
    used as the strategy_id of a result. *)
Definition strategy_name (s : StrategyConfig) : string :=
  match s with
  | Technical name _ => name
  | ModelDriven name _ _ _ => name
  end.

(** Modelled from the spec: [validate(params)] of section 4.2: window
    parameters must be positive; a threshold is not negative. *)
Definition validate (s : StrategyConfig) : option Failure :=
  match s with
  | Technical _ _ => None
  | ModelDriven _ lookback threshold _ =>
      if (lookback =? 0)%nat then
        Some (mkFailure ConfigurationError "lookback must be positive")
      else if Qle_bool 0 threshold then None
      else Some (mkFailure ConfigurationError "threshold must not be negative")
  end.

(** Modelled from the spec: the trailing window of the given size. *)
Definition trailing (n : nat) (history : list PriceBar) : list PriceBar :=
  skipn (List.length history - n) history.

(** Modelled from the spec: the forecast mapped to a signal via the
    configured threshold (section 4.2). *)
Definition signal_of_forecast (threshold forecast : Q) : Signal :=
  if negb (Qle_bool forecast threshold) then LONG_ENTRY
  else if negb (Qle_bool (- threshold) forecast) then SHORT_ENTRY
  else HOLD.

(** Modelled from the spec: the signal of the current bar from the bars
    visible so far; [inl] is a strategy that raises (section 7,
    StrategyRuntimeError). *)
Definition signal_at (s : StrategyConfig) (history : list PriceBar)
  : Failure + Signal :=
  match s with
  | Technical _ rule => inr (rule history)
  | ModelDriven _ lookback threshold predict =>
      if (List.length history <? lookback)%nat then inr HOLD
      else match predict (trailing lookback history) with
           | Some forecast => inr (signal_of_forecast threshold forecast)
           | None => inl (mkFailure StrategyRuntimeError "model prediction failed")
           end
  end.

(** Modelled from the spec: all results of a list, or the first failure. *)
Fixpoint sequence {E A} (l : list (E + A)) : E + list A :=
  match l with
  | [] => inr []
  | inl e :: _ => inl e
  | inr a :: rest =>
      match sequence rest with
      | inl e => inl e
      | inr rest' => inr (a :: rest')
      end
  end.

(** Modelled from the spec: [generate_signals] of section 4.2: one signal
    per bar, the signal of bar i computed from bars 0..i only. *)
Definition generate_signals (s : StrategyConfig) (bars : list PriceBar)
  : Failure + list Signal :=
  sequence (map (fun i => signal_at s (firstn (S i) bars))
                (seq 0 (List.length bars))).

(** Modelled from the spec: the Metrics of sections 3 and 4.4 that are
    rational functions of the equity series and the ledger.  The Sharpe
    ratio and the CAGR need a square root and a real power, and the
    win/loss counts depend on the zero-pnl policy the document leaves
    open. *)
Record Metrics := mkMetrics {
  total_return : Q;
  max_drawdown : Q;
  total_trades : nat;
  final_value : Q
}.

(** Modelled from the spec: max_drawdown = max over i of (peak_to_date_i -
    equity_i) / peak_to_date_i, reported negative (section 4.4). *)
Fixpoint worst_drawdown (peak worst : Q) (values : list Q) : Q :=
  match values with
  | [] => worst
  | v :: rest =>
      let peak' := if Qle_bool peak v then v else peak in
      let dd := (peak' - v) / peak' in
      worst_drawdown peak' (if Qle_bool worst dd then dd else worst) rest
  end.

(** Modelled from the spec: the Metrics Calculator of section 4.4. *)
Definition calculate_metrics (equity_series : list EquityPoint)
           (ledger : list Trade) (initial_capital : Q) : Metrics :=
  let values := map portfolio_value equity_series in
  let final := last values initial_capital in
  mkMetrics (final / initial_capital - 1)
            (- worst_drawdown initial_capital 0 values)
            (List.length ledger)
            final.

(** Modelled from the spec: the BacktestResult of section 3. *)
Record BacktestResult := mkResult {
  strategy_id : string;
  equity_series : list EquityPoint;
  result_trades : list Trade;
  metrics : Metrics
}.

(** Modelled from the spec: the DataError conditions of section 7: dates
    strictly increasing and prices positive. *)
Fixpoint dates_increasing (bars : list PriceBar) : bool :=
  match bars with
  | [] => true
  | b :: rest =>
      match rest with
      | [] => true
      | next :: _ => (date b <? date next)%Z && dates_increasing rest
      end
  end.

(** Modelled from the spec: a number above zero (section 7). *)
Definition positive (q : Q) : bool := negb (Qle_bool q 0).

(** Modelled from the spec: a bar without a non-positive price (section
    7, DataError). *)
Definition prices_positive (b : PriceBar) : bool :=
  positive (open b) && positive (high b) && positive (low b)
  && positive (close b).

(** Modelled from the spec: the checks made before simulation starts
    (section 7): ConfigurationError for non-positive capital or commission
    or an empty price series, DataError for a malformed series. *)
Definition check_inputs (bars : list PriceBar) (initial_capital rate : Q)
  : option Failure :=
  if negb (positive initial_capital) then
    Some (mkFailure ConfigurationError "initial capital must be positive")
  else if negb (positive rate) then
    Some (mkFailure ConfigurationError "commission must be positive")
  else match bars with
       | [] => Some (mkFailure ConfigurationError "empty price series")
       | _ =>
           if dates_increasing bars && forallb prices_positive bars then None
           else Some (mkFailure DataError "malformed price series")
       end.

(** Modelled from the spec: one strategy run through sections 4.2 to 4.4
    on already checked inputs. *)
Definition run_strategy (bars : list PriceBar) (s : StrategyConfig)
           (initial_capital rate : Q) : Failure + BacktestResult :=
  match validate s with
  | Some f => inl f
  | None =>
      match generate_signals s bars with
      | inl f => inl f
      | inr signals =>
          let final := simulate bars signals initial_capital rate in
          inr (mkResult (strategy_name s) (equity final) (trades final)
                        (calculate_metrics (equity final) (trades final)
                                           initial_capital))
      end
  end.

(** Modelled from the spec: [run_backtest(price_series, strategy_config,
    initial_capital, commission_rate) -> BacktestResult | Error] of
    section 6. *)
Definition run_backtest (bars : list PriceBar) (s : StrategyConfig)
           (initial_capital rate : Q) : Failure + BacktestResult :=
  match check_inputs bars initial_capital rate with
  | Some f => inl f
  | None => run_strategy bars s initial_capital rate
  end.

(** Modelled from the spec: the entry of a comparison for one strategy: a
    BacktestResult or a distinct failure outcome (sections 5 and 7). *)
Inductive Outcome : Type :=
| Success (r : BacktestResult)
| Failed (strategy : string) (f : Failure).

(** Modelled from the spec: the outcome published for one run of a
    comparison (section 7). *)
Definition outcome_of (s : StrategyConfig) (r : Failure + BacktestResult)
  : Outcome :=
  match r with
  | inr result => Success result
  | inl f => Failed (strategy_name s) f
  end.

(** Modelled from the spec: [compare(price_series, [strategy_config],
    initial_capital, commission_rate) -> [BacktestResult] | Error] of
    sections 4.5 and 6: each strategy is run independently on the same
    series and capital, failures are isolated per strategy, and the
    outcomes keep the input order. *)
Definition compare (bars : list PriceBar) (strategies : list StrategyConfig)
           (initial_capital rate : Q) : Failure + list Outcome :=
  match check_inputs bars initial_capital rate with
  | Some f => inl f
  | None =>
      inr (map (fun s => outcome_of s (run_strategy bars s initial_capital rate))
               strategies)
  end.

Definition is_success (o : Outcome) : bool :=
  match o with
  | Success _ => true
  | Failed _ _ => false
  end.

(** A strategy raises during signal generation on a series. *)
Definition raises (bars : list PriceBar) (s : StrategyConfig) : bool :=
  match generate_signals s bars with
  | inl _ => true
  | inr _ => false
  end.

(** An outcome reports the run of a strategy: a success carries the result
    the strategy gives when run alone, a failure carries the name of the
    strategy and the error its signal generation raised. *)
Definition reports (bars : list PriceBar) (initial_capital rate : Q)
           (s : StrategyConfig) (o : Outcome) : Prop :=
  match o with
  | Success r => run_backtest bars s initial_capital rate = inr r
  | Failed name f =>
      name = strategy_name s
      /\ kind f = StrategyRuntimeError
      /\ generate_signals s bars = inl f
  end.

End Engine.

(** ** server/storage.ts: the remaining methods of MemStorage *)

Module StorageMore.

(** [typeof users.$inferSelect] and [z.infer<typeof insertUserSchema>]. *)
Record User := mkUser {
  u_id : string;
  u_username : string;
  u_password : string
}.

Record InsertUser := mkInsertUser {
  iu_username : string;
  iu_password : string
}.

(** [typeof trades.$inferSelect]; a column that may be [null] is an
    option. *)
Record Trade := mkTrade {
  t_id : string;
  t_backtestId : option string;
  t_entryDate : Date;
  t_exitDate : option Date;
  t_side : string;
  t_entryPrice : number;
  t_exitPrice : option number;
  t_quantity : Z;
  t_pnl : option number;
  t_returnPct : option number
}.

(** [z.infer<typeof insertTradeSchema>]. *)
Record InsertTrade := mkInsertTrade {
  it_backtestId : option string;
  it_entryDate : Date;
  it_exitDate : option Date;
  it_side : string;
  it_entryPrice : number;
  it_exitPrice : option number;
  it_quantity : Z;
  it_pnl : option number;
  it_returnPct : option number
}.

(** [z.infer<typeof insertMarketDataSchema>]. *)
Record InsertMarketData := mkInsertMarketData {
  imd_ticker : string;
  imd_date : Date;
  imd_open : number;
  imd_high : number;
  imd_low : number;
  imd_close : number;
  imd_volume : Z;
  imd_adjClose : number
}.

(** [Partial<Strategy>]: [None] is an absent property. *)
Record PartialStrategy := mkPartialStrategy {
  ps_id : option string;
  ps_name : option string;
  ps_type : option string;
  ps_description : option (option string);
  ps_parameters : option JsVal;
  ps_isActive : option (option bool);
  ps_createdAt : option (option Date)
}.

(** [{ isActive: b }]. *)
Definition patch_isActive (b : bool) : PartialStrategy :=
  mkPartialStrategy None None None None None (Some (Some b)) None.

(** [{ ...existing, ...strategy }]. *)
Definition spread_strategy (existing : Strategy) (p : PartialStrategy) : Strategy :=
  mkStrategy
    (over (ps_id p) (s_id existing))
    (over (ps_name p) (s_name existing))
    (over (ps_type p) (s_type existing))
    (over (ps_description p) (s_description existing))
    (over (ps_parameters p) (s_parameters existing))
    (over (ps_isActive p) (s_isActive existing))
    (over (ps_createdAt p) (s_createdAt existing)).

(** *** Users: the methods work on the [users] map of the storage. *)

Definition getUser (users : Map.t User) (id : string) : option User :=
  Map.get id users.

Definition getUserByUsername (users : Map.t User) (username : string)
  : option User :=
  find (fun user => u_username user =? username) (Map.values users).

(** [createUser]; the identifier drawn by [randomUUID()] is an argument. *)
Definition createUser (id : string) (insertUser : InsertUser)
           (users : Map.t User) : User * Map.t User :=
  let user := mkUser id (iu_username insertUser) (iu_password insertUser) in
  (user, Map.set id user users).

(** *** Strategies *)

Definition updateStrategy (id : string) (strategy : PartialStrategy)
           (st : MemStorage) : option Strategy * MemStorage :=
  match Map.get id (strategies st) with
  | None => (None, st)
  | Some existing =>
      let updated := spread_strategy existing strategy in
      (Some updated,
       mkStorage (Map.set id updated (strategies st)) (backtests st)
                 (marketData st))
  end.

Definition deleteStrategy (id : string) (st : MemStorage) : bool * MemStorage :=
  let '(found, rest) := Map.delete id (strategies st) in
  (found, mkStorage rest (backtests st) (marketData st)).

(** The five entries of [defaultStrategies], without their identifier and
    creation date. *)
Definition defaultStrategies : list InsertStrategy :=
  [ mkInsertStrategy "Moving Average" "technical"
      (Some "SMA/EMA crossover strategy")
      (JObj [("period", JNum 20); ("type", JStr "SMA")]) (Some true);
    mkInsertStrategy "Bollinger Bands" "technical"
      (Some "Mean reversion strategy using Bollinger Bands")
      (JObj [("period", JNum 20); ("stddev", JNum 2)]) (Some true);
    mkInsertStrategy "RSI" "technical"
      (Some "Momentum oscillator strategy")
      (JObj [("period", JNum 14); ("overbought", JNum 70);
             ("oversold", JNum 30)]) (Some true);
    mkInsertStrategy "MACD" "technical"
      (Some "Trend following strategy")
      (JObj [("fastPeriod", JNum 12); ("slowPeriod", JNum 26);
             ("signalPeriod", JNum 9)]) (Some true);
    mkInsertStrategy "LSTM Neural Net" "ml"
      (Some "Deep learning price prediction")
      (JObj [("lookbackPeriod", JNum 60); ("epochs", JNum 50);
             ("units", JNum 50)]) (Some true) ].

(** [initializeDefaultStrategies]: each default is stored under the
    identifier [randomUUID()] drew for it; the identifiers and the clock
    readings are arguments, one per default. *)
Definition initializeDefaultStrategies (ids : list string) (nows : list Date)
           (m : Map.t Strategy) : Map.t Strategy :=
  fold_left
    (fun acc '(id, now, d) =>
       Map.set id (mkStrategy id (is_name d) (is_type d) (is_description d)
                              (is_parameters d) (is_isActive d) (Some now))
               acc)
    (combine (combine ids nows) defaultStrategies) m.

(** [new MemStorage()]: the strategies are seeded, the other maps start
    empty (the [users] and [trades] maps are handled apart, above and
    below). *)
Definition newMemStorage (ids : list string) (nows : list Date) : MemStorage :=
  mkStorage (initializeDefaultStrategies ids nows []) [] [].

(** *** Backtests *)

(** [b => b.userId === userId]. *)
Definition owned_by (userId : string) (b : Backtest) : bool :=
  match b_userId b with
  | Some u => u =? userId
  | None => false
  end.

(** [getBacktests(userId?)]; an argument left out is [None], and the empty
    string is falsy. *)
Definition getBacktests (st : MemStorage) (userId : option string)
  : list Backtest :=
  let backtests2 := Map.values (backtests st) in
  match userId with
  | Some u => if u =? EmptyString then backtests2
              else filter (owned_by u) backtests2
  | None => backtests2
  end.

Definition deleteBacktest (id : string) (st : MemStorage) : bool * MemStorage :=
  let '(found, rest) := Map.delete id (backtests st) in
  (found, mkStorage (strategies st) rest (marketData st)).

(** *** Trades: the methods work on the [trades] map of the storage. *)

(** [t => t.backtestId === backtestId]. *)
Definition of_backtest (backtestId : string) (t : Trade) : bool :=
  match t_backtestId t with
  | Some b => b =? backtestId
  | None => false
  end.

Definition getTrades (trades : Map.t Trade) (backtestId : string) : list Trade :=
  filter (of_backtest backtestId) (Map.values trades).

(** [createTrade]; the identifier drawn by [randomUUID()] is an argument. *)
Definition createTrade (id : string) (trade : InsertTrade)
           (trades : Map.t Trade) : Trade * Map.t Trade :=
  let newTrade :=
    mkTrade id (it_backtestId trade) (it_entryDate trade) (it_exitDate trade)
            (it_side trade) (it_entryPrice trade) (it_exitPrice trade)
            (it_quantity trade) (it_pnl trade) (it_returnPct trade) in
  (newTrade, Map.set id newTrade trades).

(** *** Market data *)

(** [{ ...item, id }]. *)
Definition with_id (id : string) (item : InsertMarketData) : MarketData :=
  mkMarketData id (imd_ticker item) (imd_date item) (imd_open item)
               (imd_high item) (imd_low item) (imd_close item)
               (imd_volume item) (imd_adjClose item).

(** [saveMarketData]; [ids] are the identifiers [randomUUID()] draws, one
    per item, in order. *)
Fixpoint saveMarketData (ids : list string) (data : list InsertMarketData)
         (st : MemStorage) : list MarketData * MemStorage :=
  match ids, data with
  | id :: ids', item :: data' =>
      let marketData2 := with_id id item in
      let st1 := mkStorage (strategies st) (backtests st)
                           (Map.set id marketData2 (marketData st)) in
      let '(savedData, st2) := saveMarketData ids' data' st1 in
      (marketData2 :: savedData, st2)
  | _, _ => ([], st)
  end.

(** *** Sequences of calls on the backtests of a storage *)

Inductive BacktestOp : Type :=
| CreateOp (id : string) (now : Date) (backtest : InsertBacktest)
| UpdateOp (id : string) (backtest : PartialBacktest)
| DeleteOp (id : string).

Definition apply_op (st : MemStorage) (op : BacktestOp) : MemStorage :=
  match op with
  | CreateOp id now backtest => snd (createBacktest id now backtest st)
  | UpdateOp id backtest => snd (updateBacktest id backtest st)
  | DeleteOp id => snd (deleteBacktest id st)
  end.

(** An update whose partial record has no [id] property. *)
Definition keeps_id (op : BacktestOp) : Prop :=
  match op with
  | UpdateOp _ backtest => p_id backtest = None
  | _ => True
  end.

(** No identifier is stored twice, and every record is stored under its
    own identifier. *)
Definition well_keyed (st : MemStorage) : Prop :=
  NoDup (Map.keys (backtests st))
  /\ forall k b, In (k, b) (backtests st) -> b_id b = k.

(** No stored backtest has an owner. *)
Definition ownerless (st : MemStorage) : Prop :=
  forall b, In b (Map.values (backtests st)) -> b_userId b = None.

End StorageMore.

(** ** server/routes.ts: the remaining backtest and ticker routes *)

Module RoutesMore.

Import Routes.

(** *** GET /api/backtests/:id *)

Definition get_backtest_route (id : string) : M unit :=
  try_catch
    (backtest <- getBacktestM id ;;
     match backtest with
     | None => send 404 (error_body "Backtest not found")
     | Some backtest => send 200 (backtest_json backtest)
     end)
    (fun _ => send 500 (error_body "Failed to fetch backtest")).

(** *** GET /api/backtests: [storage.getBacktests()] without a user. *)

Definition list_backtests_route : M unit :=
  try_catch
    (fun w =>
       send 200 (JArr (map backtest_json
                           (StorageMore.getBacktests (store w) None))) w)
    (fun _ => send 500 (error_body "Failed to fetch backtests")).

(** *** GET /api/validate-ticker/:ticker *)

Definition validate_ticker_script (cwd ticker : string) : string :=
  join nl
    [ EmptyString;
      "import sys";
      "import os";
      "sys.path.append('" ++ services_dir cwd ++ "')";
      "os.chdir('" ++ services_dir cwd ++ "')";
      "from data_service import DataService";
      "import json";
      EmptyString;
      "try:";
      "    is_valid = DataService.validate_ticker('" ++ ticker ++ "')";
      "    info = DataService.get_ticker_info('" ++ ticker
        ++ "') if is_valid else {}";
      "    print(json.dumps({" ++ dq ++ "valid" ++ dq ++ ": is_valid, " ++ dq
        ++ "info" ++ dq ++ ": info}))";
      "except Exception as e:";
      "    import traceback";
      "    print(json.dumps({" ++ dq ++ "valid" ++ dq ++ ": False, " ++ dq
        ++ "error" ++ dq ++ ": str(e), " ++ dq ++ "traceback" ++ dq
        ++ ": traceback.format_exc()}))";
      "      " ].

Definition validate_ticker_scope : list string :=
  ([ "req"; "res"; "ticker"; "pythonScript"; "output"; "error"; "app2" ]
     ++ module_scope)%list.

(** The handler body up to the registration of the listeners. *)
Definition validate_ticker_route (cwd ticker : string) : M unit :=
  try_catch
    (spawnM "python3" ["-c"; validate_ticker_script cwd ticker] ;;;
     resolve validate_ticker_scope "pythonScript" ;;;
     on "stdout.data" ;;;
     resolve validate_ticker_scope "pythonScript" ;;;
     on "stderr.data" ;;;
     resolve validate_ticker_scope "pythonScript" ;;;
     on "close")
    (fun _ => send 500 (error_body "Failed to validate ticker")).

(** [{ valid: false, error: message }]. *)
Definition invalid_body (message : string) : JsVal :=
  JObj [("valid", JBool false); ("error", JStr message)].

(** The [close] listener of the validation child; [res.json] without
    [res.status] answers 200. *)
Definition validate_ticker_on_close (child : ChildExit) : M unit :=
  if code_is_not_zero (exit_code child) then
    send 500 (invalid_body (or_default (stderr child) "Python script failed"))
  else
    try_catch
      (match stdout_json child with
       | None => throw SyntaxError
       | Some result => send 200 result
       end)
      (fun _ => send 200 (invalid_body "Failed to validate ticker")).

(** A validation request from arrival to the point where the child has
    closed. *)
Definition handle_validate_ticker (cwd ticker : string) (child : ChildExit)
  : M unit :=
  fun w =>
    match validate_ticker_route cwd ticker w with
    | (r, w') =>
        if existsb (String.eqb "close") (listeners w')
        then validate_ticker_on_close child w'
        else (r, w')
    end.

End RoutesMore.

(** ** server/index.ts: the request logger *)

Module Middleware.

(** The text of a log line as its sequence of UTF-16 code units, which is
    what [length] and [slice] count. *)
Definition units := list N.

Fixpoint units_of_string (s : string) : units :=
  match s with
  | EmptyString => []
  | String c s' => N_of_ascii c :: units_of_string s'
  end.

(** The one code unit of the horizontal ellipsis, U+2026. *)
Definition ellipsis : N := 8230%N.

(** [text.startsWith(prefix)]. *)
Fixpoint startsWith (pre text : units) : bool :=
  match pre with
  | [] => true
  | p :: pre' =>
      match text with
      | [] => false
      | t :: text' => (p =? t)%N && startsWith pre' text'
      end
  end.

Section Logger.

(** The texts the runtime makes of a number in a template literal and of
    a response body in [JSON.stringify]. *)
Variable Number_toString : Z -> units.
Variable JSON_stringify : JsVal -> units.

(** The line built by the [finish] listener, before it is cut. *)
Definition full_line (method path : units) (statusCode duration : Z)
           (capturedJsonResponse : JsVal) : units :=
  let logLine :=
    (method ++ units_of_string " " ++ path ++ units_of_string " "
     ++ Number_toString statusCode ++ units_of_string " in "
     ++ Number_toString duration ++ units_of_string "ms")%list in
  if truthy capturedJsonResponse
  then (logLine ++ units_of_string " :: "
        ++ JSON_stringify capturedJsonResponse)%list
  else logLine.

(** [if (logLine.length > 80) logLine = logLine.slice(0, 79) + ellipsis]. *)
Definition cut (logLine : units) : units :=
  if (80 <? List.length logLine)%nat
  then (firstn 79 logLine ++ [ellipsis])%list
  else logLine.

(** The [finish] listener: what is handed to [log], if anything. *)
Definition on_finish (method path : units) (statusCode duration : Z)
           (capturedJsonResponse : JsVal) : option units :=
  if startsWith (units_of_string "/api") path
  then Some (cut (full_line method path statusCode duration
                            capturedJsonResponse))
  else None.

End Logger.

End Middleware.

(** ** client: the strategy builder, the backtest form and the price chart *)

Module Client.

(** [interface StrategyConfig]. *)
Record StrategyConfig := mkStrategyConfig {
  sc_id : string;
  sc_name : string;
  sc_type : string;
  sc_description : string;
  sc_parameters : JsVal;
  sc_isActive : option bool
}.

(** *** StrategyBuilder *)

Definition filteredStrategies (availableStrategies : list StrategyConfig)
           (activeCategory : string) : list StrategyConfig :=
  filter (fun strategy => sc_type strategy =? activeCategory)
         availableStrategies.

(** [handleStrategySelect]: the list handed to [onStrategiesChange], or the
    unchanged selection when the handler returns early. *)
Definition handleStrategySelect (selectedStrategies : list StrategyConfig)
           (strategy : StrategyConfig) : list StrategyConfig :=
  match find (fun s => sc_id s =? sc_id strategy) selectedStrategies with
  | Some _ => selectedStrategies
  | None => (selectedStrategies ++ [strategy])%list
  end.

Definition handleStrategyRemove (selectedStrategies : list StrategyConfig)
           (strategyId : string) : list StrategyConfig :=
  filter (fun s => negb (sc_id s =? strategyId)) selectedStrategies.

(** What the user does in the builder, and the selection after a series of
    such actions. *)
Inductive BuilderAction : Type :=
| Select (strategy : StrategyConfig)
| Remove (strategyId : string).

Definition act (selectedStrategies : list StrategyConfig) (a : BuilderAction)
  : list StrategyConfig :=
  match a with
  | Select strategy => handleStrategySelect selectedStrategies strategy
  | Remove strategyId => handleStrategyRemove selectedStrategies strategyId
  end.

(** *** BacktestEngine *)

(** The form state of the component. *)
Record FormState := mkFormState {
  f_initialCapital : number;
  f_commission : number;
  f_enableStopLoss : bool;
  f_enableTakeProfit : bool
}.

(** [interface BacktestConfig]. *)
Record BacktestConfig := mkBacktestConfig {
  bc_ticker : string;
  bc_startDate : string;
  bc_endDate : string;
  bc_initialCapital : number;
  bc_commission : number;
  bc_strategyConfig : list StrategyConfig
}.

Section BacktestForm.

(** [a / b] as the runtime computes it.  The runtime divides doubles and
    rounds the quotient, so its division is not the division of the
    rationals; it is left open here. *)
Variable divide : number -> number -> number.

(** [handleRunBacktest] up to the first request: [None] when the handler
    shows "Missing Configuration" and returns, else the configuration it
    sends. *)
Definition handleRunBacktest (ticker : string) (dateRange : string * string)
           (config : FormState) (strategies : list StrategyConfig)
  : option BacktestConfig :=
  if (ticker =? EmptyString) || (List.length strategies =? 0)%nat then None
  else Some (mkBacktestConfig ticker (fst dateRange) (snd dateRange)
                              (f_initialCapital config)
                              (divide (f_commission config) 100)
                              strategies).

End BacktestForm.

Definition strategy_value (s : StrategyConfig) : JsVal :=
  JObj ([ ("id", JStr (sc_id s));
          ("name", JStr (sc_name s));
          ("type", JStr (sc_type s));
          ("description", JStr (sc_description s));
          ("parameters", sc_parameters s) ]
        ++ match sc_isActive s with
           | Some b => [("isActive", JBool b)]
           | None => []
           end)%list.

(** The configuration as it reaches [req.body]: written as JSON by the
    client and read back by the server, its dates are strings. *)
Definition config_body (c : BacktestConfig) : JsVal :=
  JObj [ ("ticker", JStr (bc_ticker c));
         ("startDate", JStr (bc_startDate c));
         ("endDate", JStr (bc_endDate c));
         ("initialCapital", JNum (bc_initialCapital c));
         ("commission", JNum (bc_commission c));
         ("strategyConfig", JArr (map strategy_value (bc_strategyConfig c))) ].

(** *** PriceChart *)

(** [interface MarketData] of the client. *)
Record Bar := mkBar {
  bar_Date : string;
  bar_Open : number;
  bar_High : number;
  bar_Low : number;
  bar_Close : number;
  bar_Volume : number
}.

(** The [signals] property. *)
Record Signals := mkSignals {
  sig_dates : list string;
  sig_prices : list number;
  sig_signals : list number
}.

(** [array[index]] on an array of numbers. *)
Definition at_index (values : list number) (index : nat) : JsVal :=
  match nth_error values index with
  | Some v => JNum v
  | None => JUndefined
  end.

(** [baseData[key] = value] on an object: an own key keeps its place. *)
Definition assign (key : string) (value : JsVal) (o : list (string * JsVal))
  : list (string * JsVal) :=
  Map.set key value o.

(** The [forEach] over [Object.entries(indicators)]. *)
Definition add_indicators (indicators : list (string * list number))
           (index : nat) (baseData : list (string * JsVal))
  : list (string * JsVal) :=
  fold_left
    (fun acc '(key, values) =>
       match nth_error values index with
       | Some v => assign key (JNum v) acc
       | None => acc
       end)
    indicators baseData.

(** The signal part of the callback. *)
Definition add_signal (signals : option Signals) (index : nat)
           (baseData : list (string * JsVal)) : list (string * JsVal) :=
  match signals with
  | None => baseData
  | Some sg =>
      match nth_error (sig_dates sg) index with
      | None => baseData
      | Some d =>
          if d =? EmptyString then baseData
          else match nth_error (sig_signals sg) index with
               | None => baseData
               | Some signal =>
                   if Qeq_bool signal 1 then
                     assign "buySignal" (at_index (sig_prices sg) index) baseData
                   else if Qeq_bool signal (-1) then
                     assign "sellSignal" (at_index (sig_prices sg) index) baseData
                   else baseData
               end
      end
  end.

(** The bar at an index is given a marker of the kind whose signal value
    is [value]: the signals are there, the date at the index is a
    non-empty string and the signal at the index equals [value]. *)
Definition marked (signals : option Signals) (index : nat) (value : number)
  : Prop :=
  exists sg d signal,
    signals = Some sg
    /\ nth_error (sig_dates sg) index = Some d /\ d <> EmptyString
    /\ nth_error (sig_signals sg) index = Some signal
    /\ (signal == value)%Q.

Section Chart.

(** [new Date(text).toLocaleDateString()]. *)
Variable toLocaleDateString : string -> string.

(** The callback of [data.map]. *)
Definition chart_point (signals : option Signals)
           (indicators : option (list (string * list number)))
           (item : Bar) (index : nat) : list (string * JsVal) :=
  let baseData :=
    [ ("date", JStr (toLocaleDateString (bar_Date item)));
      ("price", JNum (bar_Close item));
      ("volume", JNum (bar_Volume item)) ] in
  let baseData :=
    match indicators with
    | Some inds => add_indicators inds index baseData
    | None => baseData
    end in
  add_signal signals index baseData.

(** [data.map((item, index) => ...)] from a starting index. *)
Fixpoint map_from (signals : option Signals)
         (indicators : option (list (string * list number)))
         (index : nat) (data : list Bar) : list (list (string * JsVal)) :=
  match data with
  | [] => []
  | item :: rest =>
      chart_point signals indicators item index
      :: map_from signals indicators (S index) rest
  end.

Definition chartData (data : list Bar) (signals : option Signals)
           (indicators : option (list (string * list number)))
  : list (list (string * JsVal)) :=
  map_from signals indicators 0 data.

End Chart.

End Client.

(** ** Sample inputs *)

Module Samples.

Definition sample_insert : InsertBacktest :=
  mkInsertBacktest "AAPL" 1704067200000%Z 1719705600000%Z 100000
                   (Present (1 # 1000))
                   (JArr [JObj [("name", JStr "RSI")]]).

Definition empty_storage : MemStorage := mkStorage [] [] [].

(** A configuration with a negative capital, a zero commission and no
    strategy at all. *)
Definition nonpositive_body : JsVal :=
  JObj [ ("ticker", JStr "AAPL");
         ("startDate", JDate 1704067200000%Z);
         ("endDate", JDate 1719705600000%Z);
         ("initialCapital", JNum (-1000));
         ("commission", JNum 0);
         ("strategyConfig", JArr []) ].



Definition even_trade : Dashboard.Trade :=
  Dashboard.mkTrade "2024-03-01" "2024-03-04" Dashboard.LONG 80 80 5 0 0.

(** Four bars; the opens are 99, 100, 110 and 112. *)
Definition sample_bars : list Engine.PriceBar :=
  [ Engine.mkBar 1 99 101 98 100 1000;
    Engine.mkBar 2 100 106 99 105 1200;
    Engine.mkBar 3 110 112 108 111 900;
    Engine.mkBar 4 112 114 111 113 1100 ].

(** Enter long on the first bar, exit on the second. *)
Definition in_and_out : Engine.StrategyConfig :=
  Engine.Technical "in-and-out"
    (fun history => match List.length history with
                    | 1%nat => Engine.LONG_ENTRY
                    | 2%nat => Engine.EXIT
                    | _ => Engine.HOLD
                    end).

Definition always_hold : Engine.StrategyConfig :=
  Engine.Technical "hold" (fun _ => Engine.HOLD).

(** A model-driven strategy whose predictor fails on every window. *)
Definition broken_model : Engine.StrategyConfig :=
  Engine.ModelDriven "broken" 1 (1 # 100) (fun _ => None).


(** A configuration without a ticker. *)
Definition incomplete_body : JsVal :=
  JObj [ ("startDate", JDate 1704067200000%Z);
         ("endDate", JDate 1719705600000%Z);
         ("initialCapital", JNum 100000);
         ("strategyConfig", JArr []) ].

End Samples.

Import Samples.

(** ** Sample inputs for the remaining code *)

Module MoreSamples.

Definition sample_ops : list StorageMore.BacktestOp :=
  [ StorageMore.CreateOp "b1" 0%Z sample_insert;
    StorageMore.UpdateOp "b1" (patch_status "running");
    StorageMore.CreateOp "b2" 5%Z sample_insert;
    StorageMore.DeleteOp "b1";
    StorageMore.UpdateOp "b2" (patch_status_results "completed" (JObj [])) ].

Definition sample_items : list StorageMore.InsertMarketData :=
  [ StorageMore.mkInsertMarketData "AAPL" 1704067200000%Z 99 101 98 100 1000 100;
    StorageMore.mkInsertMarketData "MSFT" 1704067200000%Z 370 376 369 374 800 374;
    StorageMore.mkInsertMarketData "AAPL" 1704153600000%Z 100 106 99 105 1200 105 ].

Definition sample_users : Map.t StorageMore.User :=
  [ ("u1", StorageMore.mkUser "u1" "akshat" "first") ].

Definition sample_trade : StorageMore.InsertTrade :=
  StorageMore.mkInsertTrade (Some "b1") 1704067200000%Z None "long" 100 None
                            10 None None.

Definition rsi_card : Client.StrategyConfig :=
  Client.mkStrategyConfig "s-rsi" "RSI" "technical"
    "Momentum oscillator strategy"
    (JObj [("period", JNum 14)]) (Some true).

Definition macd_card : Client.StrategyConfig :=
  Client.mkStrategyConfig "s-macd" "MACD" "technical"
    "Trend following strategy"
    (JObj [("fastPeriod", JNum 12)]) (Some true).

Definition sample_form : Client.FormState :=
  Client.mkFormState 100000 (1 # 10) true false.

(** [num / den] rounded to the nearest integer, ties to even. *)
Definition round_half_even (num den : Z) : Z :=
  let m := (num / den)%Z in
  let r := (num mod den)%Z in
  if (den <? 2 * r)%Z then (m + 1)%Z
  else if (2 * r =? den)%Z && Z.odd m then (m + 1)%Z
  else m.

(** A rational rounded to 53 significant bits, ties to even: the double
    nearest to it, for a value in the normal range of doubles. *)
Definition round53 (q : Q) : Q :=
  let a := Z.abs (Qnum q) in
  let d := Zpos (Qden q) in
  if (a =? 0)%Z then 0
  else
    let k := (Z.log2 a - Z.log2 d)%Z in
    let above := if (0 <=? k)%Z then (d * 2 ^ k <=? a)%Z
                 else (d <=? a * 2 ^ (- k))%Z in
    let e := if above then k else (k - 1)%Z in
    let s := (e - 52)%Z in
    let m := if (0 <=? s)%Z then round_half_even a (d * 2 ^ s)
             else round_half_even (a * 2 ^ (- s)) d in
    let v := if (0 <=? s)%Z then inject_Z (m * 2 ^ s)
             else Qmake m (Z.to_pos (2 ^ (- s))) in
    if (Qnum q <? 0)%Z then (- v)%Q else v.

(** A division for the form: the quotient of the rationals rounded to the
    nearest double. *)
Definition sample_divide (a b : number) : number := round53 (a / b).

Definition sample_chart_bars : list Client.Bar :=
  [ Client.mkBar "2024-01-02" 99 101 98 100 1000;
    Client.mkBar "2024-01-03" 100 106 99 105 1200;
    Client.mkBar "2024-01-04" 110 112 108 111 900 ].

Definition sample_signals : Client.Signals :=
  Client.mkSignals ["2024-01-02"; "2024-01-03"; "2024-01-04"]
                   [100; 105; 111] [1; 0; -1].

End MoreSamples.

Import MoreSamples.

(** * Properties *)

(** ** The storage *)

Section MapFacts.

Context {V : Type}.

Lemma get_set_same (k : string) (v : V) (m : Map.t V) :
  Map.get k (Map.set k v m) = Some v.
Proof.
  induction m as [|[k' v'] m IH]; simpl.
  - now rewrite String.eqb_refl.
  - destruct (k' =? k) eqn:E; simpl.
    + now rewrite String.eqb_refl.
    + now rewrite E.
Qed.

Lemma get_set_other (k k' : string) (v : V) (m : Map.t V) :
  k' <> k -> Map.get k' (Map.set k v m) = Map.get k' m.
Proof.
  intros Hne. induction m as [|[k0 v0] m IH]; simpl.
  - destruct (k =? k') eqn:E; [apply String.eqb_eq in E; congruence | reflexivity].
  - destruct (k0 =? k) eqn:E; simpl.
    + apply String.eqb_eq in E; subst k0.
      destruct (k =? k') eqn:E'; [apply String.eqb_eq in E'; congruence | reflexivity].
    + destruct (k0 =? k'); [reflexivity | exact IH].
Qed.

Lemma in_values_set (k : string) (v : V) (m : Map.t V) :
  In v (Map.values (Map.set k v m)).
Proof.
  unfold Map.values.
  induction m as [|[k' v'] m IH]; simpl.
  - now left.
  - destruct (k' =? k); simpl; [now left | now right].
Qed.

End MapFacts.

(** C10.  [getStrategies] returns exactly the stored strategies whose
    [isActive] is [true]: a stored strategy is listed if and only if its flag
    is [true], so one whose flag is [false] (or unset) is left out.
    [getStrategy] looks a strategy up by its id whatever the flag: right
    after [createStrategy] stores a strategy, [getStrategy] returns it under
    its id, while [getStrategies] lists it only when it was created
    active. *)
Theorem getStrategies_active_only :
  forall st : MemStorage,
    (forall s, In s (getStrategies st) <->
               In s (Map.values (strategies st)) /\ s_isActive s = Some true)
    /\ (forall s, In s (Map.values (strategies st)) ->
                  s_isActive s = Some false -> ~ In s (getStrategies st))
    /\ (forall id now ins,
          let '(created, st') := createStrategy id now ins st in
          getStrategy st' id = Some created
          /\ s_isActive created = is_isActive ins
          /\ (In created (getStrategies st') <-> is_isActive ins = Some true)).
Proof.
  intros st.
  assert (Hin : forall st0 s, In s (getStrategies st0) <->
            In s (Map.values (strategies st0)) /\ s_isActive s = Some true).
  { intros st0 s. unfold getStrategies. rewrite filter_In.
    unfold isActive_truthy.
    destruct (s_isActive s) as [[|]|]; intuition congruence. }
  split; [apply Hin|]. split.
  - intros s _ Hfalse Habs. apply Hin in Habs. destruct Habs as [_ Ht]. congruence.
  - intros id now ins. unfold createStrategy.
    split; [|split].
    + unfold getStrategy. simpl. apply get_set_same.
    + reflexivity.
    + rewrite Hin. simpl. split.
      * intros [_ H]. exact H.
      * intros H. split; [apply in_values_set | exact H].
Qed.

(** C9.  [getMarketData] returns exactly the stored rows of the ticker; the
    rows are further restricted to [startDate <= date <= endDate] only when
    both bounds are given.  With one bound or none the result is the list
    of all rows of the ticker. *)
Theorem getMarketData_filters :
  forall (st : MemStorage) (ticker : string) (startDate endDate : option Date),
    (forall d, In d (getMarketData st ticker startDate endDate) <->
               In d (Map.values (marketData st))
               /\ md_ticker d = ticker
               /\ (forall s e, startDate = Some s -> endDate = Some e ->
                               (s <= md_date d <= e)%Z))
    /\ (forall s e, startDate = Some s -> endDate = Some e ->
          getMarketData st ticker startDate endDate =
          filter (fun d => (s <=? md_date d)%Z && (md_date d <=? e)%Z)
                 (getMarketData st ticker None None))
    /\ (startDate = None \/ endDate = None ->
          getMarketData st ticker startDate endDate =
          getMarketData st ticker None None)
    /\ (forall d, In d (getMarketData st ticker None None) <->
                  In d (Map.values (marketData st)) /\ md_ticker d = ticker).
Proof.
  intros st ticker startDate endDate.
  assert (Hall : forall d, In d (getMarketData st ticker None None) <->
                 In d (Map.values (marketData st)) /\ md_ticker d = ticker).
  { intros d. unfold getMarketData. rewrite filter_In, String.eqb_eq. tauto. }
  split; [|split; [|split]].
  - intros d. destruct startDate as [s|], endDate as [e|].
    + unfold getMarketData, in_range. rewrite !filter_In, String.eqb_eq.
      rewrite andb_true_iff, !Z.leb_le. split.
      * intros [[H1 H2] H3]. split; [exact H1 | split; [exact H2 |]].
        intros s' e' Hs He. injection Hs as <-. injection He as <-. lia.
      * intros (H1 & H2 & H3). specialize (H3 s e eq_refl eq_refl). tauto.
    + change (getMarketData st ticker (Some s) None)
        with (getMarketData st ticker None None).
      rewrite Hall. split; [intros [H1 H2]; repeat split; auto; discriminate | tauto].
    + change (getMarketData st ticker None (Some e))
        with (getMarketData st ticker None None).
      rewrite Hall. split; [intros [H1 H2]; repeat split; auto; discriminate | tauto].
    + rewrite Hall. split; [intros [H1 H2]; repeat split; auto; discriminate | tauto].
  - intros s e -> ->. reflexivity.
  - intros [-> | ->]; [reflexivity | destruct startDate; reflexivity].
  - exact Hall.
Qed.

(** ** The run route *)

Import Routes.

Lemma createBacktest_pending (id : string) (now : Date) (ins : InsertBacktest)
      (st : MemStorage) :
  let '(created, st') := createBacktest id now ins st in
  b_status created = Some "pending"
  /\ b_results created = JNull
  /\ getBacktest st' id = Some created.
Proof.
  unfold createBacktest, getBacktest. simpl.
  repeat split. apply get_set_same.
Qed.

Lemma updateBacktest_status (id : string) (p : PartialBacktest)
      (st : MemStorage) (existing : Backtest) :
  getBacktest st id = Some existing ->
  getBacktest (snd (updateBacktest id p st)) id = Some (spread existing p).
Proof.
  unfold getBacktest, updateBacktest. intros ->. simpl. apply get_set_same.
Qed.

(** The identifier [python] is bound nowhere in the run handler. *)
Lemma python_unbound : existsb (String.eqb "python") run_scope = false.
Proof. vm_compute. reflexivity. Qed.

(** The handler of the market-data route attaches its listeners through the
    identifier it declared. *)
Lemma python2_bound : existsb (String.eqb "python2") market_data_scope = true.
Proof. vm_compute. reflexivity. Qed.

(** What the run handler does for a stored backtest: it marks the record as
    running, starts the child process, fails on the unbound identifier and
    answers 500 from its [catch] block, with no listener attached. *)
Lemma run_route_existing
      (Number_toString : number -> string) (JSON_stringify : JsVal -> string)
      (Date_toISOString : Date -> string) (cwd id : string)
      (w : World) (backtest : Backtest) :
  getBacktest (store w) id = Some backtest ->
  run_route Number_toString JSON_stringify Date_toISOString cwd id w =
  (Ok tt,
   mkWorld (snd (updateBacktest id (patch_status "running") (store w)))
           (spawned w ++
              [Spawn "python3"
                 ["-c"; run_script Number_toString JSON_stringify
                                   Date_toISOString cwd backtest]])%list
           (sent w ++ [mkResponse 500 (error_body "Failed to run backtest")])%list
           (listeners w)).
Proof.
  intros Hget.
  unfold run_route, try_catch, bind, getBacktestM. rewrite Hget.
  unfold updateBacktestM.
  destruct (updateBacktest id (patch_status "running") (store w)) as [u st'] eqn:Hup.
  unfold spawnM, resolve. rewrite python_unbound. reflexivity.
Qed.

(** The [close] listener of the run handler, had it been attached, settles
    the record: whatever the child reports, the stored status ends as
    [completed] (with the results) or [failed]. *)
Lemma run_on_close_settles (id : string) (child : ChildExit) (w : World)
      (backtest : Backtest) :
  getBacktest (store w) id = Some backtest ->
  let w' := snd (run_on_close id child w) in
  (exists results,
      getBacktest (store w') id =
      Some (spread backtest (patch_status_results "completed" results)))
  \/ getBacktest (store w') id = Some (spread backtest (patch_status "failed")).
Proof.
  intros Hget.
  pose proof (updateBacktest_status id (patch_status "failed") (store w) backtest Hget) as Hf.
  unfold run_on_close, try_catch, bind.
  destruct (code_is_not_zero (exit_code child)).
  - right. unfold updateBacktestM, send.
    destruct (updateBacktest id (patch_status "failed") (store w)); exact Hf.
  - destruct (stdout_json child) as [results|].
    + destruct (get_prop results "error") as [err|].
      * destruct (truthy err).
        -- right. unfold updateBacktestM, send.
           destruct (updateBacktest id (patch_status "failed") (store w)); exact Hf.
        -- left. exists results.
           pose proof (updateBacktest_status id
                         (patch_status_results "completed" results) (store w) backtest Hget) as Hc.
           unfold updateBacktestM, send.
           destruct (updateBacktest id (patch_status_results "completed" results)
                                    (store w)); exact Hc.
      * right. unfold throw, updateBacktestM, send.
        destruct (updateBacktest id (patch_status "failed") (store w)); exact Hf.
    + right. unfold throw, updateBacktestM, send.
      destruct (updateBacktest id (patch_status "failed") (store w)); exact Hf.
Qed.

(** C8.  A record made by [createBacktest] starts with status [pending] and
    results [null].  The run endpoint, called on that record, answers 500
    "Failed to run backtest" and leaves the stored status at [running]:
    the [close] listener that would set [completed] or [failed] is never
    attached, whatever the child process reports. *)
Theorem run_endpoint_leaves_running :
  forall (Number_toString : number -> string) (JSON_stringify : JsVal -> string)
         (Date_toISOString : Date -> string) (cwd id : string) (now : Date)
         (ins : InsertBacktest) (st : MemStorage) (child : ChildExit),
    let '(created, st1) := createBacktest id now ins st in
    let w := snd (handle_run Number_toString JSON_stringify Date_toISOString
                             cwd id child (initial_world st1)) in
    b_status created = Some "pending"
    /\ b_results created = JNull
    /\ sent w = [mkResponse 500 (error_body "Failed to run backtest")]
    /\ listeners w = []
    /\ option_map b_status (getBacktest (store w) id) = Some (Some "running")
    /\ option_map b_results (getBacktest (store w) id) = Some JNull.
Proof.
  intros.
  pose proof (createBacktest_pending id now ins st) as Hc.
  destruct (createBacktest id now ins st) as [created st1] eqn:Hcreate.
  destruct Hc as (Hs & Hr & Hg).
  unfold handle_run.
  rewrite (run_route_existing Number_toString JSON_stringify Date_toISOString
             cwd id (initial_world st1) created Hg).
  cbn [listeners initial_world existsb snd sent store app].
  pose proof (updateBacktest_status id (patch_status "running") st1 created Hg) as Hu.
  cbn [store initial_world].
  repeat split; try assumption.
  - rewrite Hu. reflexivity.
  - rewrite Hu. cbn. rewrite Hr. reflexivity.
Qed.

(** ** How the routes reach the backend *)

Section IncludesFacts.

Lemma includes_unfold (s h : string) :
  includes s h = prefix s h
                 || match h with
                    | EmptyString => false
                    | String _ h' => includes s h'
                    end.
Proof. destruct h; reflexivity. Qed.

Lemma prefix_append (s t : string) : prefix s (s ++ t) = true.
Proof.
  induction s as [|c s IH]; simpl.
  - destruct t; reflexivity.
  - destruct (ascii_dec c c) as [_|Hne]; [exact IH | congruence].
Qed.

Lemma prefix_append_l (s a b : string) :
  prefix s a = true -> prefix s (a ++ b) = true.
Proof.
  revert a. induction s as [|c s IH]; intros a H.
  - destruct (a ++ b); reflexivity.
  - destruct a as [|c' a]; simpl in *; [discriminate|].
    destruct (ascii_dec c c'); [now apply IH | discriminate].
Qed.

Lemma includes_here (s t : string) : includes s (s ++ t) = true.
Proof. rewrite includes_unfold, prefix_append. reflexivity. Qed.

Lemma includes_self (s : string) : includes s s = true.
Proof.
  rewrite includes_unfold.
  assert (H : prefix s s = true).
  { induction s as [|c s IH]; simpl; [reflexivity|].
    destruct (ascii_dec c c); [exact IH | congruence]. }
  rewrite H. reflexivity.
Qed.

Lemma includes_skip (s a t : string) :
  includes s t = true -> includes s (a ++ t) = true.
Proof.
  intros H. induction a as [|c a IH]; simpl; [exact H|].
  rewrite IH. apply orb_true_r.
Qed.

Lemma includes_append_l (s a b : string) :
  includes s a = true -> includes s (a ++ b) = true.
Proof.
  induction a as [|c a IH]; intros H.
  - rewrite includes_unfold in H. rewrite orb_false_r in H.
    rewrite includes_unfold. rewrite (prefix_append_l s EmptyString b H).
    reflexivity.
  - rewrite includes_unfold in H. apply orb_true_iff in H.
    change (String c a ++ b) with (String c (a ++ b)).
    rewrite includes_unfold. apply orb_true_iff.
    destruct H as [H|H].
    + left. exact (prefix_append_l s (String c a) b H).
    + right. now apply IH.
Qed.

Lemma includes_join (s sep line : string) (lines : list string) :
  In line lines -> includes s line = true ->
  includes s (join sep lines) = true.
Proof.
  intros Hin Hs. induction lines as [|p rest IH]; [contradiction|].
  destruct rest as [|q rest].
  - destruct Hin as [->|[]]. exact Hs.
  - change (join sep (p :: q :: rest)) with (p ++ sep ++ join sep (q :: rest)).
    destruct Hin as [->|Hin].
    + now apply includes_append_l.
    + apply includes_skip, includes_skip. now apply IH.
Qed.

End IncludesFacts.

Lemma existsb_last (f : string -> bool) (l : list string) (x : string) :
  f x = true -> existsb f (l ++ [x])%list = true.
Proof.
  intros H. rewrite existsb_app. simpl. rewrite H. apply orb_true_r.
Qed.

Lemma market_data_on_close_spawned (child : ChildExit) (w : World) :
  spawned (snd (market_data_on_close child w)) = spawned w.
Proof.
  unfold market_data_on_close, try_catch, throw, send.
  destruct (code_is_not_zero (exit_code child)); [reflexivity|].
  destruct (stdout_json child) as [result|]; [|reflexivity].
  destruct (get_prop result "error") as [err|]; [|reflexivity].
  destruct (truthy err); reflexivity.
Qed.

(** The program text handed to the interpreter by the market-data route
    contains the ticker and both query parameters as they were received. *)
Lemma market_data_script_interpolates (cwd ticker : string)
      (start_date end_date : option string) :
  includes ticker (market_data_script cwd ticker start_date end_date) = true
  /\ includes (show_query start_date)
              (market_data_script cwd ticker start_date end_date) = true
  /\ includes (show_query end_date)
              (market_data_script cwd ticker start_date end_date) = true.
Proof.
  unfold market_data_script.
  repeat split.
  - eapply includes_join.
    + do 9 right. left. reflexivity.
    + apply includes_skip, includes_here.
  - eapply includes_join.
    + do 9 right. left. reflexivity.
    + do 3 apply includes_skip. apply includes_here.
  - eapply includes_join.
    + do 9 right. left. reflexivity.
    + do 5 apply includes_skip. apply includes_here.
Qed.

(** The program text handed to the interpreter by the run route contains
    the stored ticker, the printed capital and the escaped strategy
    configuration. *)
Lemma run_script_interpolates
      (N : number -> string) (J : JsVal -> string) (D : Date -> string)
      (cwd : string) (backtest : Backtest) :
  includes (b_ticker backtest) (run_script N J D cwd backtest) = true
  /\ includes (N (b_initialCapital backtest)) (run_script N J D cwd backtest) = true
  /\ includes (escaped_json J (b_strategyConfig backtest))
              (run_script N J D cwd backtest) = true.
Proof.
  unfold run_script.
  repeat split.
  - eapply includes_join.
    + do 7 right. left. reflexivity.
    + do 6 apply includes_skip. apply includes_here.
  - eapply includes_join.
    + do 10 right. left. reflexivity.
    + do 5 apply includes_skip. apply includes_here.
  - eapply includes_join.
    + do 12 right. left. reflexivity.
    + do 5 apply includes_skip.
      apply includes_self.
Qed.

(** C1, as amended.  Both routes reach the backend by starting one
    [python3 -c <program>] child process per request, and the program text
    is assembled by interpolation: for the market-data route it contains
    the ticker and the two query parameters as received; for the run route,
    on a stored backtest, it contains the stored ticker, the printed
    capital and the escaped strategy configuration.  A run request for an
    unknown id starts no process and is answered 404. *)
Theorem backend_reached_by_spawn :
  forall (cwd : string) (st : MemStorage),
    (forall ticker start_date end_date child,
        let w' := snd (handle_market_data cwd ticker start_date end_date child
                                          (initial_world st)) in
        exists script,
          spawned w' = [Spawn "python3" ["-c"; script]]
          /\ includes ticker script = true
          /\ includes (show_query start_date) script = true
          /\ includes (show_query end_date) script = true)
    /\ (forall (N : number -> string) (J : JsVal -> string) (D : Date -> string)
               id child backtest,
          getBacktest st id = Some backtest ->
          let w' := snd (handle_run N J D cwd id child (initial_world st)) in
          exists script,
            spawned w' = [Spawn "python3" ["-c"; script]]
            /\ includes (b_ticker backtest) script = true
            /\ includes (N (b_initialCapital backtest)) script = true
            /\ includes (escaped_json J (b_strategyConfig backtest)) script = true)
    /\ (forall (N : number -> string) (J : JsVal -> string) (D : Date -> string)
               id child,
          getBacktest st id = None ->
          let w' := snd (handle_run N J D cwd id child (initial_world st)) in
          spawned w' = []
          /\ sent w' = [mkResponse 404 (error_body "Backtest not found")]).
Proof.
  intros cwd st. split; [|split].
  - intros ticker start_date end_date child.
    exists (market_data_script cwd ticker start_date end_date).
    split; [|apply market_data_script_interpolates].
    unfold handle_market_data, market_data_route, try_catch, bind, spawnM, resolve.
    rewrite python2_bound. unfold ret, on. cbn [listeners initial_world].
    cbn [app existsb String.eqb Ascii.eqb Bool.eqb orb].
    rewrite market_data_on_close_spawned. reflexivity.
  - intros N J D id child backtest Hget.
    exists (run_script N J D cwd backtest).
    split; [|apply run_script_interpolates].
    unfold handle_run.
    rewrite (run_route_existing N J D cwd id (initial_world st) backtest Hget).
    reflexivity.
  - intros N J D id child Hget.
    unfold handle_run, run_route, try_catch, bind, getBacktestM.
    cbn [store initial_world]. rewrite Hget. split; reflexivity.
Qed.

(** C1 as stated fails: a market-data request for AAPL starts a [python3]
    child process, and the ticker and dates of the request are spliced
    into the program text it is given. *)
Lemma market_data_request_spawns_python :
  let w := snd (handle_market_data "/app" "AAPL" (Some "2024-01-01")
                  (Some "2024-06-30")
                  (mkChildExit (Some 0%Z) (Some (JObj [])) EmptyString)
                  (initial_world empty_storage)) in
  spawned w <> []
  /\ spawned w = [Spawn "python3"
                    ["-c"; market_data_script "/app" "AAPL" (Some "2024-01-01")
                                              (Some "2024-06-30")]]
  /\ includes "DataService.fetch_stock_data('AAPL', '2024-01-01', '2024-06-30')"
              (market_data_script "/app" "AAPL" (Some "2024-01-01")
                                  (Some "2024-06-30")) = true.
Proof.
  cbv zeta. split; [|split].
  - vm_compute. discriminate.
  - vm_compute. reflexivity.
  - vm_compute. reflexivity.
Qed.

(** The run route on a stored AAPL backtest starts one child process whose
    program text carries the ticker, the capital and the configuration. *)
Lemma backend_reached_by_spawn_witness :
  let st := snd (createBacktest "b1" 0%Z sample_insert empty_storage) in
  let w' := snd (handle_run (fun _ => "100000") (fun _ => "[]")
                            (fun _ => "2024-01-01T00:00:00.000Z")
                            "/app" "b1" (mkChildExit (Some 0%Z) None EmptyString)
                            (initial_world st)) in
  exists script,
    spawned w' = [Spawn "python3" ["-c"; script]]
    /\ includes "AAPL" script = true
    /\ includes "100000" script = true
    /\ includes "[]" script = true.
Proof.
  cbv zeta.
  apply (proj1 (proj2 (backend_reached_by_spawn "/app"
           (snd (createBacktest "b1" 0%Z sample_insert empty_storage))))
           (fun _ => "100000") (fun _ => "[]")
           (fun _ => "2024-01-01T00:00:00.000Z")
           "b1" (mkChildExit (Some 0%Z) None EmptyString)
           (fst (createBacktest "b1" 0%Z sample_insert empty_storage))).
  reflexivity.
Defined.

(** ** Creating a backtest *)

Lemma parse_iff_shape (body : JsVal) :
  insertBacktestSchema_parse body = None <-> has_insert_shape body = false.
Proof.
  destruct body as [| | | | | |items|fields]; try (split; reflexivity).
  unfold insertBacktestSchema_parse, has_insert_shape.
  destruct (assoc "ticker" fields); cbn; try (split; reflexivity).
  destruct (assoc "startDate" fields); cbn; try (split; reflexivity).
  destruct (assoc "endDate" fields); cbn; try (split; reflexivity).
  destruct (assoc "initialCapital" fields) as [| | |n| | | |]; cbn;
    try (split; reflexivity).
  destruct (assoc "commission" fields) as [| | |c| | | |]; cbn;
    destruct (assoc "strategyConfig" fields); cbn;
    try destruct (in_real_range c); try destruct (in_real_range n); cbn;
    split; intros H; (reflexivity || discriminate H).
Qed.

(** At the level of the handler, whose [req.body] may be any value:
    [POST /api/backtests] answers 400 "Invalid backtest configuration",
    stores nothing and starts no process exactly when the body does not
    have the shape of the insert schema; a body of that shape is stored as
    a pending record without results and answered 200. *)
Lemma post_backtests_by_shape :
  forall (body : JsVal) (id : string) (now : Date) (st : MemStorage),
    let w := snd (post_backtests body id now (initial_world st)) in
    spawned w = []
    /\ (has_insert_shape body = false ->
        sent w = [mkResponse 400 (error_body "Invalid backtest configuration")]
        /\ store w = st)
    /\ (has_insert_shape body = true ->
        exists created,
          sent w = [mkResponse 200 (backtest_json created)]
          /\ getBacktest (store w) id = Some created
          /\ b_status created = Some "pending"
          /\ b_results created = JNull).
Proof.
  intros body id now st. cbv zeta.
  unfold post_backtests, try_catch, bind.
  destruct (insertBacktestSchema_parse body) as [validated|] eqn:Hparse.
  - unfold createBacktestM, send. cbn [store initial_world].
    pose proof (createBacktest_pending id now validated st) as Hc.
    destruct (createBacktest id now validated st) as [created st'].
    destruct Hc as (Hs & Hr & Hg).
    cbn. split; [reflexivity|]. split.
    + intros Hshape. apply parse_iff_shape in Hshape. congruence.
    + intros _. exists created. auto.
  - unfold throw, send. cbn. split; [reflexivity|]. split.
    + intros _. split; reflexivity.
    + intros Hshape. apply parse_iff_shape in Hparse. congruence.
Qed.

(** The schema has no check on the sign of a number: a body that carries
    [Date] objects, a capital of -1000, a commission of 0 and an empty
    strategy list has the shape and is stored.  No JSON request body can
    carry [Date] objects. *)
Example dated_body_with_negative_capital_has_shape :
  let w := snd (post_backtests nonpositive_body "b1" 0%Z
                               (initial_world empty_storage)) in
  map statusCode (sent w) = [200%Z]
  /\ option_map b_status (getBacktest (store w) "b1") = Some (Some "pending")
  /\ option_map b_initialCapital (getBacktest (store w) "b1") = Some (-1000)
  /\ option_map b_commission (getBacktest (store w) "b1") = Some (Present 0)
  /\ option_map b_strategyConfig (getBacktest (store w) "b1") = Some (JArr []).
Proof.
  cbv zeta. repeat split; vm_compute; reflexivity.
Qed.





(** ** The results dashboard *)

Import Dashboard.

Lemma pnl_trichotomy (p : number) :
  (num_gt p 0 = true /\ num_lt p 0 = false /\ Qeq_bool p 0 = false)
  \/ (num_gt p 0 = false /\ num_lt p 0 = true /\ Qeq_bool p 0 = false)
  \/ (num_gt p 0 = false /\ num_lt p 0 = false /\ Qeq_bool p 0 = true).
Proof.
  unfold num_gt, num_lt.
  destruct (Qle_bool p 0) eqn:A, (Qle_bool 0 p) eqn:B, (Qeq_bool p 0) eqn:C;
    cbn; try tauto; exfalso.
  - apply Qle_bool_iff in A. apply Qle_bool_iff in B.
    assert (H : Qeq_bool p 0 = true) by (apply Qeq_bool_iff; lra). congruence.
  - apply Qeq_bool_iff in C.
    assert (H : Qle_bool 0 p = true) by (apply Qle_bool_iff; lra). congruence.
  - apply Qeq_bool_iff in C.
    assert (H : Qle_bool p 0 = true) by (apply Qle_bool_iff; lra). congruence.
  - assert (HA : ~ p <= 0) by (intros H; apply Qle_bool_iff in H; congruence).
    assert (H : Qle_bool 0 p = true) by (apply Qle_bool_iff; lra). congruence.
  - assert (HA : ~ p <= 0) by (intros H; apply Qle_bool_iff in H; congruence).
    assert (H : Qle_bool 0 p = true) by (apply Qle_bool_iff; lra). congruence.
Qed.

Lemma winners_filter (trades : list Trade) :
  filteredTrades EmptyString "winners" trades =
  filter (fun t => num_gt (pnl t) 0) trades.
Proof.
  unfold filteredTrades. apply filter_ext. intros t.
  unfold matchesFilter, matchesType. cbn. now rewrite orb_false_r.
Qed.

Lemma losers_filter (trades : list Trade) :
  filteredTrades EmptyString "losers" trades =
  filter (fun t => num_lt (pnl t) 0) trades.
Proof.
  unfold filteredTrades. apply filter_ext. intros t.
  unfold matchesFilter, matchesType. cbn. reflexivity.
Qed.


(** The type filter of the trade log counts a trade as a winner when its
    pnl is above zero and as a loser when it is below zero, and leaves a
    trade with zero pnl out of both: winners + losers + zero-pnl trades
    are all the trades. *)
Lemma winners_losers_and_even_partition :
  forall trades : list Trade,
    let winners := filteredTrades EmptyString "winners" trades in
    let losers := filteredTrades EmptyString "losers" trades in
    let even := filter (fun t => Qeq_bool (pnl t) 0) trades in
    (forall t, In t winners <-> In t trades /\ 0 < pnl t)
    /\ (forall t, In t losers <-> In t trades /\ pnl t < 0)
    /\ (List.length winners + List.length losers + List.length even
        = List.length trades)%nat
    /\ ((List.length winners + List.length losers = List.length trades)%nat
        <-> even = []).
Proof.
  intros trades. cbv zeta.
  rewrite winners_filter, losers_filter.
  assert (Hlen : (List.length (filter (fun t => num_gt (pnl t) 0%Q) trades)
                  + List.length (filter (fun t => num_lt (pnl t) 0%Q) trades)
                  + List.length (filter (fun t => Qeq_bool (pnl t) 0%Q) trades)
                  = List.length trades)%nat).
  { induction trades as [|t trades IH]; [reflexivity|].
    cbn [filter].
    destruct (pnl_trichotomy (pnl t)) as [(-> & -> & ->)|[(-> & -> & ->)|(-> & -> & ->)]];
      cbn [List.length]; lia. }
  split; [|split; [|split]].
  - intros t. rewrite filter_In. unfold num_gt.
    rewrite negb_true_iff. split; intros [H1 H2]; split; auto.
    + destruct (Qlt_le_dec 0 (pnl t)) as [Hlt|Hle]; [exact Hlt|].
      apply Qle_bool_iff in Hle. congruence.
    + destruct (Qle_bool (pnl t) 0) eqn:E; [|reflexivity].
      apply Qle_bool_iff in E. lra.
  - intros t. rewrite filter_In. unfold num_lt.
    rewrite negb_true_iff. split; intros [H1 H2]; split; auto.
    + destruct (Qlt_le_dec (pnl t) 0) as [Hlt|Hle]; [exact Hlt|].
      apply Qle_bool_iff in Hle. congruence.
    + destruct (Qle_bool 0 (pnl t)) eqn:E; [|reflexivity].
      apply Qle_bool_iff in E. lra.
  - exact Hlen.
  - split.
    + intros H.
      destruct (filter (fun t => Qeq_bool (pnl t) 0) trades); [reflexivity|].
      cbn [List.length] in Hlen. lia.
    + intros H. rewrite H in Hlen. cbn [List.length] in Hlen. lia.
Qed.

(** A ledger holding one trade with zero pnl: the trade is under neither
    "Winners Only" nor "Losers Only". *)
Example even_trade_in_neither_class :
  (List.length (filteredTrades EmptyString "winners" [even_trade])
   + List.length (filteredTrades EmptyString "losers" [even_trade])
   <> List.length [even_trade])%nat
  /\ matchesType "losers" even_trade = false
  /\ pnl_class even_trade = "text-danger".
Proof.
  repeat split; vm_compute; congruence.
Qed.





(** ** The engine of the design document *)

Import Engine.

Section SimulatorLog.

Variable rate : Q.

Lemma step_log (i : nat) (s : Signal) (next : PriceBar) (st : SimState) :
  exists a f,
    log (step rate i s next st) = (log st ++ [mkLog i s a f])%list
    /\ (f = None \/ f = Some (open next)).
Proof.
  unfold step, open_position, close_position, no_transition.
  destruct (pos_side (position st)), s;
    try destruct (Qfloor (cash st / open next) <? 1)%Z;
    cbn [log]; do 2 eexists; (split; [reflexivity | auto]).
Qed.

Lemma force_close_log (b : PriceBar) (st : SimState) :
  log (force_close rate b st) = log st.
Proof. unfold force_close. destruct (pos_side (position st)); reflexivity. Qed.

(** Every line the replay adds to the log is about a bar that has a
    successor, and a fill price on it is the open of that successor. *)
Lemma run_bars_fills (bars : list PriceBar) :
  forall (i : nat) (signals : list Signal) (st : SimState) (e : LogEntry),
    In e (log (run_bars rate i bars signals st)) ->
    In e (log st)
    \/ ((i <= log_bar e)%nat
        /\ exists next, nth_error bars (S (log_bar e - i)) = Some next
                        /\ (log_fill e = None \/ log_fill e = Some (open next))).
Proof.
  induction bars as [|b rest IH]; intros i signals st e Hin.
  - left. exact Hin.
  - destruct rest as [|next rest'].
    + left. cbn in Hin. rewrite force_close_log in Hin. exact Hin.
    + change (run_bars rate i (b :: next :: rest') signals st)
        with (run_bars rate (S i) (next :: rest') (tl signals)
                (step rate i (hd HOLD signals) next (record_equity b st))) in Hin.
      apply IH in Hin. destruct Hin as [Hin | (Hle & nx & Hnth & Hfill)].
      * destruct (step_log i (hd HOLD signals) next (record_equity b st))
          as (a & f & Hlog & Hf).
        rewrite Hlog in Hin. apply in_app_or in Hin.
        destruct Hin as [Hin | [<- | []]].
        -- left. exact Hin.
        -- right. cbn [log_bar log_fill]. split; [lia|].
           exists next. rewrite Nat.sub_diag. split; [reflexivity | exact Hf].
      * right. split; [lia|]. exists nx. split; [|exact Hfill].
        replace (log_bar e - i)%nat with (S (log_bar e - S i)) by lia.
        exact Hnth.
Qed.

(** The replay logs the bars in order, one line for every bar but the
    last. *)
Lemma run_bars_log_bars (bars : list PriceBar) :
  forall (i : nat) (signals : list Signal) (st : SimState),
    map log_bar (log (run_bars rate i bars signals st)) =
    (map log_bar (log st) ++ seq i (List.length bars - 1))%list.
Proof.
  induction bars as [|b rest IH]; intros i signals st.
  - cbn. now rewrite app_nil_r.
  - destruct rest as [|next rest'].
    + cbn. rewrite force_close_log. now rewrite app_nil_r.
    + change (run_bars rate i (b :: next :: rest') signals st)
        with (run_bars rate (S i) (next :: rest') (tl signals)
                (step rate i (hd HOLD signals) next (record_equity b st))).
      rewrite IH.
      destruct (step_log i (hd HOLD signals) next (record_equity b st))
        as (a & f & Hlog & _).
      rewrite Hlog, map_app, <- app_assoc. cbn [map log_bar record_equity log].
      cbn [List.length seq app]. f_equal.
      replace (S (S (List.length rest')) - 1)%nat with (S (List.length rest')) by lia.
      replace (S (List.length rest') - 1)%nat with (List.length rest') by lia.
      reflexivity.
Qed.

End SimulatorLog.

Lemma sequence_nth {E A : Type} (l : list (E + A)) :
  forall (xs : list A) (i : nat) (x : A),
    sequence l = inr xs -> nth_error xs i = Some x ->
    nth_error l i = Some (inr x).
Proof.
  induction l as [|[e|a] l IH]; intros xs i x Hseq Hnth; cbn in Hseq.
  - injection Hseq as <-. destruct i; discriminate.
  - discriminate.
  - destruct (sequence l) as [e|rest] eqn:Hrest; [discriminate|].
    injection Hseq as <-. destruct i as [|i]; cbn in *.
    + congruence.
    + eapply IH; [reflexivity | exact Hnth].
Qed.

Lemma sequence_inl {E A : Type} (l : list (E + A)) (e : E) :
  sequence l = inl e -> In (inl e) l.
Proof.
  induction l as [|[e'|a] l IH]; cbn; intros H.
  - discriminate.
  - left. congruence.
  - destruct (sequence l); [|discriminate].
    right. apply IH. congruence.
Qed.

Lemma nth_error_map_seq {B : Type} (f : nat -> B) (len : nat) :
  forall (start i : nat) (y : B),
    nth_error (map f (seq start len)) i = Some y -> y = f (start + i)%nat.
Proof.
  induction len as [|len IH]; intros start i y H.
  - destruct i; discriminate.
  - destruct i as [|i]; cbn in H.
    + rewrite Nat.add_0_r. congruence.
    + apply IH in H. rewrite H. f_equal. lia.
Qed.

Lemma skipn_tail {A : Type} (i : nat) :
  forall (l : list A) (b : A) (rest : list A),
    skipn i l = b :: rest -> skipn (S i) l = rest /\ nth_error l i = Some b.
Proof.
  induction i as [|i IH]; intros l b rest H.
  - cbn in H. subst l. split; reflexivity.
  - destruct l as [|a l]; [discriminate|]. cbn in H.
    apply IH in H. exact H.
Qed.

Section SimulatorLedger.

Variable rate : Q.
Variable series : list PriceBar.

Lemma make_trade_entry (p : Position) (price : Q) (d : Z) :
  entry_price (make_trade rate p price d) = pos_entry_price p.
Proof. reflexivity. Qed.

Lemma step_entries (i : nat) (s : Signal) (next : PriceBar) (st : SimState) :
  nth_error series (S i) = Some next ->
  entries_at_open series st -> entries_at_open series (step rate i s next st).
Proof.
  intros Hnext [Hpos Htr].
  assert (Hopen : entered_at_open series (open next)) by (exists i, next; auto).
  assert (Hclose : pos_side (position st) <> FLAT ->
                   entries_at_open series (close_position rate i s (open next)
                                                   (date next) st)).
  { intros Hheld. split; cbn [position trades close_position flat pos_side].
    - intros H. now contradiction H.
    - intros t Hin. apply in_app_or in Hin. destruct Hin as [Hin|[<-|[]]].
      + now apply Htr.
      + rewrite make_trade_entry. now apply Hpos. }
  assert (Hopenp : forall sd, entries_at_open series
                     (open_position rate i s sd (open next) (date next) st)).
  { intros sd. unfold open_position.
    destruct (Qfloor (cash st / open next) <? 1)%Z; split;
      cbn [position trades pos_entry_price]; auto. }
  unfold step.
  destruct (pos_side (position st)) eqn:Hside, s;
    try apply Hopenp; try (apply Hclose; congruence).
  all: split; cbn [no_transition position trades]; auto.
  all: try (rewrite Hside; exact Hpos).
Qed.

Lemma run_bars_entries (bars : list PriceBar) :
  forall (i : nat) (signals : list Signal) (st : SimState),
    skipn i series = bars ->
    entries_at_open series st ->
    entries_at_open series (run_bars rate i bars signals st).
Proof.
  induction bars as [|b rest IH]; intros i signals st Hskip Hinv.
  - exact Hinv.
  - destruct rest as [|next rest'].
    + cbn [run_bars]. destruct Hinv as [Hpos Htr].
      unfold force_close. destruct (pos_side (position st)) eqn:Hside;
        (split; cbn [record_equity position trades flat pos_side];
         [ try (intros H; now contradiction H); try (rewrite Hside; exact Hpos)
         | try exact Htr ]);
        intros t Hin; apply in_app_or in Hin;
        (destruct Hin as [Hin|[<-|[]]];
         [ now apply Htr
         | rewrite make_trade_entry; apply Hpos; congruence ]).
    + change (run_bars rate i (b :: next :: rest') signals st)
        with (run_bars rate (S i) (next :: rest') (tl signals)
                (step rate i (hd HOLD signals) next (record_equity b st))).
      destruct (skipn_tail i series b (next :: rest') Hskip) as [Hskip' _].
      destruct (skipn_tail (S i) series next rest' Hskip') as [_ Hnext].
      apply IH; [exact Hskip'|].
      apply step_entries; [exact Hnext|].
      destruct Hinv as [Hpos Htr]. split; cbn [record_equity position trades]; auto.
Qed.

End SimulatorLedger.

Lemma hd_skipn {A : Type} (d : A) (i : nat) :
  forall l : list A, hd d (skipn i l) = nth i l d.
Proof.
  induction i as [|i IH]; intros [|a l]; cbn; auto.
Qed.

Lemma tl_skipn {A : Type} (i : nat) :
  forall l : list A, tl (skipn i l) = skipn (S i) l.
Proof.
  induction i as [|i IH]; intros [|a l]; cbn; auto.
Qed.

Lemma sum_pnl_snoc (l : list Trade) (t : Trade) :
  sum_pnl (l ++ [t]) = (sum_pnl l + pnl t)%Q.
Proof. unfold sum_pnl. rewrite fold_left_app. reflexivity. Qed.

Section PrescribedRun.

Variable bars : list PriceBar.
Variable signals : list Signal.
Variable rate : Q.
Variable initial_capital : Q.

Lemma cash_after_snoc (l : list Trade) (t : Trade) :
  (cash_after initial_capital (l ++ [t])
   == cash_after initial_capital l + pnl t)%Q.
Proof. unfold cash_after. rewrite sum_pnl_snoc. ring. Qed.

Lemma floor_of_cash (c c' fill : Q) :
  (c == c')%Q -> Qfloor (c / fill) = Qfloor (c' / fill).
Proof. intros H. apply Qfloor_comp. now rewrite H. Qed.

Lemma opens_at_fill (available : Q) (i : nat) (sd : Side) (b next : PriceBar) :
  nth_error bars (S i) = Some next ->
  opens_at bars signals available i sd b -> b = next.
Proof. intros Hnext (Hb & _). unfold fill_bar in Hb. congruence. Qed.

(** Handling the signal of bar i while flat. *)
Lemma step_flat_prescribed (i : nat) (next : PriceBar) (st : SimState)
      (free : nat) :
  nth_error bars (S i) = Some next ->
  ledger_until bars signals rate initial_capital (trades st) free ->
  pos_side (position st) = FLAT ->
  (free <= i)%nat ->
  (forall m, (free <= m < i)%nat ->
             idle_at bars signals (cash_after initial_capital (trades st)) m) ->
  (cash st == cash_after initial_capital (trades st))%Q ->
  prescribed_before bars signals rate initial_capital (S i)
                    (step rate i (signal_of signals i) next st).
Proof.
  intros Hnext Hled Hflat Hle Hidle Hcash.
  assert (Hstay : forall st',
             trades st' = trades st -> position st' = position st ->
             cash st' = cash st ->
             idle_at bars signals (cash_after initial_capital (trades st)) i ->
             prescribed_before bars signals rate initial_capital (S i) st').
  { intros st' Ht Hp Hc Hi. exists free. rewrite Ht, Hp, Hc.
    split; [exact Hled|]. left.
    split; [exact Hflat|]. split; [lia|]. split; [|exact Hcash].
    intros m Hm. destruct (Nat.eq_dec m i) as [->|Hne]; [exact Hi|].
    apply Hidle. lia. }
  assert (Henter : forall sd,
             entry_side (signal_of signals i) = Some sd ->
             prescribed_before bars signals rate initial_capital (S i)
               (open_position rate i (signal_of signals i) sd (open next)
                              (date next) st)).
  { intros sd Hsd. unfold open_position.
    rewrite (floor_of_cash _ _ (open next) Hcash).
    destruct (Qfloor (cash_after initial_capital (trades st) / open next) <? 1)%Z
      eqn:Hq.
    - apply Hstay; try reflexivity.
      intros sd' b Ho. pose proof (opens_at_fill _ _ _ _ _ Hnext Ho) as ->.
      destruct Ho as (_ & _ & Hone). apply Z.ltb_lt in Hq. lia.
    - apply Z.ltb_ge in Hq. exists free.
      cbn [trades position cash pos_side pos_entry_price pos_entry_date
           pos_quantity].
      split; [exact Hled|]. right. exists i, next.
      split; [lia|]. split; [exact Hidle|].
      split; [split; [exact Hnext | split; [exact Hsd | exact Hq]]|].
      split; [reflexivity|]. split; [reflexivity|]. split; [reflexivity|].
      split; [intros m Hm; lia|].
      rewrite Hcash. reflexivity. }
  unfold step. rewrite Hflat.
  destruct (signal_of signals i) eqn:Hsig.
  - apply Henter. reflexivity.
  - apply Henter. reflexivity.
  - apply Hstay; try reflexivity.
    intros sd b (_ & Hs & _). rewrite Hsig in Hs. discriminate.
  - apply Hstay; try reflexivity.
    intros sd b (_ & Hs & _). rewrite Hsig in Hs. discriminate.
Qed.

Lemma fill_bar_past_end (i : nat) :
  (List.length bars <= S i)%nat -> fill_bar bars i = None.
Proof. intros H. unfold fill_bar. now apply nth_error_None. Qed.

Lemma idle_past_end (available : Q) (i : nat) :
  (List.length bars <= S i)%nat -> idle_at bars signals available i.
Proof.
  intros H sd b (Hb & _). rewrite (fill_bar_past_end i H) in Hb. discriminate.
Qed.

Lemma held_side (available : Q) (k : nat) (sd : Side) (b : PriceBar) :
  opens_at bars signals available k sd b -> sd = LONG \/ sd = SHORT.
Proof.
  intros (_ & Hs & _). destruct (signal_of signals k); cbn in Hs;
    try discriminate; injection Hs as <-; auto.
Qed.

(** Closing the position opened on the signal of bar k, at the signal of
    bar j or at the last bar j, extends the ledger by one trade and leaves
    the cash the ledger accounts for. *)
Lemma close_prescribed (st : SimState) (free k j : nat) (b : PriceBar)
      (price : Q) (day : Z) :
  ledger_until bars signals rate initial_capital (trades st) free ->
  (free <= k)%nat ->
  (forall m, (free <= m < k)%nat ->
             idle_at bars signals (cash_after initial_capital (trades st)) m) ->
  opens_at bars signals (cash_after initial_capital (trades st)) k
           (pos_side (position st)) b ->
  pos_entry_price (position st) = open b ->
  pos_entry_date (position st) = date b ->
  pos_quantity (position st)
  = Qfloor (cash_after initial_capital (trades st) / open b) ->
  (cash st == cash_after initial_capital (trades st)
              - direction_sign (pos_side (position st)) * open b
                * inject_Z (pos_quantity (position st))
              - commission_of rate (open b) (pos_quantity (position st)))%Q ->
  exited bars signals k j (make_trade rate (position st) price day) ->
  ledger_until bars signals rate initial_capital
               (trades st ++ [make_trade rate (position st) price day]) (S j)
  /\ (cash_after_close rate (position st) price (cash st)
      == cash_after initial_capital
                    (trades st ++ [make_trade rate (position st) price day]))%Q.
Proof.
  intros Hled Hle Hidle Hopen Hpr Hdt Hq Hcash Hexit. split.
  - apply (ledger_trade bars signals rate initial_capital
                        (trades st) free k j); auto.
    + exists b. cbn [make_trade side entry_price entry_date quantity]. auto.
    + split; cbn [make_trade pnl return_pct exit_price entry_price quantity
                  side]; unfold commission_of; ring.
  - rewrite cash_after_snoc. unfold cash_after_close.
    cbn [make_trade pnl]. rewrite Hcash, Hpr. unfold commission_of. ring.
Qed.

(** Handling the signal of bar i while the position opened on the signal
    of bar k is held. *)
Lemma step_held_prescribed (i : nat) (next : PriceBar) (st : SimState)
      (free k : nat) (b : PriceBar) :
  nth_error bars (S i) = Some next ->
  ledger_until bars signals rate initial_capital (trades st) free ->
  (free <= k < i)%nat ->
  (forall m, (free <= m < k)%nat ->
             idle_at bars signals (cash_after initial_capital (trades st)) m) ->
  opens_at bars signals (cash_after initial_capital (trades st)) k
           (pos_side (position st)) b ->
  pos_entry_price (position st) = open b ->
  pos_entry_date (position st) = date b ->
  pos_quantity (position st)
  = Qfloor (cash_after initial_capital (trades st) / open b) ->
  (forall m, (k < m < i)%nat ->
             closes (pos_side (position st)) (signal_of signals m) = false) ->
  (cash st == cash_after initial_capital (trades st)
              - direction_sign (pos_side (position st)) * open b
                * inject_Z (pos_quantity (position st))
              - commission_of rate (open b) (pos_quantity (position st)))%Q ->
  prescribed_before bars signals rate initial_capital (S i)
                    (step rate i (signal_of signals i) next st).
Proof.
  intros Hnext Hled Hk Hidle Hopen Hpr Hdt Hq Hhold Hcash.
  assert (Hclose : closes (pos_side (position st)) (signal_of signals i) = true ->
             prescribed_before bars signals rate initial_capital (S i)
               (close_position rate i (signal_of signals i) (open next)
                               (date next) st)).
  { intros Hc.
    destruct (close_prescribed st free k i b (open next) (date next))
      as [Hled' Hcash']; auto; try lia.
    { split; [lia|]. split; [exact Hhold|]. left. exists next.
      cbn [make_trade side exit_price exit_date]. auto. }
    exists (S i). cbn [close_position trades position cash].
    split; [exact Hled'|]. left.
    split; [reflexivity|]. split; [lia|]. split; [|exact Hcash'].
    intros m Hm. lia. }
  assert (Hstay : closes (pos_side (position st)) (signal_of signals i) = false ->
             prescribed_before bars signals rate initial_capital (S i)
               (no_transition i (signal_of signals i) st)).
  { intros Hc. exists free. cbn [no_transition trades position cash].
    split; [exact Hled|]. right. exists k, b.
    split; [lia|]. split; [exact Hidle|]. split; [exact Hopen|].
    split; [exact Hpr|]. split; [exact Hdt|]. split; [exact Hq|].
    split; [|exact Hcash].
    intros m Hm. destruct (Nat.eq_dec m i) as [->|Hne]; [exact Hc|].
    apply Hhold. lia. }
  unfold step.
  destruct (held_side _ _ _ _ Hopen) as [Hsd|Hsd]; rewrite Hsd in *;
    destruct (signal_of signals i); cbn in Hclose, Hstay; auto.
Qed.

Lemma step_prescribed (i : nat) (next : PriceBar) (st : SimState) :
  nth_error bars (S i) = Some next ->
  prescribed_before bars signals rate initial_capital i st ->
  prescribed_before bars signals rate initial_capital (S i)
                    (step rate i (signal_of signals i) next st).
Proof.
  intros Hnext (free & Hled & [(Hflat & Hle & Hidle & Hcash)
                              |(k & b & Hk & Hidle & Hopen & Hpr & Hdt & Hq
                                & Hhold & Hcash)]).
  - now apply (step_flat_prescribed i next st free).
  - now apply (step_held_prescribed i next st free k b).
Qed.

(** The last bar: a position still held is closed at its close. *)
Lemma last_bar_prescribed (i : nat) (b : PriceBar) (st : SimState) :
  nth_error bars i = Some b ->
  S i = List.length bars ->
  prescribed_before bars signals rate initial_capital i st ->
  run_as_prescribed bars signals rate initial_capital
                    (record_equity b (force_close rate b st)).
Proof.
  intros Hb Hlen (free & Hled & [(Hflat & Hle & Hidle & Hcash)
                                |(k & b' & Hk & Hidle & Hopen & Hpr & Hdt & Hq
                                  & Hhold & Hcash)]).
  - unfold force_close. rewrite Hflat. exists free.
    cbn [record_equity trades position cash].
    split; [exact Hled|]. split; [|split; [exact Hflat | exact Hcash]].
    intros m Hm. destruct (Nat.lt_ge_cases m i) as [Hlt|Hge].
    + apply Hidle. lia.
    + apply idle_past_end. lia.
  - destruct (close_prescribed st free k i b' (close b) (date b))
      as [Hled' Hcash']; auto; try lia.
    { split; [lia|]. split; [exact Hhold|]. right. exists b.
      cbn [make_trade side exit_price exit_date]. auto. }
    exists (S i). unfold force_close.
    destruct (held_side _ _ _ _ Hopen) as [Hsd|Hsd]; rewrite Hsd;
      cbn [record_equity trades position cash flat pos_side];
      (split; [exact Hled'|]);
      (split; [intros m Hm; apply idle_past_end; lia|]);
      (split; [reflexivity | exact Hcash']).
Qed.

Lemma run_bars_prescribed (rest : list PriceBar) :
  forall (b : PriceBar) (i : nat) (sigs : list Signal) (st : SimState),
    skipn i bars = b :: rest ->
    sigs = skipn i signals ->
    prescribed_before bars signals rate initial_capital i st ->
    run_as_prescribed bars signals rate initial_capital
                      (run_bars rate i (b :: rest) sigs st).
Proof.
  induction rest as [|next rest' IH]; intros b i sigs st Hskip Hsigs Hinv.
  - cbn [run_bars].
    pose proof (length_skipn i bars) as Hlen. rewrite Hskip in Hlen.
    cbn [List.length] in Hlen.
    destruct (skipn_tail i bars b [] Hskip) as [_ Hb].
    apply (last_bar_prescribed i b st Hb); [lia | exact Hinv].
  - change (run_bars rate i (b :: next :: rest') sigs st)
      with (run_bars rate (S i) (next :: rest') (tl sigs)
              (step rate i (hd HOLD sigs) next (record_equity b st))).
    destruct (skipn_tail i bars b (next :: rest') Hskip) as [Hskip' _].
    destruct (skipn_tail (S i) bars next rest' Hskip') as [_ Hnext].
    apply IH; [exact Hskip' | subst sigs; apply tl_skipn |].
    subst sigs. rewrite hd_skipn.
    apply step_prescribed; [exact Hnext | exact Hinv].
Qed.

Lemma simulate_prescribed :
  run_as_prescribed bars signals rate initial_capital
                    (simulate bars signals initial_capital rate).
Proof.
  unfold simulate.
  assert (Hstart : prescribed_before bars signals rate initial_capital 0
                     (mkSim initial_capital flat [] [] [])).
  { exists 0%nat. split; [constructor|]. left. cbn.
    split; [reflexivity|]. split; [lia|]. split; [intros m Hm; lia|].
    unfold cash_after, sum_pnl. cbn. ring. }
  assert (Hrun : forall l, l = bars ->
             run_as_prescribed bars signals rate initial_capital
               (run_bars rate 0 l signals
                         (mkSim initial_capital flat [] [] []))).
  { intros [|b rest] Hl.
    - cbn [run_bars]. exists 0%nat. split; [constructor|].
      split; [|split; [reflexivity|]].
      + intros m _ sd b (Hb & _). unfold fill_bar in Hb.
        rewrite <- Hl in Hb. destruct m; discriminate.
      + unfold cash_after, sum_pnl. cbn. ring.
    - apply run_bars_prescribed;
        [symmetry; exact Hl | reflexivity | exact Hstart]. }
  apply Hrun. reflexivity.
Qed.

End PrescribedRun.

(** C3.  In a run of the execution simulator every bar but the last has
    its signal handled, in bar order; whenever handling the signal of bar
    i uses a fill price, bar i+1 exists and the price is its open.  The
    price is therefore the same for any two signal series on the same
    bars.  Every trade of the ledger was entered at the open of the bar
    after a signal bar.  The signal a strategy emits for bar i is the one
    it computes from bars 0..i alone.  And the prices the run executes at
    are these: the ledger is the one the signals prescribe, each trade
    entered at the open and on the date of the bar after the first signal
    that opens a position with the cash held then, for floor(cash / open)
    units, and exited at the open and on the date of the bar after the
    first signal that exits it (at the close of the last bar when there is
    none), its pnl and return computed from those two prices; no position
    is left, and the final cash is the initial capital plus the pnl of
    the ledger. *)
Theorem fill_price_is_next_open :
  forall (bars : list PriceBar) (initial_capital rate : Q),
    (forall signals,
        map log_bar (log (simulate bars signals initial_capital rate))
        = seq 0 (List.length bars - 1))
    /\ (forall signals e price,
          In e (log (simulate bars signals initial_capital rate)) ->
          log_fill e = Some price ->
          exists next, nth_error bars (S (log_bar e)) = Some next
                       /\ price = open next)
    /\ (forall signals signals' e e' price price',
          In e (log (simulate bars signals initial_capital rate)) ->
          In e' (log (simulate bars signals' initial_capital rate)) ->
          log_bar e = log_bar e' ->
          log_fill e = Some price -> log_fill e' = Some price' ->
          price = price')
    /\ (forall signals t,
          In t (trades (simulate bars signals initial_capital rate)) ->
          exists i next, nth_error bars (S i) = Some next
                         /\ entry_price t = open next)
    /\ (forall s signals i signal,
          generate_signals s bars = inr signals ->
          nth_error signals i = Some signal ->
          signal_at s (firstn (S i) bars) = inr signal)
    /\ (forall signals,
          run_as_prescribed bars signals rate initial_capital
                            (simulate bars signals initial_capital rate)).
Proof.
  intros bars initial_capital rate.
  assert (Hfill : forall signals e price,
             In e (log (simulate bars signals initial_capital rate)) ->
             log_fill e = Some price ->
             exists next, nth_error bars (S (log_bar e)) = Some next
                          /\ price = open next).
  { intros signals e price Hin Hp. unfold simulate in Hin.
    apply run_bars_fills in Hin. cbn [log] in Hin.
    destruct Hin as [[] | (_ & next & Hnth & Hf)].
    rewrite Nat.sub_0_r in Hnth. exists next. split; [exact Hnth|].
    destruct Hf as [Hf|Hf]; congruence. }
  split; [|split; [exact Hfill | split; [|split; [|split]]]].
  5:{ intros signals. apply simulate_prescribed. }
  - intros signals. unfold simulate. rewrite run_bars_log_bars. reflexivity.
  - intros signals signals' e e' price price' Hin Hin' Hbar Hp Hp'.
    destruct (Hfill signals e price Hin Hp) as (next & Hn & ->).
    destruct (Hfill signals' e' price' Hin' Hp') as (next' & Hn' & ->).
    rewrite Hbar in Hn. congruence.
  - intros signals t Hin. unfold simulate in Hin.
    assert (Hinv : entries_at_open bars
                     (run_bars rate 0 bars signals
                               (mkSim initial_capital flat [] [] []))).
    { apply run_bars_entries; [reflexivity|].
      split; cbn; [intros H; now contradiction H | intros ? []]. }
    destruct Hinv as [_ Htr]. exact (Htr t Hin).
  - intros s signals i signal Hgen Hnth. unfold generate_signals in Hgen.
    pose proof (sequence_nth _ _ i signal Hgen Hnth) as H.
    apply nth_error_map_seq in H. cbn in H. symmetry. exact H.
Qed.

(** On the sample bars the long entry signalled on the first bar is filled
    at 100, the open of the second bar. *)
Lemma fill_price_is_next_open_witness :
  exists next,
    nth_error sample_bars 1 = Some next /\ (100 : Q) = open next.
Proof.
  apply (proj1 (proj2 (fill_price_is_next_open sample_bars 1050 (1 # 100)))
           [LONG_ENTRY; EXIT; HOLD; HOLD]
           (mkLog 0 LONG_ENTRY (Opened LONG) (Some 100)) 100).
  - vm_compute. left. reflexivity.
  - reflexivity.
Defined.

(** The same run: in on the open of the second bar, for floor(1050 / 100)
    units, out on the open of the third. *)
Example sample_run_ledger :
  map (fun t => (entry_date t, entry_price t, exit_date t, exit_price t,
                 quantity t))
      (trades (simulate sample_bars [LONG_ENTRY; EXIT; HOLD; HOLD]
                        1050 (1 # 100)))
  = [(2%Z, 100, 3%Z, 110, 10%Z)].
Proof. vm_compute. reflexivity. Qed.

Lemma generate_signals_failure_kind (s : StrategyConfig) (bars : list PriceBar)
      (f : Failure) :
  generate_signals s bars = inl f -> kind f = StrategyRuntimeError.
Proof.
  intros H. unfold generate_signals in H. apply sequence_inl in H.
  apply in_map_iff in H. destruct H as (i & Hi & _).
  unfold signal_at in Hi. destruct s as [name rule|name lookback threshold predict].
  - discriminate.
  - destruct (List.length (firstn (S i) bars) <? lookback)%nat; [discriminate|].
    destruct (predict (trailing lookback (firstn (S i) bars))); [discriminate|].
    injection Hi as <-. reflexivity.
Qed.

Lemma outcome_reports (bars : list PriceBar) (initial_capital rate : Q)
      (s : StrategyConfig) :
  check_inputs bars initial_capital rate = None ->
  validate s = None ->
  reports bars initial_capital rate s
          (outcome_of s (run_strategy bars s initial_capital rate))
  /\ is_success (outcome_of s (run_strategy bars s initial_capital rate))
     = negb (raises bars s).
Proof.
  intros Hcheck Hvalid. unfold reports, outcome_of, raises, run_backtest.
  rewrite Hcheck. unfold run_strategy. rewrite Hvalid.
  destruct (generate_signals s bars) as [f|signals] eqn:Hgen.
  - split; [|reflexivity]. repeat split.
    eapply generate_signals_failure_kind. exact Hgen.
  - split; reflexivity.
Qed.

(** C5.  In a comparison of three valid strategies on checked inputs of
    which exactly one raises during signal generation, [compare] returns
    three outcomes in the order of the strategies: the outcome of the one
    that raises is a failure naming it with a StrategyRuntimeError, the
    other two are the BacktestResults those strategies give when run
    alone; two outcomes are successes and one is a failure. *)
Theorem compare_isolates_raising_strategy :
  forall (bars : list PriceBar) (initial_capital rate : Q)
         (s0 s1 s2 : StrategyConfig),
    check_inputs bars initial_capital rate = None ->
    validate s0 = None -> validate s1 = None -> validate s2 = None ->
    List.length (filter (raises bars) [s0; s1; s2]) = 1%nat ->
    exists o0 o1 o2,
      compare bars [s0; s1; s2] initial_capital rate = inr [o0; o1; o2]
      /\ reports bars initial_capital rate s0 o0
      /\ reports bars initial_capital rate s1 o1
      /\ reports bars initial_capital rate s2 o2
      /\ map is_success [o0; o1; o2] = map (fun s => negb (raises bars s)) [s0; s1; s2]
      /\ List.length (filter is_success [o0; o1; o2]) = 2%nat
      /\ List.length (filter (fun o => negb (is_success o)) [o0; o1; o2]) = 1%nat.
Proof.
  intros bars initial_capital rate s0 s1 s2 Hcheck Hv0 Hv1 Hv2 Hone.
  destruct (outcome_reports bars initial_capital rate s0 Hcheck Hv0) as [R0 B0].
  destruct (outcome_reports bars initial_capital rate s1 Hcheck Hv1) as [R1 B1].
  destruct (outcome_reports bars initial_capital rate s2 Hcheck Hv2) as [R2 B2].
  exists (outcome_of s0 (run_strategy bars s0 initial_capital rate)),
         (outcome_of s1 (run_strategy bars s1 initial_capital rate)),
         (outcome_of s2 (run_strategy bars s2 initial_capital rate)).
  split; [unfold compare; rewrite Hcheck; reflexivity|].
  split; [exact R0|]. split; [exact R1|]. split; [exact R2|].
  cbn [map filter]. rewrite B0, B1, B2.
  cbn [filter] in Hone.
  destruct (raises bars s0), (raises bars s1), (raises bars s2);
    cbn in Hone; try discriminate; cbn; auto.
Qed.

(** Three strategies on the sample bars, the second with a model that
    fails: two results and one failure, in order. *)
Lemma compare_isolates_raising_strategy_witness :
  exists o0 o1 o2,
    compare sample_bars [in_and_out; broken_model; always_hold] 1050 (1 # 100)
    = inr [o0; o1; o2]
    /\ reports sample_bars 1050 (1 # 100) in_and_out o0
    /\ reports sample_bars 1050 (1 # 100) broken_model o1
    /\ reports sample_bars 1050 (1 # 100) always_hold o2
    /\ map is_success [o0; o1; o2]
       = map (fun s => negb (raises sample_bars s))
             [in_and_out; broken_model; always_hold]
    /\ List.length (filter is_success [o0; o1; o2]) = 2%nat
    /\ List.length (filter (fun o => negb (is_success o)) [o0; o1; o2]) = 1%nat.
Proof.
  apply (compare_isolates_raising_strategy sample_bars 1050 (1 # 100)
           in_and_out broken_model always_hold);
    vm_compute; reflexivity.
Defined.

(** On the sample bars the comparison reports the first and the third
    strategy and isolates the second. *)
Example compare_sample_outcomes :
  match compare sample_bars [in_and_out; broken_model; always_hold]
                1050 (1 # 100) with
  | inr [Success r0; Failed name f; Success r2] =>
      strategy_id r0 = "in-and-out" /\ name = "broken"
      /\ kind f = StrategyRuntimeError /\ strategy_id r2 = "hold"
      /\ map (fun t => Qred (pnl t)) (result_trades r0) = [79]
  | _ => False
  end.
Proof. vm_compute. repeat split; reflexivity. Qed.

(** * Further properties of the code *)

(** ** The map behind the storage *)

Section MoreMapFacts.

Context {V : Type}.

Lemma get_none_iff (k : string) (m : Map.t V) :
  Map.get k m = None <-> ~ In k (Map.keys m).
Proof.
  unfold Map.keys. induction m as [|[k' v'] m IH]; cbn.
  - tauto.
  - destruct (k' =? k) eqn:E.
    + apply String.eqb_eq in E. split; [discriminate | intros H; contradict H; auto].
    + apply String.eqb_neq in E. rewrite IH. tauto.
Qed.

Lemma set_fresh (k : string) (v : V) (m : Map.t V) :
  Map.get k m = None -> Map.set k v m = (m ++ [(k, v)])%list.
Proof.
  induction m as [|[k' v'] m IH]; cbn; intros H; [reflexivity|].
  destruct (k' =? k); [discriminate|]. now rewrite IH.
Qed.

Lemma keys_set_present (k : string) (v : V) (m : Map.t V) :
  Map.get k m <> None -> Map.keys (Map.set k v m) = Map.keys m.
Proof.
  unfold Map.keys. induction m as [|[k' v'] m IH]; cbn; intros H.
  - congruence.
  - destruct (k' =? k) eqn:E; cbn.
    + apply String.eqb_eq in E. now subst.
    + now rewrite IH.
Qed.

Lemma in_set (k : string) (v : V) (m : Map.t V) (k' : string) (v' : V) :
  In (k', v') (Map.set k v m) -> (k', v') = (k, v) \/ In (k', v') m.
Proof.
  induction m as [|[k0 v0] m IH]; cbn.
  - intros [H|[]]; auto.
  - destruct (k0 =? k); cbn; intros [H|H]; auto.
    apply IH in H. tauto.
Qed.

Lemma nodup_keys_set (k : string) (v : V) (m : Map.t V) :
  NoDup (Map.keys m) -> NoDup (Map.keys (Map.set k v m)).
Proof.
  intros Hnd. destruct (Map.get k m) eqn:Hget.
  - rewrite keys_set_present by congruence. exact Hnd.
  - rewrite set_fresh by exact Hget. unfold Map.keys in *.
    rewrite map_app. cbn. apply NoDup_app.
    + exact Hnd.
    + repeat constructor. intros [].
    + intros a Ha [<-|[]]. apply get_none_iff in Hget. contradiction.
Qed.

Lemma delete_found (k : string) (m : Map.t V) :
  fst (Map.delete k m) = true <-> Map.get k m <> None.
Proof.
  induction m as [|[k' v'] m IH]; cbn.
  - split; [discriminate | congruence].
  - destruct (k' =? k); cbn.
    + split; [discriminate | reflexivity].
    + destruct (Map.delete k m) as [found rest]. exact IH.
Qed.

Lemma delete_absent (k : string) (m : Map.t V) :
  Map.get k m = None -> Map.delete k m = (false, m).
Proof.
  induction m as [|[k' v'] m IH]; cbn; intros H; [reflexivity|].
  destruct (k' =? k); [discriminate|]. now rewrite IH.
Qed.

Lemma get_delete_other (k k' : string) (m : Map.t V) :
  k' <> k -> Map.get k' (snd (Map.delete k m)) = Map.get k' m.
Proof.
  intros Hne. induction m as [|[k0 v0] m IH]; cbn; [reflexivity|].
  destruct (k0 =? k) eqn:E; cbn.
  - apply String.eqb_eq in E. subst k0.
    destruct (k =? k') eqn:E'; [apply String.eqb_eq in E'; congruence | reflexivity].
  - destruct (Map.delete k m) as [found rest]. cbn in *.
    destruct (k0 =? k'); [reflexivity | exact IH].
Qed.

Lemma get_delete_same (k : string) (m : Map.t V) :
  NoDup (Map.keys m) -> Map.get k (snd (Map.delete k m)) = None.
Proof.
  unfold Map.keys. induction m as [|[k0 v0] m IH]; cbn; intros Hnd; [reflexivity|].
  inversion Hnd as [|? ? Hnotin Hnd']; subst.
  destruct (k0 =? k) eqn:E; cbn.
  - apply String.eqb_eq in E. subst k0. now apply get_none_iff.
  - destruct (Map.delete k m) as [found rest]. cbn in *.
    rewrite E. now apply IH.
Qed.

Lemma keys_delete_incl (k : string) (m : Map.t V) :
  forall x, In x (Map.keys (snd (Map.delete k m))) -> In x (Map.keys m).
Proof.
  unfold Map.keys. induction m as [|[k0 v0] m IH]; cbn; intros x; [tauto|].
  destruct (k0 =? k); cbn; [tauto|].
  destruct (Map.delete k m) as [found rest]. cbn in *.
  intros [H|H]; auto.
Qed.

Lemma nodup_keys_delete (k : string) (m : Map.t V) :
  NoDup (Map.keys m) -> NoDup (Map.keys (snd (Map.delete k m))).
Proof.
  induction m as [|[k0 v0] m IH]; cbn; intros Hnd; [constructor|].
  inversion Hnd as [|? ? Hnotin Hnd']; subst.
  destruct (k0 =? k); cbn; [exact Hnd'|].
  pose proof (keys_delete_incl k m) as Hincl.
  destruct (Map.delete k m) as [found rest]. cbn in *.
  constructor; [|now apply IH].
  intros Hin. apply Hnotin. now apply Hincl.
Qed.

Lemma in_delete (k : string) (m : Map.t V) (x : string * V) :
  In x (snd (Map.delete k m)) -> In x m.
Proof.
  induction m as [|[k0 v0] m IH]; cbn; [tauto|].
  destruct (k0 =? k); cbn; [tauto|].
  destruct (Map.delete k m) as [found rest]. cbn in *.
  intros [H|H]; auto.
Qed.

Lemma values_set_fresh (k : string) (v : V) (m : Map.t V) :
  Map.get k m = None ->
  Map.values (Map.set k v m) = (Map.values m ++ [v])%list.
Proof.
  intros H. rewrite set_fresh by exact H. unfold Map.values.
  now rewrite map_app.
Qed.

Lemma length_set_present (k : string) (v : V) (m : Map.t V) :
  Map.get k m <> None ->
  List.length (Map.values (Map.set k v m)) = List.length (Map.values m).
Proof.
  intros H. unfold Map.values. rewrite !length_map.
  rewrite <- (length_map fst (Map.set k v m)), <- (length_map fst m).
  change (map fst (Map.set k v m)) with (Map.keys (Map.set k v m)).
  change (map fst m) with (Map.keys m).
  now rewrite keys_set_present.
Qed.

End MoreMapFacts.

(** ** The storage: backtests *)

(** X1.  A record made by [createBacktest] is found again by
    [getBacktest] under the identifier it was given, no other identifier
    is affected, strategies and market data are untouched, and when the
    identifier is new the record is listed last by [getBacktests()]. *)
Theorem createBacktest_then_getBacktest :
  forall (id : string) (now : Date) (ins : InsertBacktest) (st : MemStorage),
    let '(created, st') := createBacktest id now ins st in
    getBacktest st' id = Some created
    /\ b_id created = id
    /\ (forall id', id' <> id -> getBacktest st' id' = getBacktest st id')
    /\ strategies st' = strategies st
    /\ marketData st' = marketData st
    /\ (getBacktest st id = None ->
        StorageMore.getBacktests st' None
        = (StorageMore.getBacktests st None ++ [created])%list)
    /\ (getBacktest st id <> None ->
        List.length (StorageMore.getBacktests st' None)
        = List.length (StorageMore.getBacktests st None)).
Proof.
  intros id now ins st. unfold createBacktest, getBacktest, StorageMore.getBacktests.
  cbn [backtests with_backtests strategies marketData b_id].
  split; [apply get_set_same|]. split; [reflexivity|].
  split; [intros id' Hne; now apply get_set_other|].
  split; [reflexivity|]. split; [reflexivity|]. split.
  - intros Hnone. now apply values_set_fresh.
  - intros Hsome. now apply length_set_present.
Qed.

(** X2.  [updateBacktest] on an identifier that is not stored returns
    nothing and leaves the storage as it was.  On a stored identifier it
    returns and stores the merged record, keeps every other record and the
    order of the identifiers, and a status update changes the status
    alone. *)
Theorem updateBacktest_effect :
  forall (id : string) (p : PartialBacktest) (st : MemStorage),
    (getBacktest st id = None -> updateBacktest id p st = (None, st))
    /\ (forall existing,
          getBacktest st id = Some existing ->
          let '(r, st') := updateBacktest id p st in
          r = Some (spread existing p)
          /\ getBacktest st' id = Some (spread existing p)
          /\ (forall id', id' <> id -> getBacktest st' id' = getBacktest st id')
          /\ Map.keys (backtests st') = Map.keys (backtests st)
          /\ strategies st' = strategies st
          /\ marketData st' = marketData st)
    /\ (forall existing status,
          spread existing (patch_status status)
          = mkBacktest (b_id existing) (b_userId existing) (b_ticker existing)
                       (b_startDate existing) (b_endDate existing)
                       (b_initialCapital existing) (b_commission existing)
                       (b_strategyConfig existing) (b_results existing)
                       (Some status) (b_createdAt existing)).
Proof.
  intros id p st. unfold updateBacktest, getBacktest. split; [|split].
  - intros ->. reflexivity.
  - intros existing Hget. rewrite Hget.
    cbn [backtests with_backtests strategies marketData].
    split; [reflexivity|]. split; [apply get_set_same|].
    split; [intros id' Hne; now apply get_set_other|].
    split; [apply keys_set_present; congruence|]. split; reflexivity.
  - intros existing status. reflexivity.
Qed.

(** A status update of the sample record. *)
Lemma updateBacktest_effect_witness :
  let st := snd (createBacktest "b1" 0%Z sample_insert empty_storage) in
  let created := fst (createBacktest "b1" 0%Z sample_insert empty_storage) in
  let '(r, st') := updateBacktest "b1" (patch_status "failed") st in
  r = Some (spread created (patch_status "failed"))
  /\ getBacktest st' "b1" = Some (spread created (patch_status "failed"))
  /\ (forall id', id' <> "b1" -> getBacktest st' id' = getBacktest st id')
  /\ Map.keys (backtests st') = Map.keys (backtests st)
  /\ strategies st' = strategies st
  /\ marketData st' = marketData st.
Proof.
  exact (proj1 (proj2 (updateBacktest_effect "b1" (patch_status "failed")
           (snd (createBacktest "b1" 0%Z sample_insert empty_storage))))
           (fst (createBacktest "b1" 0%Z sample_insert empty_storage))
           eq_refl).
Defined.

(** X3.  On a storage whose identifiers are unique, [deleteBacktest] and
    [deleteStrategy] answer [true] exactly when the identifier was stored;
    afterwards the identifier is not found, every other identifier is
    found as before, and the other collections are untouched. *)
Theorem delete_removes_only_that_id :
  forall (id : string) (st : MemStorage),
    NoDup (Map.keys (backtests st)) ->
    NoDup (Map.keys (strategies st)) ->
    (let '(found, st') := StorageMore.deleteBacktest id st in
     (found = true <-> getBacktest st id <> None)
     /\ getBacktest st' id = None
     /\ (forall id', id' <> id -> getBacktest st' id' = getBacktest st id')
     /\ strategies st' = strategies st /\ marketData st' = marketData st)
    /\ (let '(found, st') := StorageMore.deleteStrategy id st in
        (found = true <-> getStrategy st id <> None)
        /\ getStrategy st' id = None
        /\ (forall id', id' <> id -> getStrategy st' id' = getStrategy st id')
        /\ (forall s, In s (getStrategies st') -> In s (getStrategies st))
        /\ backtests st' = backtests st /\ marketData st' = marketData st).
Proof.
  intros id st Hb Hs. split.
  - unfold StorageMore.deleteBacktest, getBacktest.
    pose proof (delete_found id (backtests st)) as Hf.
    pose proof (get_delete_same id (backtests st) Hb) as Hsame.
    pose proof (fun id' => get_delete_other id id' (backtests st)) as Hother.
    destruct (Map.delete id (backtests st)) as [found rest]. cbn in *.
    repeat split; try tauto; auto.
  - unfold StorageMore.deleteStrategy, getStrategy, getStrategies.
    pose proof (delete_found id (strategies st)) as Hf.
    pose proof (get_delete_same id (strategies st) Hs) as Hsame.
    pose proof (fun id' => get_delete_other id id' (strategies st)) as Hother.
    pose proof (in_delete id (strategies st)) as Hin.
    destruct (Map.delete id (strategies st)) as [found rest]. cbn in *.
    repeat split; try tauto; auto.
    intros s H. apply filter_In in H. destruct H as [H1 H2].
    apply filter_In. split; [|exact H2].
    unfold Map.values in *. apply in_map_iff in H1.
    destruct H1 as ([k v] & <- & Hkv). apply in_map_iff.
    exists (k, v). split; [reflexivity | now apply Hin].
Qed.

(** Deleting the sample record from a storage holding only it. *)
Lemma delete_removes_only_that_id_witness :
  let st := snd (createBacktest "b1" 0%Z sample_insert empty_storage) in
  let '(found, st') := StorageMore.deleteBacktest "b1" st in
  (found = true <-> getBacktest st "b1" <> None)
  /\ getBacktest st' "b1" = None
  /\ (forall id', id' <> "b1" -> getBacktest st' id' = getBacktest st id')
  /\ strategies st' = strategies st /\ marketData st' = marketData st.
Proof.
  refine (proj1 (delete_removes_only_that_id "b1"
            (snd (createBacktest "b1" 0%Z sample_insert empty_storage)) _ _)).
  - cbn. repeat constructor. intros [].
  - cbn. constructor.
Defined.

Lemma well_keyed_step (st : MemStorage) (op : StorageMore.BacktestOp) :
  StorageMore.well_keyed st -> StorageMore.keeps_id op ->
  StorageMore.well_keyed (StorageMore.apply_op st op).
Proof.
  intros [Hnd Hkey] Hop. destruct op as [id now ins|id p|id]; cbn.
  - split; cbn.
    + now apply nodup_keys_set.
    + intros k b Hin. apply in_set in Hin. destruct Hin as [Heq|Hin].
      * injection Heq as Hk Hb. subst k b. reflexivity.
      * now apply Hkey.
  - unfold updateBacktest.
    destruct (Map.get id (backtests st)) as [existing|] eqn:Hget; cbn.
    + split; cbn.
      * now apply nodup_keys_set.
      * intros k b Hin. apply in_set in Hin. destruct Hin as [Heq|Hin].
        -- injection Heq as Hk Hb. subst k b. cbn in Hop. unfold spread. cbn.
           rewrite Hop. cbn.
           assert (Hin : In (id, existing) (backtests st)).
           { clear - Hget. induction (backtests st) as [|[k0 v0] m IH];
               cbn in *; [discriminate|].
             destruct (k0 =? id) eqn:E.
             - apply String.eqb_eq in E. left. congruence.
             - right. now apply IH. }
           now apply Hkey.
        -- now apply Hkey.
    + split; assumption.
  - unfold StorageMore.deleteBacktest.
    pose proof (nodup_keys_delete id (backtests st) Hnd) as Hnd'.
    pose proof (in_delete id (backtests st)) as Hin'.
    destruct (Map.delete id (backtests st)) as [found rest]. cbn in *.
    split; cbn; [exact Hnd'|]. intros k b Hin. apply Hkey. now apply Hin'.
Qed.

(** X4.  On the backtests of a storage, any series of [createBacktest],
    [updateBacktest] and [deleteBacktest] calls whose updates carry no
    [id] keeps the identifiers unique and every record stored under its
    own [id]. *)
Theorem backtests_stay_well_keyed :
  forall (ops : list StorageMore.BacktestOp) (st : MemStorage),
    StorageMore.well_keyed st ->
    Forall StorageMore.keeps_id ops ->
    StorageMore.well_keyed (fold_left StorageMore.apply_op ops st).
Proof.
  induction ops as [|op ops IH]; intros st Hst Hops; [exact Hst|].
  inversion Hops as [|? ? Hop Hrest]; subst. cbn.
  apply IH; [|exact Hrest]. now apply well_keyed_step.
Qed.

(** Two creations, two updates and a deletion on the empty storage. *)
Lemma backtests_stay_well_keyed_witness :
  StorageMore.well_keyed (fold_left StorageMore.apply_op sample_ops empty_storage).
Proof.
  apply (backtests_stay_well_keyed sample_ops empty_storage).
  - split; cbn; [constructor | intros k b []].
  - repeat constructor.
Defined.

Lemma ownerless_filter (st : MemStorage) (u : string) :
  StorageMore.ownerless st ->
  filter (StorageMore.owned_by u) (Map.values (backtests st)) = [].
Proof.
  intros Hown. unfold StorageMore.ownerless in Hown.
  induction (Map.values (backtests st)) as [|b l IH]; [reflexivity|].
  cbn. unfold StorageMore.owned_by at 1.
  rewrite (Hown b (or_introl eq_refl)).
  apply IH. intros b' Hin. apply Hown. now right.
Qed.

(** X5.  Records made by [createBacktest] have no owner, and status or
    result updates give them none; so on a storage holding only such
    records [getBacktests(userId)] is empty for every non-empty [userId],
    while [getBacktests("")] and [getBacktests()] list every record. *)
Theorem getBacktests_by_user :
  forall (st : MemStorage),
    StorageMore.ownerless st ->
    (forall u, u <> EmptyString -> StorageMore.getBacktests st (Some u) = [])
    /\ StorageMore.getBacktests st (Some EmptyString)
       = StorageMore.getBacktests st None
    /\ StorageMore.getBacktests st None = Map.values (backtests st)
    /\ (forall id now ins,
          StorageMore.ownerless (snd (createBacktest id now ins st)))
    /\ (forall id status,
          StorageMore.ownerless (snd (updateBacktest id (patch_status status) st)))
    /\ (forall id status results,
          StorageMore.ownerless
            (snd (updateBacktest id (patch_status_results status results) st))).
Proof.
  intros st Hown.
  assert (Hset : forall id b, b_userId b = None ->
             StorageMore.ownerless (with_backtests st (Map.set id b (backtests st)))).
  { intros id b Hb b' Hin. cbn in Hin. unfold Map.values in Hin.
    apply in_map_iff in Hin. destruct Hin as ([k v] & <- & Hkv).
    apply in_set in Hkv. destruct Hkv as [Heq|Hkv].
    - injection Heq as Hk Hv. subst k v. exact Hb.
    - apply Hown. unfold Map.values. apply in_map_iff. now exists (k, v). }
  assert (Hget : forall id existing, Map.get id (backtests st) = Some existing ->
             b_userId existing = None).
  { intros id existing H. apply Hown. unfold Map.values.
    clear - H. induction (backtests st) as [|[k0 v0] m IH]; cbn in *; [discriminate|].
    destruct (k0 =? id); [left; congruence | right; now apply IH]. }
  split; [|split; [|split; [|split; [|split]]]].
  - intros u Hu. unfold StorageMore.getBacktests.
    destruct (u =? EmptyString) eqn:E; [apply String.eqb_eq in E; contradiction|].
    now apply ownerless_filter.
  - reflexivity.
  - reflexivity.
  - intros id now ins. unfold createBacktest. cbn [snd]. now apply Hset.
  - intros id status. unfold updateBacktest.
    destruct (Map.get id (backtests st)) as [existing|] eqn:E; cbn [snd]; [|exact Hown].
    apply Hset. cbn. now apply (Hget id).
  - intros id status results. unfold updateBacktest.
    destruct (Map.get id (backtests st)) as [existing|] eqn:E; cbn [snd]; [|exact Hown].
    apply Hset. cbn. now apply (Hget id).
Qed.

(** The storage holding the sample record alone, asked for the backtests
    of a user. *)
Lemma getBacktests_by_user_witness :
  StorageMore.getBacktests
    (snd (createBacktest "b1" 0%Z sample_insert empty_storage)) (Some "alice")
  = [].
Proof.
  apply (proj1 (getBacktests_by_user
                  (snd (createBacktest "b1" 0%Z sample_insert empty_storage))
                  (fun b H => match H with
                              | or_introl e => f_equal b_userId (eq_sym e)
                              | or_intror f => match f with end
                              end))
               "alice").
  discriminate.
Defined.

(** ** The storage: market data, users, trades and strategies *)

Lemma get_app {V : Type} (k : string) (m m' : Map.t V) :
  Map.get k (m ++ m')%list
  = match Map.get k m with
    | Some v => Some v
    | None => Map.get k m'
    end.
Proof.
  induction m as [|[k0 v0] m IH]; cbn; [reflexivity|].
  destruct (k0 =? k); [reflexivity | exact IH].
Qed.

Lemma saveMarketData_appends (ids : list string) :
  forall (data : list StorageMore.InsertMarketData) (st : MemStorage),
    List.length ids = List.length data ->
    NoDup ids ->
    (forall k, In k ids -> Map.get k (marketData st) = None) ->
    let '(saved, st') := StorageMore.saveMarketData ids data st in
    saved = map (fun '(id, item) => StorageMore.with_id id item) (combine ids data)
    /\ marketData st' = (marketData st ++ map (fun r => (md_id r, r)) saved)%list
    /\ strategies st' = strategies st
    /\ backtests st' = backtests st.
Proof.
  induction ids as [|id ids IH]; intros data st Hlen Hnd Hfresh.
  - cbn. now rewrite app_nil_r.
  - destruct data as [|item data]; [discriminate|].
    cbn [StorageMore.saveMarketData].
    inversion Hnd as [|? ? Hnotin Hnd']; subst.
    set (st1 := mkStorage (strategies st) (backtests st)
                  (Map.set id (StorageMore.with_id id item) (marketData st))).
    assert (Hset : marketData st1
                   = (marketData st ++ [(id, StorageMore.with_id id item)])%list).
    { cbn. apply set_fresh. apply Hfresh. now left. }
    assert (Hfresh1 : forall k, In k ids -> Map.get k (marketData st1) = None).
    { intros k Hk. rewrite Hset, get_app.
      rewrite (Hfresh k (or_intror Hk)). cbn.
      destruct (id =? k) eqn:E; [|reflexivity].
      apply String.eqb_eq in E. subst k. contradiction. }
    specialize (IH data st1 (eq_add_S _ _ Hlen) Hnd' Hfresh1).
    destruct (StorageMore.saveMarketData ids data st1) as [saved st2].
    destruct IH as (Hsaved & Hmd & Hs & Hb).
    split; [cbn; now rewrite Hsaved|]. split; [|split].
    + rewrite Hmd, Hset, <- app_assoc. reflexivity.
    + rewrite Hs. reflexivity.
    + rewrite Hb. reflexivity.
Qed.

(** X6.  [saveMarketData], given as many new and distinct identifiers as
    there are items, returns the items in order, each with its
    identifier, and stores them after the rows already there:
    [getMarketData] for a ticker then returns the rows it returned before
    followed by the saved rows of that ticker.  Strategies and backtests
    are untouched. *)
Theorem saveMarketData_then_getMarketData :
  forall (ids : list string) (data : list StorageMore.InsertMarketData)
         (st : MemStorage),
    List.length ids = List.length data ->
    NoDup ids ->
    (forall k, In k ids -> Map.get k (marketData st) = None) ->
    let '(saved, st') := StorageMore.saveMarketData ids data st in
    map md_id saved = ids
    /\ map md_ticker saved = map StorageMore.imd_ticker data
    /\ map md_date saved = map StorageMore.imd_date data
    /\ map md_close saved = map StorageMore.imd_close data
    /\ (forall ticker,
          getMarketData st' ticker None None
          = (getMarketData st ticker None None
             ++ filter (fun r => md_ticker r =? ticker) saved)%list)
    /\ strategies st' = strategies st
    /\ backtests st' = backtests st.
Proof.
  intros ids data st Hlen Hnd Hfresh.
  pose proof (saveMarketData_appends ids data st Hlen Hnd Hfresh) as H.
  destruct (StorageMore.saveMarketData ids data st) as [saved st'].
  destruct H as (Hsaved & Hmd & Hs & Hb).
  assert (Hfields : forall ids0 data0,
             List.length ids0 = List.length data0 ->
             let rows := map (fun '(id, item) => StorageMore.with_id id item)
                             (combine ids0 data0) in
             map md_id rows = ids0
             /\ map md_ticker rows = map StorageMore.imd_ticker data0
             /\ map md_date rows = map StorageMore.imd_date data0
             /\ map md_close rows = map StorageMore.imd_close data0).
  { clear. induction ids0 as [|i ids0 IH]; intros [|d data0] Hl;
      try discriminate; cbn; [repeat split|].
    destruct (IH data0 (eq_add_S _ _ Hl)) as (H1 & H2 & H3 & H4).
    cbn in *. now rewrite H1, H2, H3, H4. }
  destruct (Hfields ids data Hlen) as (H1 & H2 & H3 & H4).
  rewrite <- Hsaved in H1, H2, H3, H4.
  repeat split; try assumption.
  intros ticker. unfold getMarketData. rewrite Hmd.
  unfold Map.values. rewrite map_app, filter_app, map_map. cbn.
  now rewrite map_id.
Qed.

(** Three rows saved into the empty storage under three identifiers. *)
Lemma saveMarketData_then_getMarketData_witness :
  let '(saved, st') :=
    StorageMore.saveMarketData ["m1"; "m2"; "m3"] sample_items empty_storage in
  map md_id saved = ["m1"; "m2"; "m3"]
  /\ map md_ticker saved = map StorageMore.imd_ticker sample_items
  /\ map md_date saved = map StorageMore.imd_date sample_items
  /\ map md_close saved = map StorageMore.imd_close sample_items
  /\ (forall ticker,
        getMarketData st' ticker None None
        = (getMarketData empty_storage ticker None None
           ++ filter (fun r => md_ticker r =? ticker) saved)%list)
  /\ strategies st' = strategies empty_storage
  /\ backtests st' = backtests empty_storage.
Proof.
  apply (saveMarketData_then_getMarketData ["m1"; "m2"; "m3"] sample_items
                                           empty_storage).
  - reflexivity.
  - repeat constructor; cbn; intuition discriminate.
  - intros k _. reflexivity.
Defined.

(** X7.  A new [MemStorage], when [randomUUID()] draws five distinct
    identifiers, holds the five default strategies in the order Moving
    Average, Bollinger Bands, RSI, MACD, LSTM Neural Net, each stored and
    found under its own identifier and each active, and holds no backtest
    and no market data. *)
Theorem new_storage_lists_five_defaults :
  forall (ids : list string) (nows : list Date),
    List.length ids = 5%nat -> List.length nows = 5%nat -> NoDup ids ->
    let st := StorageMore.newMemStorage ids nows in
    map s_id (getStrategies st) = ids
    /\ map s_name (getStrategies st)
       = ["Moving Average"; "Bollinger Bands"; "RSI"; "MACD"; "LSTM Neural Net"]
    /\ map s_type (getStrategies st)
       = ["technical"; "technical"; "technical"; "technical"; "ml"]
    /\ map s_createdAt (getStrategies st) = map Some nows
    /\ (forall id, In id ids ->
          exists s, getStrategy st id = Some s
                    /\ s_id s = id /\ s_isActive s = Some true)
    /\ backtests st = [] /\ marketData st = [].
Proof.
  intros ids nows Hids Hnows Hnd.
  destruct ids as [|i1 [|i2 [|i3 [|i4 [|i5 [|]]]]]]; try discriminate.
  destruct nows as [|n1 [|n2 [|n3 [|n4 [|n5 [|]]]]]]; try discriminate.
  assert (Hne : (i1 =? i2) = false /\ (i1 =? i3) = false /\ (i1 =? i4) = false
                /\ (i1 =? i5) = false /\ (i2 =? i3) = false
                /\ (i2 =? i4) = false /\ (i2 =? i5) = false
                /\ (i3 =? i4) = false /\ (i3 =? i5) = false
                /\ (i4 =? i5) = false).
  { inversion Hnd as [|? ? N1 Hnd1]; subst.
    inversion Hnd1 as [|? ? N2 Hnd2]; subst.
    inversion Hnd2 as [|? ? N3 Hnd3]; subst.
    inversion Hnd3 as [|? ? N4 Hnd4]; subst.
    cbn in N1, N2, N3, N4.
    repeat split; apply String.eqb_neq; intros E; subst; tauto. }
  destruct Hne as (E12 & E13 & E14 & E15 & E23 & E24 & E25 & E34 & E35 & E45).
  cbv zeta.
  unfold StorageMore.newMemStorage, StorageMore.initializeDefaultStrategies,
    getStrategies, getStrategy.
  cbn.
  do 5 (rewrite ?E12, ?E13, ?E14, ?E15, ?E23, ?E24, ?E25, ?E34, ?E35, ?E45; cbn).
  do 4 (split; [reflexivity|]).
  split; [|split; reflexivity].
  intros id [<-|[<-|[<-|[<-|[<-|[]]]]]];
    rewrite ?String.eqb_refl, ?E12, ?E13, ?E14, ?E15, ?E23, ?E24, ?E25,
      ?E34, ?E35, ?E45;
    eexists; (split; [reflexivity|]); split; reflexivity.
Qed.

(** Five identifiers and five clock readings. *)
Lemma new_storage_lists_five_defaults_witness :
  map s_name (getStrategies
                (StorageMore.newMemStorage ["a"; "b"; "c"; "d"; "e"]
                                           [1; 2; 3; 4; 5]%Z))
  = ["Moving Average"; "Bollinger Bands"; "RSI"; "MACD"; "LSTM Neural Net"].
Proof.
  apply (proj1 (proj2 (new_storage_lists_five_defaults
                         ["a"; "b"; "c"; "d"; "e"] [1; 2; 3; 4; 5]%Z
                         eq_refl eq_refl
                         ltac:(repeat constructor; cbn; intuition discriminate)))).
Defined.

Lemma find_app {A : Type} (f : A -> bool) (l l' : list A) :
  find f (l ++ l')%list
  = match find f l with
    | Some x => Some x
    | None => find f l'
    end.
Proof.
  induction l as [|a l IH]; cbn; [reflexivity|].
  destruct (f a); [reflexivity | exact IH].
Qed.

(** X8.  [createUser] never turns a user away: under a new identifier the
    user is stored and found by [getUser].  [getUserByUsername] answers
    with the first user stored under a name, so when the name is already
    taken the earlier user keeps being returned, and when it is free the
    new user is.  Lookups of other names are unaffected. *)
Theorem createUser_and_lookup :
  forall (users : Map.t StorageMore.User) (id : string)
         (ins : StorageMore.InsertUser),
    StorageMore.getUser users id = None ->
    let '(user, users') := StorageMore.createUser id ins users in
    StorageMore.getUser users' id = Some user
    /\ StorageMore.u_username user = StorageMore.iu_username ins
    /\ (forall old,
          StorageMore.getUserByUsername users (StorageMore.iu_username ins)
          = Some old ->
          StorageMore.getUserByUsername users' (StorageMore.iu_username ins)
          = Some old)
    /\ (StorageMore.getUserByUsername users (StorageMore.iu_username ins) = None ->
        StorageMore.getUserByUsername users' (StorageMore.iu_username ins)
        = Some user)
    /\ (forall name, name <> StorageMore.iu_username ins ->
          StorageMore.getUserByUsername users' name
          = StorageMore.getUserByUsername users name).
Proof.
  intros users id ins Hfresh.
  unfold StorageMore.createUser, StorageMore.getUser,
    StorageMore.getUserByUsername in *.
  split; [apply get_set_same|]. split; [reflexivity|].
  rewrite values_set_fresh by exact Hfresh.
  split; [|split].
  - intros old Hold. rewrite find_app, Hold. reflexivity.
  - intros Hnone. rewrite find_app, Hnone. cbn.
    now rewrite String.eqb_refl.
  - intros name Hne. rewrite find_app.
    destruct (find _ (Map.values users)); [reflexivity|]. cbn.
    destruct (StorageMore.iu_username ins =? name) eqn:E; [|reflexivity].
    apply String.eqb_eq in E. congruence.
Qed.

(** A second user registering the name of the first. *)
Lemma createUser_and_lookup_witness :
  let '(user, users') :=
    StorageMore.createUser "u2" (StorageMore.mkInsertUser "akshat" "second")
                           sample_users in
  StorageMore.getUser users' "u2" = Some user
  /\ StorageMore.getUserByUsername users' "akshat"
     = Some (StorageMore.mkUser "u1" "akshat" "first").
Proof.
  pose proof (createUser_and_lookup sample_users "u2"
                (StorageMore.mkInsertUser "akshat" "second") eq_refl) as H.
  cbv beta iota zeta delta [StorageMore.createUser] in H |- *.
  destruct H as (H1 & _ & H3 & _).
  split; [exact H1 | exact (H3 _ eq_refl)].
Defined.

Lemma in_values_of_set {V : Type} (k : string) (v : V) (m : Map.t V) (x : V) :
  In x (Map.values (Map.set k v m)) -> x = v \/ In x (Map.values m).
Proof.
  unfold Map.values. intros H. apply in_map_iff in H.
  destruct H as ([k' v'] & Hx & Hin). cbn in Hx. subst v'.
  apply in_set in Hin. destruct Hin as [Heq|Hin].
  - left. congruence.
  - right. apply in_map_iff. now exists (k', x).
Qed.

(** X9.  [updateStrategy] on an identifier that is not stored returns
    nothing and changes nothing.  Switching a stored strategy off with
    [{ isActive: false }] keeps it retrievable by [getStrategy] with its
    name, type and parameters, removes it from [getStrategies], brings no
    other strategy into that list, and leaves every other identifier as
    it was. *)
Theorem updateStrategy_switch_off :
  forall (id : string) (st : MemStorage),
    (forall p, getStrategy st id = None ->
               StorageMore.updateStrategy id p st = (None, st))
    /\ (forall existing,
          getStrategy st id = Some existing ->
          let '(r, st') :=
            StorageMore.updateStrategy id (StorageMore.patch_isActive false) st in
          exists updated,
            r = Some updated
            /\ getStrategy st' id = Some updated
            /\ s_isActive updated = Some false
            /\ s_id updated = s_id existing
            /\ s_name updated = s_name existing
            /\ s_type updated = s_type existing
            /\ s_parameters updated = s_parameters existing
            /\ ~ In updated (getStrategies st')
            /\ (forall s, In s (getStrategies st') -> In s (getStrategies st))
            /\ (forall id', id' <> id -> getStrategy st' id' = getStrategy st id')
            /\ backtests st' = backtests st).
Proof.
  intros id st. unfold StorageMore.updateStrategy, getStrategy. split.
  - intros p ->. reflexivity.
  - intros existing Hget. rewrite Hget.
    exists (StorageMore.spread_strategy existing (StorageMore.patch_isActive false)).
    cbn [strategies backtests].
    split; [reflexivity|]. split; [apply get_set_same|].
    do 5 (split; [reflexivity|]).
    assert (Hoff : forall s, In s (getStrategies
                     (mkStorage (Map.set id (StorageMore.spread_strategy existing
                                   (StorageMore.patch_isActive false))
                                   (strategies st))
                                (backtests st) (marketData st))) ->
                   In s (getStrategies st)
                   /\ s <> StorageMore.spread_strategy existing
                             (StorageMore.patch_isActive false)).
    { intros s Hin. unfold getStrategies in *. cbn [strategies] in Hin.
      apply filter_In in Hin. destruct Hin as [Hin Hact].
      assert (Hne : s <> StorageMore.spread_strategy existing
                            (StorageMore.patch_isActive false)).
      { intros ->. discriminate Hact. }
      split; [|exact Hne]. apply filter_In. split; [|exact Hact].
      apply in_values_of_set in Hin. tauto. }
    split; [intros Habs; now destruct (Hoff _ Habs)|].
    split; [intros s Hin; now destruct (Hoff _ Hin)|].
    split; [intros id' Hne; now apply get_set_other | reflexivity].
Qed.

(** Switching off the first default strategy of a new storage. *)
Lemma updateStrategy_switch_off_witness :
  let st := StorageMore.newMemStorage ["a"; "b"; "c"; "d"; "e"] [1; 2; 3; 4; 5]%Z in
  map s_name (getStrategies
                (snd (StorageMore.updateStrategy "a"
                        (StorageMore.patch_isActive false) st)))
  = ["Bollinger Bands"; "RSI"; "MACD"; "LSTM Neural Net"]
  /\ exists existing,
      getStrategy st "a" = Some existing
      /\ let '(r, st') :=
           StorageMore.updateStrategy "a" (StorageMore.patch_isActive false) st in
         exists updated,
           r = Some updated
           /\ getStrategy st' "a" = Some updated
           /\ s_isActive updated = Some false
           /\ s_id updated = s_id existing
           /\ s_name updated = s_name existing
           /\ s_type updated = s_type existing
           /\ s_parameters updated = s_parameters existing
           /\ ~ In updated (getStrategies st')
           /\ (forall s, In s (getStrategies st') -> In s (getStrategies st))
           /\ (forall id', id' <> "a" -> getStrategy st' id' = getStrategy st id')
           /\ backtests st' = backtests st.
Proof.
  split; [reflexivity|].
  eexists. split; [reflexivity|].
  apply (proj2 (updateStrategy_switch_off "a"
                  (StorageMore.newMemStorage ["a"; "b"; "c"; "d"; "e"]
                                             [1; 2; 3; 4; 5]%Z))).
  reflexivity.
Defined.

(** X10.  [createTrade] under a new identifier stores the trade after the
    ones already there: [getTrades] for the backtest it names returns the
    earlier trades followed by it, and for any other backtest returns what
    it returned before.  A trade that names no backtest is returned for
    none. *)
Theorem createTrade_then_getTrades :
  forall (trades : Map.t StorageMore.Trade) (id : string)
         (ins : StorageMore.InsertTrade),
    Map.get id trades = None ->
    let '(t, trades') := StorageMore.createTrade id ins trades in
    StorageMore.t_id t = id
    /\ Map.get id trades' = Some t
    /\ (forall b, StorageMore.it_backtestId ins = Some b ->
          StorageMore.getTrades trades' b
          = (StorageMore.getTrades trades b ++ [t])%list)
    /\ (forall b, StorageMore.it_backtestId ins <> Some b ->
          StorageMore.getTrades trades' b = StorageMore.getTrades trades b).
Proof.
  intros trades id ins Hfresh. unfold StorageMore.createTrade.
  split; [reflexivity|]. split; [apply get_set_same|].
  unfold StorageMore.getTrades. rewrite values_set_fresh by exact Hfresh.
  split; intros b Hb; rewrite filter_app; cbn;
    unfold StorageMore.of_backtest at 2; cbn.
  - rewrite Hb, String.eqb_refl. reflexivity.
  - destruct (StorageMore.it_backtestId ins) as [b'|]; [|now rewrite app_nil_r].
    destruct (b' =? b) eqn:E; [|now rewrite app_nil_r].
    apply String.eqb_eq in E. congruence.
Qed.

(** The first trade of backtest b1. *)
Lemma createTrade_then_getTrades_witness :
  let '(t, trades') := StorageMore.createTrade "t1" sample_trade [] in
  StorageMore.getTrades trades' "b1" = [t]
  /\ StorageMore.getTrades trades' "b2" = [].
Proof.
  pose proof (createTrade_then_getTrades [] "t1" sample_trade eq_refl) as H.
  cbv beta iota zeta delta [StorageMore.createTrade] in H |- *.
  destruct H as (_ & _ & H3 & H4).
  split; [exact (H3 "b1" eq_refl) | apply H4; discriminate].
Defined.

(** ** The routes *)

Import RoutesMore.

Lemma code_zero (code : option Z) :
  code_is_not_zero code = false <-> code = Some 0%Z.
Proof.
  destruct code as [c|]; cbn.
  - rewrite negb_false_iff, Z.eqb_eq. split; [intros ->; reflexivity | congruence].
  - split; discriminate.
Qed.

Lemma market_data_route_sync (cwd ticker : string)
      (start_date end_date : option string) (st : MemStorage) :
  market_data_route cwd ticker start_date end_date (initial_world st)
  = (Ok tt,
     mkWorld st
       [Spawn "python3" ["-c"; market_data_script cwd ticker start_date end_date]]
       [] ["stdout.data"; "stderr.data"; "close"]).
Proof.
  unfold market_data_route, try_catch, bind, spawnM, resolve.
  rewrite python2_bound. reflexivity.
Qed.

(** X11.  A market-data request is answered exactly once and never
    touches the storage.  The answer is 200 exactly when the child exited
    with code 0 and printed JSON without a truthy [error], and the reply
    is then that JSON; it is 400 exactly when the child exited with code
    0 and printed JSON with a truthy [error], and the reply is then
    [{error}]; it is 500 in every other case: any other exit code, with
    the error output of the child or "Python script failed", and an
    output that is [null] or does not parse, with "Failed to parse
    response". *)
Theorem market_data_answers_once :
  forall (cwd ticker : string) (start_date end_date : option string)
         (child : ChildExit) (st : MemStorage),
    let w' := snd (handle_market_data cwd ticker start_date end_date child
                                      (initial_world st)) in
    store w' = st
    /\ exists r,
        sent w' = [r]
        /\ (statusCode r = 200 \/ statusCode r = 400 \/ statusCode r = 500)%Z
        /\ (statusCode r = 200%Z <->
            exit_code child = Some 0%Z
            /\ exists result err,
                stdout_json child = Some result
                /\ get_prop result "error" = Some err
                /\ truthy err = false)
        /\ (statusCode r = 200%Z -> stdout_json child = Some (payload r))
        /\ (statusCode r = 400%Z <->
            exit_code child = Some 0%Z
            /\ exists result err,
                stdout_json child = Some result
                /\ get_prop result "error" = Some err
                /\ truthy err = true)
        /\ (statusCode r = 400%Z ->
            exists result err,
              stdout_json child = Some result
              /\ get_prop result "error" = Some err
              /\ payload r = JObj [("error", err)])
        /\ (statusCode r = 500%Z <->
            exit_code child <> Some 0%Z
            \/ stdout_json child = None
            \/ exists result,
                stdout_json child = Some result
                /\ get_prop result "error" = None)
        /\ (exit_code child <> Some 0%Z ->
            r = mkResponse 500 (error_body (or_default (stderr child)
                                                       "Python script failed")))
        /\ (exit_code child = Some 0%Z -> statusCode r = 500%Z ->
            r = mkResponse 500 (error_body "Failed to parse response"))
        /\ (stdout_json child = Some JNull -> statusCode r = 500%Z).
Proof.
  intros cwd ticker start_date end_date child st. cbv zeta.
  unfold handle_market_data. rewrite market_data_route_sync.
  cbn [listeners existsb String.eqb Ascii.eqb Bool.eqb orb].
  unfold market_data_on_close.
  destruct (code_is_not_zero (exit_code child)) eqn:Hcode.
  - assert (Hne : exit_code child <> Some 0%Z).
    { intros H. apply code_zero in H. congruence. }
    cbn. split; [reflexivity|]. eexists. split; [reflexivity|]. cbn.
    split; [auto|].
    split; [split; [discriminate | intros [H _]; contradiction]|].
    split; [discriminate|].
    split; [split; [discriminate | intros [H _]; contradiction]|].
    split; [discriminate|].
    split; [split; auto|].
    split; [reflexivity|].
    split; [intros H; contradiction | reflexivity].
  - apply code_zero in Hcode.
    unfold try_catch, throw, send.
    destruct (stdout_json child) as [result|] eqn:Hout.
    + destruct (get_prop result "error") as [err|] eqn:Herr.
      * destruct (truthy err) eqn:Ht; cbn;
          (split; [reflexivity|]); eexists; (split; [reflexivity|]); cbn.
        -- split; [auto|].
           split; [split; [discriminate|]|].
           { intros (_ & result' & err' & Hr & He & Hf).
             injection Hr as <-. rewrite Herr in He. injection He as <-.
             congruence. }
           split; [discriminate|].
           split; [split; [intros _; split; [exact Hcode|];
                           exists result, err; auto | reflexivity]|].
           split; [intros _; exists result, err; auto|].
           split; [split; [discriminate|]|].
           { intros [H|[H|(result' & Hr & He)]];
               [contradiction | discriminate |].
             injection Hr as <-. congruence. }
           split; [intros H; contradiction|].
           split; [discriminate|].
           intros H. injection H as ->. discriminate Herr.
        -- split; [auto|].
           split; [split; [intros _; split; [exact Hcode|];
                           exists result, err; auto | reflexivity]|].
           split; [reflexivity|].
           split; [split; [discriminate|]|].
           { intros (_ & result' & err' & Hr & He & Hf).
             injection Hr as <-. rewrite Herr in He. injection He as <-.
             congruence. }
           split; [discriminate|].
           split; [split; [discriminate|]|].
           { intros [H|[H|(result' & Hr & He)]];
               [contradiction | discriminate |].
             injection Hr as <-. congruence. }
           split; [intros H; contradiction|].
           split; [discriminate|].
           intros H. injection H as ->. discriminate Herr.
      * cbn. split; [reflexivity|]. eexists. split; [reflexivity|]. cbn.
        split; [auto|].
        split; [split; [discriminate|]|].
        { intros (_ & result' & err' & Hr & He & _).
          injection Hr as <-. congruence. }
        split; [discriminate|].
        split; [split; [discriminate|]|].
        { intros (_ & result' & err' & Hr & He & _).
          injection Hr as <-. congruence. }
        split; [discriminate|].
        split; [split; [intros _; right; right; exists result; auto
                       | reflexivity]|].
        split; [intros H; contradiction|].
        split; reflexivity.
    + cbn. split; [reflexivity|]. eexists. split; [reflexivity|]. cbn.
      split; [auto|].
      split; [split; [discriminate|]|].
      { intros (_ & result' & err' & Hr & _). discriminate. }
      split; [discriminate|].
      split; [split; [discriminate|]|].
      { intros (_ & result' & err' & Hr & _). discriminate. }
      split; [discriminate|].
      split; [split; [intros _; right; left; reflexivity | reflexivity]|].
      split; [intros H; contradiction|].
      split; [reflexivity | discriminate].
Qed.

Lemma pythonScript_bound :
  existsb (String.eqb "pythonScript") validate_ticker_scope = true.
Proof. vm_compute. reflexivity. Qed.

(** X12.  A ticker validation request starts one [python3 -c <program>]
    child whose program text passes the ticker as received to both
    [validate_ticker] and [get_ticker_info], is answered exactly once and
    never touches the storage.  The answer is 200 exactly when the child
    exits with code 0, and 500 otherwise, never 400: on exit code 0 the
    reply is the printed JSON, whatever it says, or
    [{ valid: false, error: "Failed to validate ticker" }] when the output
    does not parse. *)
Theorem validate_ticker_answers_once :
  forall (cwd ticker : string) (child : ChildExit) (st : MemStorage),
    let w' := snd (handle_validate_ticker cwd ticker child (initial_world st)) in
    store w' = st
    /\ (exists script,
          spawned w' = [Spawn "python3" ["-c"; script]]
          /\ includes ("DataService.validate_ticker('" ++ ticker) script = true
          /\ includes ("DataService.get_ticker_info('" ++ ticker) script = true)
    /\ exists r,
        sent w' = [r]
        /\ (statusCode r = 200%Z <-> exit_code child = Some 0%Z)
        /\ (statusCode r = 500%Z <-> exit_code child <> Some 0%Z)
        /\ (exit_code child = Some 0%Z ->
            forall result, stdout_json child = Some result -> payload r = result)
        /\ (exit_code child = Some 0%Z -> stdout_json child = None ->
            payload r = invalid_body "Failed to validate ticker")
        /\ (exit_code child <> Some 0%Z ->
            payload r = invalid_body (or_default (stderr child)
                                                 "Python script failed")).
Proof.
  intros cwd ticker child st. cbv zeta.
  unfold handle_validate_ticker, validate_ticker_route, try_catch, bind,
    spawnM, resolve.
  rewrite pythonScript_bound. unfold ret, on.
  cbn [listeners initial_world app existsb String.eqb Ascii.eqb Bool.eqb orb
       store spawned sent].
  assert (Hscript :
            includes ("DataService.validate_ticker('" ++ ticker)
                     (validate_ticker_script cwd ticker) = true
            /\ includes ("DataService.get_ticker_info('" ++ ticker)
                        (validate_ticker_script cwd ticker) = true).
  { unfold validate_ticker_script. split.
    - eapply includes_join; [do 9 right; left; reflexivity|].
      change ("    is_valid = DataService.validate_ticker('" ++ ticker ++ "')")
        with ("    is_valid = "
              ++ ("DataService.validate_ticker('" ++ ticker) ++ "')").
      apply includes_skip, includes_here.
    - eapply includes_join; [do 10 right; left; reflexivity|].
      change ("    info = DataService.get_ticker_info('" ++ ticker
              ++ "') if is_valid else {}")
        with ("    info = "
              ++ ("DataService.get_ticker_info('" ++ ticker)
              ++ "') if is_valid else {}").
      apply includes_skip, includes_here. }
  unfold validate_ticker_on_close.
  destruct (code_is_not_zero (exit_code child)) eqn:Hcode.
  - assert (Hne : exit_code child <> Some 0%Z).
    { intros H. apply code_zero in H. congruence. }
    cbn. split; [reflexivity|]. split; [eexists; split; [reflexivity | exact Hscript]|].
    eexists. split; [reflexivity|]. cbn.
    split; [split; [discriminate | intros H; contradiction]|].
    split; [split; auto|].
    split; [intros H; contradiction|].
    split; [intros H; contradiction | reflexivity].
  - apply code_zero in Hcode.
    unfold try_catch, throw, send.
    destruct (stdout_json child) as [result|] eqn:Hout; cbn;
      (split; [reflexivity|]);
      (split; [eexists; split; [reflexivity | exact Hscript]|]);
      eexists; (split; [reflexivity|]); cbn;
      (split; [split; auto|]);
      (split; [split; [discriminate | intros H; contradiction]|]).
    + split; [intros _ r H; congruence|].
      split; [discriminate | intros H; contradiction].
    + split; [intros _ r H; discriminate|].
      split; [reflexivity | intros H; contradiction].
Qed.

Lemma updateBacktestM_stored (id : string) (p : PartialBacktest) (w : World)
      (backtest : Backtest) :
  getBacktest (store w) id = Some backtest ->
  updateBacktestM id p w
  = (Ok tt,
     mkWorld (with_backtests (store w)
                (Map.set id (spread backtest p) (backtests (store w))))
             (spawned w) (sent w) (listeners w)).
Proof.
  unfold updateBacktestM, updateBacktest, getBacktest. intros ->. reflexivity.
Qed.

(** X13.  The [close] listener the run handler defines, run on a stored
    backtest, writes one response and one status.  Exactly when the child
    exited with code 0 and printed JSON without a truthy [error], the
    record gets status [completed] and that JSON as results, and the
    reply is 200 with the same JSON.  In every other case the record gets
    status [failed] and keeps its earlier results; the reply is then 400
    with [{error}] exactly when the child exited with code 0 and printed
    JSON with a truthy [error], and 500 otherwise: with the error output
    of the child or "Backtest failed" for another exit code, with "Failed
    to parse backtest results" for an output that is [null] or does not
    parse.  No other record is changed and no process is started. *)
Theorem run_on_close_outcome :
  forall (id : string) (child : ChildExit) (w : World) (backtest : Backtest),
    getBacktest (store w) id = Some backtest ->
    let w' := snd (run_on_close id child w) in
    spawned w' = spawned w
    /\ (forall id', id' <> id ->
          getBacktest (store w') id' = getBacktest (store w) id')
    /\ exists r,
        sent w' = (sent w ++ [r])%list
        /\ ((statusCode r = 200%Z
             /\ exit_code child = Some 0%Z
             /\ stdout_json child = Some (payload r)
             /\ (exists err, get_prop (payload r) "error" = Some err
                             /\ truthy err = false)
             /\ getBacktest (store w') id
                = Some (spread backtest
                          (patch_status_results "completed" (payload r))))
            \/ ((statusCode r = 400%Z \/ statusCode r = 500%Z)
                /\ getBacktest (store w') id
                   = Some (spread backtest (patch_status "failed"))
                /\ b_results (spread backtest (patch_status "failed"))
                   = b_results backtest
                /\ (exit_code child <> Some 0%Z
                    \/ stdout_json child = None
                    \/ exists result,
                        stdout_json child = Some result
                        /\ (get_prop result "error" = None
                            \/ exists err, get_prop result "error" = Some err
                                           /\ truthy err = true))))
        /\ (statusCode r = 400%Z <->
            exit_code child = Some 0%Z
            /\ exists result err,
                stdout_json child = Some result
                /\ get_prop result "error" = Some err
                /\ truthy err = true)
        /\ (statusCode r = 400%Z ->
            exists result err,
              stdout_json child = Some result
              /\ get_prop result "error" = Some err
              /\ payload r = JObj [("error", err)])
        /\ (exit_code child <> Some 0%Z ->
            r = mkResponse 500 (error_body (or_default (stderr child)
                                                       "Backtest failed")))
        /\ (exit_code child = Some 0%Z -> statusCode r = 500%Z ->
            r = mkResponse 500
                  (error_body "Failed to parse backtest results")).
Proof.
  intros id child w backtest Hget. cbv zeta.
  assert (Hfail : forall code body,
             let w1 := snd ((updateBacktestM id (patch_status "failed") ;;;
                             send code body) w) in
             spawned w1 = spawned w
             /\ (forall id', id' <> id ->
                   getBacktest (store w1) id' = getBacktest (store w) id')
             /\ sent w1 = (sent w ++ [mkResponse code body])%list
             /\ getBacktest (store w1) id
                = Some (spread backtest (patch_status "failed"))).
  { intros code body. unfold bind.
    rewrite (updateBacktestM_stored id _ w backtest Hget). cbn.
    unfold getBacktest. cbn.
    split; [reflexivity|]. split; [intros id' Hne; now apply get_set_other|].
    split; [reflexivity | apply get_set_same]. }
  unfold run_on_close, try_catch.
  destruct (code_is_not_zero (exit_code child)) eqn:Hcode.
  - assert (Hne : exit_code child <> Some 0%Z).
    { intros H. apply code_zero in H. congruence. }
    specialize (Hfail 500%Z (error_body (or_default (stderr child) "Backtest failed"))).
    cbv zeta in Hfail.
    destruct ((updateBacktestM id (patch_status "failed") ;;;
               send 500 (error_body (or_default (stderr child) "Backtest failed"))) w)
      as [[u|e] w1] eqn:Hrun; cbn [snd] in *.
    + destruct Hfail as (H1 & H2 & H3 & H4).
      split; [exact H1|]. split; [exact H2|].
      eexists. split; [exact H3|]. cbn.
      split; [right; auto|].
      split; [split; [discriminate | intros [H _]; contradiction]|].
      split; [discriminate|].
      split; [reflexivity | intros H; contradiction].
    + unfold bind in Hrun.
      rewrite (updateBacktestM_stored id _ w backtest Hget) in Hrun.
      discriminate Hrun.
  - apply code_zero in Hcode.
    destruct (stdout_json child) as [result|] eqn:Hout.
    + destruct (get_prop result "error") as [err|] eqn:Herr.
      * destruct (truthy err) eqn:Ht.
        -- specialize (Hfail 400%Z (JObj [("error", err)])). cbv zeta in Hfail.
           unfold bind in *.
           rewrite (updateBacktestM_stored id _ w backtest Hget) in *.
           cbn in *. destruct Hfail as (H1 & H2 & H3 & H4).
           split; [exact H1|]. split; [exact H2|].
           eexists. split; [exact H3|]. cbn.
           split.
           { right. split; [auto|]. split; [exact H4|]. split; [reflexivity|].
             right. right. exists result. split; [reflexivity|]. right.
             exists err. auto. }
           split; [split; [intros _; split; [exact Hcode|];
                           exists result, err; auto | reflexivity]|].
           split; [intros _; exists result, err; auto|].
           split; [intros H; contradiction | discriminate].
        -- unfold bind.
           rewrite (updateBacktestM_stored id _ w backtest Hget). cbn.
           unfold getBacktest. cbn.
           split; [reflexivity|]. split; [intros id' Hne; now apply get_set_other|].
           eexists. split; [reflexivity|]. cbn.
           split.
           { left. split; [reflexivity|]. split; [exact Hcode|].
             split; [reflexivity|]. split; [exists err; auto|].
             apply get_set_same. }
           split; [split; [discriminate|]|].
           { intros (_ & result' & err' & Hr & He & Hf).
             injection Hr as <-. rewrite Herr in He. injection He as <-.
             congruence. }
           split; [discriminate|].
           split; [intros H; contradiction | discriminate].
      * specialize (Hfail 500%Z (error_body "Failed to parse backtest results")).
        cbv zeta in Hfail. unfold throw.
        destruct Hfail as (H1 & H2 & H3 & H4).
        split; [exact H1|]. split; [exact H2|].
        eexists. split; [exact H3|]. cbn.
        split.
        { right. split; [auto|]. split; [exact H4|]. split; [reflexivity|].
          right. right. exists result. auto. }
        split; [split; [discriminate|]|].
        { intros (_ & result' & err' & Hr & He & _).
          injection Hr as <-. congruence. }
        split; [discriminate|].
        split; [intros H; contradiction | reflexivity].
    + specialize (Hfail 500%Z (error_body "Failed to parse backtest results")).
      cbv zeta in Hfail. unfold throw.
      destruct Hfail as (H1 & H2 & H3 & H4).
      split; [exact H1|]. split; [exact H2|].
      eexists. split; [exact H3|]. cbn.
      split; [right; auto 6|].
      split; [split; [discriminate|]|].
      { intros (_ & result' & err' & Hr & _). discriminate. }
      split; [discriminate|].
      split; [intros H; contradiction | reflexivity].
Qed.

(** The listener on the sample record, the child having printed an empty
    object: one reply is written, and the record is completed. *)
Lemma run_on_close_outcome_witness :
  let st := snd (createBacktest "b1" 0%Z sample_insert empty_storage) in
  let backtest := fst (createBacktest "b1" 0%Z sample_insert empty_storage) in
  let child := mkChildExit (Some 0%Z) (Some (JObj [])) EmptyString in
  let w' := snd (run_on_close "b1" child (initial_world st)) in
  spawned w' = []
  /\ (forall id', id' <> "b1" ->
        getBacktest (store w') id' = getBacktest st id')
  /\ exists r,
      sent w' = [r]
      /\ ((statusCode r = 200%Z
           /\ exit_code child = Some 0%Z
           /\ stdout_json child = Some (payload r)
           /\ (exists err, get_prop (payload r) "error" = Some err
                           /\ truthy err = false)
           /\ getBacktest (store w') "b1"
              = Some (spread backtest
                        (patch_status_results "completed" (payload r))))
          \/ ((statusCode r = 400%Z \/ statusCode r = 500%Z)
              /\ getBacktest (store w') "b1"
                 = Some (spread backtest (patch_status "failed"))
              /\ b_results (spread backtest (patch_status "failed"))
                 = b_results backtest
              /\ (exit_code child <> Some 0%Z
                  \/ stdout_json child = None
                  \/ exists result,
                      stdout_json child = Some result
                      /\ (get_prop result "error" = None
                          \/ exists err, get_prop result "error" = Some err
                                         /\ truthy err = true))))
      /\ (statusCode r = 400%Z <->
          exit_code child = Some 0%Z
          /\ exists result err,
              stdout_json child = Some result
              /\ get_prop result "error" = Some err
              /\ truthy err = true)
      /\ (statusCode r = 400%Z ->
          exists result err,
            stdout_json child = Some result
            /\ get_prop result "error" = Some err
            /\ payload r = JObj [("error", err)])
      /\ (exit_code child <> Some 0%Z ->
          r = mkResponse 500 (error_body (or_default (stderr child)
                                                     "Backtest failed")))
      /\ (exit_code child = Some 0%Z -> statusCode r = 500%Z ->
          r = mkResponse 500
                (error_body "Failed to parse backtest results")).
Proof.
  apply (run_on_close_outcome "b1"
           (mkChildExit (Some 0%Z) (Some (JObj [])) EmptyString)
           (initial_world (snd (createBacktest "b1" 0%Z sample_insert
                                               empty_storage)))
           (fst (createBacktest "b1" 0%Z sample_insert empty_storage))).
  reflexivity.
Defined.

(** X14.  A backtest record made by [createBacktest] can be read back
    over HTTP: [GET /api/backtests/:id] with its identifier answers 200
    with the record, [GET /api/backtests] answers 200 with the records of
    the storage, the new one among them, and neither request changes the
    storage.  An identifier that is not stored is answered 404 "Backtest
    not found". *)
Theorem created_backtest_can_be_read_back :
  forall (id : string) (now : Date) (insertBacktest : InsertBacktest)
         (st : MemStorage),
    let created := fst (createBacktest id now insertBacktest st) in
    let st1 := snd (createBacktest id now insertBacktest st) in
    let w2 := snd (get_backtest_route id (initial_world st1)) in
    let w3 := snd (list_backtests_route (initial_world st1)) in
    sent w2 = [mkResponse 200 (backtest_json created)]
    /\ store w2 = st1
    /\ sent w3 = [mkResponse 200
                    (JArr (map backtest_json
                               (StorageMore.getBacktests st1 None)))]
    /\ In created (StorageMore.getBacktests st1 None)
    /\ store w3 = st1
    /\ (forall id',
          getBacktest st1 id' = None ->
          let w4 := snd (get_backtest_route id' (initial_world st1)) in
          sent w4 = [mkResponse 404 (error_body "Backtest not found")]
          /\ store w4 = st1).
Proof.
  intros id now insertBacktest st. cbv zeta.
  unfold createBacktest. cbn [fst snd].
  set (created := mkBacktest id None (ib_ticker insertBacktest)
                    (ib_startDate insertBacktest) (ib_endDate insertBacktest)
                    (ib_initialCapital insertBacktest)
                    (ib_commission insertBacktest)
                    (ib_strategyConfig insertBacktest)
                    JNull (Some "pending") (Some now)).
  set (st1 := with_backtests st (Map.set id created (backtests st))).
  assert (Hget : getBacktest st1 id = Some created).
  { unfold getBacktest, st1. cbn. apply get_set_same. }
  split; [|split; [|split; [|split; [|split]]]].
  - unfold get_backtest_route, try_catch, bind, getBacktestM.
    cbn [store initial_world]. rewrite Hget. reflexivity.
  - unfold get_backtest_route, try_catch, bind, getBacktestM.
    cbn [store initial_world]. rewrite Hget. reflexivity.
  - reflexivity.
  - unfold StorageMore.getBacktests, st1. cbn. apply in_values_set.
  - reflexivity.
  - intros id' Hnone.
    unfold get_backtest_route, try_catch, bind, getBacktestM.
    cbn [store initial_world]. rewrite Hnone. split; reflexivity.
Qed.

(** The sample configuration, stored under "b1" and read back. *)
Lemma created_backtest_can_be_read_back_witness :
  let created := fst (createBacktest "b1" 0%Z sample_insert empty_storage) in
  let st1 := snd (createBacktest "b1" 0%Z sample_insert empty_storage) in
  sent (snd (get_backtest_route "b1" (initial_world st1)))
  = [mkResponse 200 (backtest_json created)]
  /\ sent (snd (get_backtest_route "b2" (initial_world st1)))
     = [mkResponse 404 (error_body "Backtest not found")].
Proof.
  split.
  - apply (proj1 (created_backtest_can_be_read_back "b1" 0%Z sample_insert
                    empty_storage)).
  - apply (proj2 (proj2 (proj2 (proj2 (proj2
             (created_backtest_can_be_read_back "b1" 0%Z sample_insert
                empty_storage))))) "b2").
    reflexivity.
Defined.

(** X15.  The backtest form sends nothing while the ticker is empty or no
    strategy is selected.  Otherwise it sends the ticker, the two dates of
    the range as the strings they are, the capital, the commission
    percentage divided by 100 as the runtime divides, and the selected
    strategies; and since the dates arrive as strings,
    [POST /api/backtests] answers that configuration with 400 "Invalid
    backtest configuration" and stores nothing. *)
Theorem form_configuration_is_rejected :
  forall (divide : number -> number -> number)
         (ticker : string) (dateRange : string * string)
         (form : Client.FormState) (strategies : list Client.StrategyConfig),
    (Client.handleRunBacktest divide ticker dateRange form strategies = None
     <-> ticker = EmptyString \/ strategies = [])
    /\ (forall c,
          Client.handleRunBacktest divide ticker dateRange form strategies
          = Some c ->
          Client.bc_ticker c = ticker
          /\ Client.bc_startDate c = fst dateRange
          /\ Client.bc_endDate c = snd dateRange
          /\ Client.bc_initialCapital c = Client.f_initialCapital form
          /\ Client.bc_commission c = divide (Client.f_commission form) 100
          /\ Client.bc_strategyConfig c = strategies
          /\ forall id now st,
              let w := snd (post_backtests (Client.config_body c) id now
                                           (initial_world st)) in
              sent w = [mkResponse 400
                          (error_body "Invalid backtest configuration")]
              /\ store w = st).
Proof.
  intros divide ticker dateRange form strategies.
  unfold Client.handleRunBacktest.
  split.
  - destruct (ticker =? EmptyString) eqn:Et; cbn.
    + apply String.eqb_eq in Et. split; auto.
    + apply String.eqb_neq in Et. destruct strategies as [|s l]; cbn.
      * split; auto.
      * split; [discriminate|]. intros [H|H]; [contradiction | discriminate].
  - intros c Hc.
    destruct ((ticker =? EmptyString) || (List.length strategies =? 0)%nat);
      [discriminate|].
    injection Hc as <-. cbn.
    repeat split.
Qed.

(** The rounded division does not give the quotient of the rationals:
    with 0.07 held as the double nearest to it, 0.07 / 100 is
    0.0007000000000000001, above 7 / 10000. *)
Example rounded_division_is_not_exact :
  (sample_divide (round53 (7 # 100)) 100
   == 807045053224793 # 1152921504606846976)%Q
  /\ (7 # 10000 < sample_divide (round53 (7 # 100)) 100)%Q.
Proof. split; vm_compute; reflexivity. Qed.

(** The form with its initial values, AAPL, one strategy and a range, on
    a runtime whose quotients are rounded to the nearest double. *)
Lemma form_configuration_is_rejected_witness :
  exists c,
    Client.handleRunBacktest sample_divide "AAPL"
                             ("2024-01-01", "2024-06-30") sample_form
                             [rsi_card] = Some c
    /\ Client.bc_commission c = sample_divide (1 # 10) 100
    /\ sent (snd (post_backtests (Client.config_body c) "b1" 0%Z
                                 (initial_world empty_storage)))
       = [mkResponse 400 (error_body "Invalid backtest configuration")].
Proof.
  eexists. split; [reflexivity|].
  pose proof (proj2 (form_configuration_is_rejected sample_divide "AAPL"
                       ("2024-01-01", "2024-06-30") sample_form [rsi_card])
                    _ eq_refl) as H.
  destruct H as (_ & _ & _ & _ & Hc & _ & Hpost).
  split; [exact Hc | exact (proj1 (Hpost "b1" 0%Z empty_storage))].
Defined.

(** ** The request logger *)

Import Middleware.

Lemma startsWith_prefix (pre text : units) :
  startsWith pre text = true <-> exists rest, text = (pre ++ rest)%list.
Proof.
  revert text. induction pre as [|p pre IH]; intros text; cbn.
  - split; [intros _; now exists text | reflexivity].
  - destruct text as [|t text].
    + split; [discriminate | intros [rest H]; discriminate].
    + rewrite andb_true_iff, N.eqb_eq, IH. split.
      * intros [-> [rest ->]]. now exists rest.
      * intros [rest H]. injection H as -> ->. split; [reflexivity | now exists rest].
Qed.

(** X16.  The request logger writes a line only for paths that start with
    [/api].  The line is never longer than 80 code units: a line of at
    most 80 units is written in full, and a longer one is cut to its first
    79 units followed by the ellipsis, which makes exactly 80.  A response
    body is part of the line only when it is truthy. *)
Theorem logged_line_is_bounded :
  forall (Number_toString : Z -> units) (JSON_stringify : JsVal -> units)
         (method path : units) (statusCode duration : Z) (captured : JsVal),
    let full := full_line Number_toString JSON_stringify method path
                          statusCode duration captured in
    (on_finish Number_toString JSON_stringify method path statusCode duration
               captured = None
     <-> ~ exists rest, path = (units_of_string "/api" ++ rest)%list)
    /\ (forall line,
          on_finish Number_toString JSON_stringify method path statusCode
                    duration captured = Some line ->
          (List.length line <= 80)%nat
          /\ ((List.length full <= 80)%nat -> line = full)
          /\ ((80 < List.length full)%nat ->
              line = (firstn 79 full ++ [ellipsis])%list
              /\ List.length line = 80%nat))
    /\ (truthy captured = false ->
        full = (method ++ units_of_string " " ++ path ++ units_of_string " "
                ++ Number_toString statusCode ++ units_of_string " in "
                ++ Number_toString duration ++ units_of_string "ms")%list).
Proof.
  intros N J method path statusCode duration captured. cbv zeta.
  unfold on_finish.
  pose proof (startsWith_prefix (units_of_string "/api") path) as Hsw.
  split; [|split].
  - destruct (startsWith (units_of_string "/api") path).
    + split; [discriminate|]. intros H. contradict H. now apply Hsw.
    + split; [|reflexivity]. intros _ H. apply Hsw in H. discriminate.
  - intros line Hline.
    destruct (startsWith (units_of_string "/api") path); [|discriminate].
    injection Hline as <-. unfold cut.
    set (full := full_line N J method path statusCode duration captured).
    destruct (80 <? List.length full)%nat eqn:E.
    + apply Nat.ltb_lt in E.
      assert (Hlen : List.length (firstn 79 full ++ [ellipsis])%list = 80%nat).
      { rewrite length_app, length_firstn.
        change (List.length [ellipsis]) with 1%nat. lia. }
      split; [lia|]. split; [lia | auto].
    + apply Nat.ltb_ge in E. split; [exact E|]. split; [reflexivity | lia].
  - intros Hfalsy. unfold full_line. rewrite Hfalsy. reflexivity.
Qed.

(** ** The strategy builder *)

Lemma find_none_not_in (l : list Client.StrategyConfig) (id : string) :
  find (fun s => Client.sc_id s =? id) l = None <->
  ~ In id (map Client.sc_id l).
Proof.
  induction l as [|a l IH]; cbn; [tauto|].
  destruct (Client.sc_id a =? id) eqn:E.
  - apply String.eqb_eq in E. split; [discriminate | intros H; contradict H; auto].
  - apply String.eqb_neq in E. rewrite IH. tauto.
Qed.

Lemma select_keeps_ids_unique (l : list Client.StrategyConfig)
      (s : Client.StrategyConfig) :
  NoDup (map Client.sc_id l) ->
  NoDup (map Client.sc_id (Client.handleStrategySelect l s)).
Proof.
  intros Hnd. unfold Client.handleStrategySelect.
  destruct (find _ l) eqn:E; [exact Hnd|].
  apply find_none_not_in in E.
  rewrite map_app. cbn. apply NoDup_app.
  - exact Hnd.
  - repeat constructor. intros [].
  - intros a Ha [<-|[]]. contradiction.
Qed.

Lemma remove_keeps_ids_unique (l : list Client.StrategyConfig) (id : string) :
  NoDup (map Client.sc_id l) ->
  NoDup (map Client.sc_id (Client.handleStrategyRemove l id)).
Proof.
  unfold Client.handleStrategyRemove.
  induction l as [|a l IH]; cbn; intros Hnd; [constructor|].
  inversion Hnd as [|? ? Hnotin Hnd']; subst.
  destruct (negb (Client.sc_id a =? id)); cbn; [|now apply IH].
  constructor; [|now apply IH].
  intros Hin. apply Hnotin. apply in_map_iff in Hin.
  destruct Hin as (x & Hx & Hf). apply filter_In in Hf.
  apply in_map_iff. exists x. tauto.
Qed.

(** X17.  Whatever series of selections and removals the user makes in
    the strategy builder, starting from the empty stack, no strategy
    identifier is ever in the stack twice; selecting a strategy that is
    already there changes nothing, and after a removal the identifier is
    gone from the stack. *)
Theorem strategy_stack_has_unique_ids :
  forall (actions : list Client.BuilderAction),
    NoDup (map Client.sc_id (fold_left Client.act actions []))
    /\ (forall s,
          let stack := fold_left Client.act actions [] in
          In (Client.sc_id s) (map Client.sc_id stack) ->
          Client.handleStrategySelect stack s = stack)
    /\ (forall id,
          let stack := fold_left Client.act actions [] in
          ~ In id (map Client.sc_id (Client.handleStrategyRemove stack id))).
Proof.
  intros actions.
  assert (Hinv : forall l, NoDup (map Client.sc_id l) ->
                           NoDup (map Client.sc_id (fold_left Client.act actions l))).
  { induction actions as [|a actions IH]; intros l Hl; [exact Hl|].
    cbn. apply IH. destruct a as [s|id]; cbn.
    - now apply select_keeps_ids_unique.
    - now apply remove_keeps_ids_unique. }
  split; [apply Hinv; constructor|]. split.
  - intros s stack Hin. unfold Client.handleStrategySelect.
    destruct (find _ stack) eqn:E; [reflexivity|].
    apply find_none_not_in in E. contradiction.
  - intros id stack Hin. unfold Client.handleStrategyRemove in Hin.
    apply in_map_iff in Hin. destruct Hin as (x & Hx & Hf).
    apply filter_In in Hf. destruct Hf as [_ Hf].
    rewrite negb_true_iff in Hf. apply String.eqb_neq in Hf. contradiction.
Qed.

(** X18.  Selecting a strategy whose identifier is not yet in the stack
    puts it last, and removing it again gives back the stack as it was. *)
Theorem select_then_remove_restores :
  forall (stack : list Client.StrategyConfig) (s : Client.StrategyConfig),
    ~ In (Client.sc_id s) (map Client.sc_id stack) ->
    Client.handleStrategySelect stack s = (stack ++ [s])%list
    /\ Client.handleStrategyRemove (Client.handleStrategySelect stack s)
                                   (Client.sc_id s) = stack.
Proof.
  intros stack s Hnew.
  assert (Hsel : Client.handleStrategySelect stack s = (stack ++ [s])%list).
  { unfold Client.handleStrategySelect.
    destruct (find _ stack) eqn:E; [|reflexivity].
    exfalso. apply Hnew. apply find_some in E. destruct E as [Hin Heq].
    apply String.eqb_eq in Heq. apply in_map_iff. now exists s0. }
  split; [exact Hsel|]. rewrite Hsel.
  unfold Client.handleStrategyRemove. rewrite filter_app. cbn.
  rewrite String.eqb_refl. cbn. rewrite app_nil_r.
  induction stack as [|a stack IH]; [reflexivity|]. cbn in *.
  destruct (Client.sc_id a =? Client.sc_id s) eqn:E.
  - apply String.eqb_eq in E. exfalso. apply Hnew. now left.
  - cbn. f_equal. apply IH; [tauto|].
    unfold Client.handleStrategySelect.
    destruct (find _ stack) eqn:F; [|reflexivity].
    exfalso. apply Hnew. right. apply find_some in F. destruct F as [Hin Heq].
    apply String.eqb_eq in Heq. apply in_map_iff. now exists s0.
Qed.

(** MACD selected on top of RSI, then removed. *)
Lemma select_then_remove_restores_witness :
  Client.handleStrategySelect [rsi_card] macd_card = [rsi_card; macd_card]
  /\ Client.handleStrategyRemove (Client.handleStrategySelect [rsi_card] macd_card)
                                 "s-macd" = [rsi_card].
Proof.
  apply (select_then_remove_restores [rsi_card] macd_card).
  cbn. intuition discriminate.
Defined.

(** ** The price chart *)

Lemma add_indicators_other (key : string)
      (indicators : list (string * list number)) (index : nat) :
  ~ In key (map fst indicators) ->
  forall baseData,
    Map.get key (Client.add_indicators indicators index baseData)
    = Map.get key baseData.
Proof.
  unfold Client.add_indicators.
  induction indicators as [|[k values] inds IH]; intros Hnot baseData; [reflexivity|].
  cbn in *. rewrite IH by tauto.
  destruct (nth_error values index); [|reflexivity].
  unfold Client.assign. apply get_set_other. intros ->. tauto.
Qed.

Lemma map_from_nth (toLocaleDateString : string -> string)
      (signals : option Client.Signals)
      (indicators : option (list (string * list number)))
      (data : list Client.Bar) :
  forall (start i : nat) (item : Client.Bar),
    nth_error data i = Some item ->
    nth_error (Client.map_from toLocaleDateString signals indicators start data) i
    = Some (Client.chart_point toLocaleDateString signals indicators item
                               (start + i)).
Proof.
  induction data as [|b data IH]; intros start i item H.
  - destruct i; discriminate.
  - destruct i as [|i]; cbn in *.
    + injection H as ->. now rewrite Nat.add_0_r.
    + rewrite (IH (S start) i item H). f_equal. f_equal. lia.
Qed.

Lemma map_from_length (toLocaleDateString : string -> string)
      (signals : option Client.Signals)
      (indicators : option (list (string * list number)))
      (data : list Client.Bar) :
  forall start,
    List.length (Client.map_from toLocaleDateString signals indicators start data)
    = List.length data.
Proof.
  induction data as [|b data IH]; intros start; cbn; [reflexivity|].
  now rewrite IH.
Qed.

(** X19.  The price chart draws one point per bar, point i computed from
    bar i and index i.  When no indicator is called [buySignal] or
    [sellSignal], point i carries a buy marker exactly when the signals
    are given, their date at i is a non-empty string and their signal at i
    equals 1, and a sell marker exactly when instead the signal equals -1;
    no point carries both markers. *)
Theorem chart_markers_follow_signals :
  forall (toLocaleDateString : string -> string) (data : list Client.Bar)
         (signals : option Client.Signals)
         (indicators : option (list (string * list number))),
    (forall inds, indicators = Some inds ->
                  ~ In "buySignal" (map fst inds)
                  /\ ~ In "sellSignal" (map fst inds)) ->
    let points := Client.chartData toLocaleDateString data signals indicators in
    List.length points = List.length data
    /\ forall i item,
        nth_error data i = Some item ->
        exists point,
          nth_error points i = Some point
          /\ point = Client.chart_point toLocaleDateString signals indicators
                                        item i
          /\ (Map.get "buySignal" point <> None <-> Client.marked signals i 1)
          /\ (Map.get "sellSignal" point <> None <-> Client.marked signals i (-1))
          /\ ~ (Map.get "buySignal" point <> None
                /\ Map.get "sellSignal" point <> None).
Proof.
  intros toLocale data signals indicators Hkeys. cbv zeta.
  unfold Client.chartData. split; [apply map_from_length|].
  intros i item Hnth. eexists. split; [apply (map_from_nth _ _ _ _ 0 i item Hnth)|].
  cbn [Nat.add]. split; [reflexivity|].
  unfold Client.chart_point.
  set (base0 := [("date", JStr (toLocale (Client.bar_Date item)));
                 ("price", JNum (Client.bar_Close item));
                 ("volume", JNum (Client.bar_Volume item))]).
  set (base := match indicators with
               | Some inds => Client.add_indicators inds i base0
               | None => base0
               end).
  assert (Hbuy0 : Map.get "buySignal" base = None).
  { unfold base. destruct indicators as [inds|]; [|reflexivity].
    rewrite add_indicators_other; [reflexivity|]. now apply (Hkeys inds). }
  assert (Hsell0 : Map.get "sellSignal" base = None).
  { unfold base. destruct indicators as [inds|]; [|reflexivity].
    rewrite add_indicators_other; [reflexivity|]. now apply (Hkeys inds). }
  clearbody base. clear base0.
  unfold Client.add_signal, Client.marked.
  destruct signals as [sg|].
  2:{ rewrite Hbuy0, Hsell0.
      repeat split; try congruence; try (intros (? & ? & ? & H & _); discriminate H);
        intros [H _]; congruence. }
  destruct (nth_error (Client.sig_dates sg) i) as [d|] eqn:Hd.
  2:{ rewrite Hbuy0, Hsell0.
      repeat split; try congruence;
        try (intros (? & ? & ? & H & H' & _); injection H as <-; congruence);
        intros [H _]; congruence. }
  destruct (d =? EmptyString) eqn:Ed.
  { apply String.eqb_eq in Ed. rewrite Hbuy0, Hsell0.
    repeat split; try congruence;
      try (intros (? & ? & ? & H & H' & Hne & _); injection H as <-; congruence);
      intros [H _]; congruence. }
  apply String.eqb_neq in Ed.
  destruct (nth_error (Client.sig_signals sg) i) as [signal|] eqn:Hs.
  2:{ rewrite Hbuy0, Hsell0.
      repeat split; try congruence;
        try (intros (? & ? & ? & H & _ & _ & H' & _); injection H as <-; congruence);
        intros [H _]; congruence. }
  destruct (Qeq_bool signal 1) eqn:E1.
  - apply Qeq_bool_iff in E1. unfold Client.assign.
    rewrite get_set_same, get_set_other, Hsell0 by discriminate.
    repeat split; try congruence.
    + intros _. exists sg, d, signal. auto.
    + intros (sg' & d' & signal' & H & _ & _ & H' & Hq).
      injection H as <-. rewrite Hs in H'. injection H' as <-.
      rewrite E1 in Hq. discriminate Hq.
    + intros [_ H]. congruence.
  - assert (N1 : ~ (signal == 1)%Q).
    { intros H. apply Qeq_bool_iff in H. congruence. }
    destruct (Qeq_bool signal (-1)) eqn:E2.
    + apply Qeq_bool_iff in E2. unfold Client.assign.
      rewrite get_set_same, get_set_other, Hbuy0 by discriminate.
      repeat split; try congruence.
      * intros (sg' & d' & signal' & H & _ & _ & H' & Hq).
        injection H as <-. rewrite Hs in H'. injection H' as <-. contradiction.
      * intros _. exists sg, d, signal. auto.
      * intros [H _]. congruence.
    + assert (N2 : ~ (signal == -1)%Q).
      { intros H. apply Qeq_bool_iff in H. congruence. }
      rewrite Hbuy0, Hsell0.
      repeat split; try congruence;
        try (intros (sg' & d' & signal' & H & _ & _ & H' & Hq);
             injection H as <-; rewrite Hs in H'; injection H' as <-;
             contradiction);
        intros [H _]; congruence.
Qed.

(** The sample bars with a buy on the first and a sell on the third. *)
Lemma chart_markers_follow_signals_witness :
  let points := Client.chartData (fun text => text) sample_chart_bars
                                 (Some sample_signals) None in
  List.length points = List.length sample_chart_bars
  /\ forall i item,
      nth_error sample_chart_bars i = Some item ->
      exists point,
        nth_error points i = Some point
        /\ point = Client.chart_point (fun text => text) (Some sample_signals)
                                      None item i
        /\ (Map.get "buySignal" point <> None
            <-> Client.marked (Some sample_signals) i 1)
        /\ (Map.get "sellSignal" point <> None
            <-> Client.marked (Some sample_signals) i (-1))
        /\ ~ (Map.get "buySignal" point <> None
              /\ Map.get "sellSignal" point <> None).
Proof.
  apply (chart_markers_follow_signals (fun text => text) sample_chart_bars
                                      (Some sample_signals) None).
  intros inds H. discriminate H.
Defined.

(** On the sample bars the markers are a buy at 100 on the first point and
    a sell at 111 on the third. *)
Example chart_sample_points :
  map (fun point => (Map.get "buySignal" point, Map.get "sellSignal" point))
      (Client.chartData (fun text => text) sample_chart_bars
                        (Some sample_signals) None)
  = [ (Some (JNum 100), None); (None, None); (None, Some (JNum 111)) ].
Proof. reflexivity. Qed.
